(** * tortus: the annotation bookkeeping of [tortus/tortus.py]

    A shallow embedding of the class [Tortus]: the construction of the working
    subset, the lookup of a prior annotation, and the button handlers that
    [annotate] registers (label, skip, confirm, prev, redo).

    The source is written against pandas.  The part of pandas it calls is
    modelled first ([Module Pandas]): frames are a list of column labels and a
    list of rows, each row carrying its index label, because the source
    addresses annotation rows by label ([.loc[idx]]) and by position
    ([.iloc], [head]).  Every call that can raise in Python returns a
    [result]; the handlers, which mutate [self], live in a state monad whose
    state survives an exception, as attribute assignments do in Python.

    Labels go through [str.lower()], which is modelled on code points with
    the lowercase mapping of the Unicode character database
    ([Module PyStr]).  The caller's [get_html] hook is a parameter of the
    constructor, as in the source. *)

From Stdlib Require Import ZArith String Ascii List Bool Lia.
Import ListNotations.
Local Open Scope string_scope.
Local Open Scope list_scope.
Local Open Scope Z_scope.

(** ** Exceptions and results *)

(** The first seven are what pandas, numpy, ipywidgets and Python raise on
    the paths the source takes; [CallerError] is any other exception, raised
    by code the caller supplies.  The last three are the error classes the
    specification names; they are here so that statements about them can be
    written. *)
Inductive exn : Type :=
| KeyError
| IndexError
| ValueError
| AttributeError
| TypeError
| OverflowError
| TraitError
| CallerError
| ConfigError
| InvalidLabelError
| SessionClosedError.

Inductive result (A : Type) : Type :=
| Ok (a : A)
| Raise (e : exn).
Arguments Ok {A} a.
Arguments Raise {A} e.

Definition bindR {A B : Type} (c : result A) (k : A -> result B) : result B :=
  match c with
  | Ok a => k a
  | Raise e => Raise e
  end.

Notation "'let?' x ':=' c 'in' k" := (bindR c (fun x => k))
  (at level 10, x name, c at level 100, k at level 200).

(** The exceptions that exist when the program runs, as opposed to the error
    classes of the specification, which the source does not define. *)
Definition python_exn (e : exn) : bool :=
  match e with
  | ConfigError | InvalidLabelError | SessionClosedError => false
  | _ => true
  end.

(** ** Python strings

    A [string] holds the UTF-8 encoding of a Python [str], so that a literal
    of this file is the [str] of the same spelling.  [str.lower()] works on
    code points: it is decoded, lowered and encoded again.  A byte that is
    not part of a well-formed UTF-8 sequence belongs to no [str]; it is
    carried through unchanged, as a number above the code points. *)
Module PyStr.
Local Open Scope N_scope.

Definition code_points : N := 1114112.

Definition continuation (b : N) : bool := (128 <=? b) && (b <? 192).

Fixpoint decode (s : string) : list N :=
  match s with
  | EmptyString => []
  | String a0 s1 =>
      let b0 := N_of_ascii a0 in
      if b0 <? 128 then b0 :: decode s1
      else
        let raw := (code_points + b0) :: decode s1 in
        match s1 with
        | EmptyString => raw
        | String a1 s2 =>
            let b1 := N_of_ascii a1 in
            if negb (continuation b1) then raw
            else if (194 <=? b0) && (b0 <? 224)
            then ((b0 - 192) * 64 + (b1 - 128)) :: decode s2
            else
              match s2 with
              | EmptyString => raw
              | String a2 s3 =>
                  let b2 := N_of_ascii a2 in
                  let c3 := (b0 - 224) * 4096 + (b1 - 128) * 64 + (b2 - 128) in
                  if negb (continuation b2) then raw
                  else if (224 <=? b0) && (b0 <? 240)
                  then
                    if (2048 <=? c3) && negb ((55296 <=? c3) && (c3 <? 57344))
                    then c3 :: decode s3
                    else raw
                  else
                    match s3 with
                    | EmptyString => raw
                    | String a3 s4 =>
                        let b3 := N_of_ascii a3 in
                        let c4 := (b0 - 240) * 262144 + (b1 - 128) * 4096
                                  + (b2 - 128) * 64 + (b3 - 128) in
                        if continuation b3 && (240 <=? b0) && (b0 <? 245)
                           && (65536 <=? c4) && (c4 <? code_points)
                        then c4 :: decode s4
                        else raw
                    end
              end
        end
  end.

Definition bytes (l : list N) : string :=
  string_of_list_ascii (map ascii_of_N l).

Definition encode_point (c : N) : string :=
  if c <? 128 then bytes [c]
  else if c <? 2048 then bytes [192 + c / 64; 128 + c mod 64]
  else if c <? 65536
  then bytes [224 + c / 4096; 128 + (c / 64) mod 64; 128 + c mod 64]
  else if c <? code_points
  then bytes [240 + c / 262144; 128 + (c / 4096) mod 64;
              128 + (c / 64) mod 64; 128 + c mod 64]
  else bytes [c - code_points].

Definition encode (l : list N) : string :=
  fold_right (fun c s => (encode_point c ++ s)%string) EmptyString l.

(** The lowercase mapping of the Unicode character database, version 14.0,
    as CPython 3.11 carries it: the code points [lo, lo + stride, ..., hi]
    map to [lo', lo' + stride, ...]; every other code point maps to itself,
    except U+0130, which maps to the two code points U+0069 U+0307.  The
    runs are in ascending order. *)
Definition lower_runs : list (N * N * N * N) :=
  [(65, 90, 1, 97); (192, 214, 1, 224); (216, 222, 1, 248); (256, 302, 2, 257);
   (306, 310, 2, 307); (313, 327, 2, 314); (330, 374, 2, 331);
   (376, 376, 1, 255); (377, 381, 2, 378); (385, 385, 1, 595);
   (386, 388, 2, 387); (390, 390, 1, 596); (391, 391, 1, 392);
   (393, 394, 1, 598); (395, 395, 1, 396); (398, 398, 1, 477);
   (399, 399, 1, 601); (400, 400, 1, 603); (401, 401, 1, 402);
   (403, 403, 1, 608); (404, 404, 1, 611); (406, 406, 1, 617);
   (407, 407, 1, 616); (408, 408, 1, 409); (412, 412, 1, 623);
   (413, 413, 1, 626); (415, 415, 1, 629); (416, 420, 2, 417);
   (422, 422, 1, 640); (423, 423, 1, 424); (425, 425, 1, 643);
   (428, 428, 1, 429); (430, 430, 1, 648); (431, 431, 1, 432);
   (433, 434, 1, 650); (435, 437, 2, 436); (439, 439, 1, 658);
   (440, 440, 1, 441); (444, 444, 1, 445); (452, 452, 1, 454);
   (453, 453, 1, 454); (455, 455, 1, 457); (456, 456, 1, 457);
   (458, 458, 1, 460); (459, 475, 2, 460); (478, 494, 2, 479);
   (497, 497, 1, 499); (498, 500, 2, 499); (502, 502, 1, 405);
   (503, 503, 1, 447); (504, 542, 2, 505); (544, 544, 1, 414);
   (546, 562, 2, 547); (570, 570, 1, 11365); (571, 571, 1, 572);
   (573, 573, 1, 410); (574, 574, 1, 11366); (577, 577, 1, 578);
   (579, 579, 1, 384); (580, 580, 1, 649); (581, 581, 1, 652);
   (582, 590, 2, 583); (880, 882, 2, 881); (886, 886, 1, 887);
   (895, 895, 1, 1011); (902, 902, 1, 940); (904, 906, 1, 941);
   (908, 908, 1, 972); (910, 911, 1, 973); (913, 929, 1, 945);
   (931, 939, 1, 963); (975, 975, 1, 983); (984, 1006, 2, 985);
   (1012, 1012, 1, 952); (1015, 1015, 1, 1016); (1017, 1017, 1, 1010);
   (1018, 1018, 1, 1019); (1021, 1023, 1, 891); (1024, 1039, 1, 1104);
   (1040, 1071, 1, 1072); (1120, 1152, 2, 1121); (1162, 1214, 2, 1163);
   (1216, 1216, 1, 1231); (1217, 1229, 2, 1218); (1232, 1326, 2, 1233);
   (1329, 1366, 1, 1377); (4256, 4293, 1, 11520); (4295, 4295, 1, 11559);
   (4301, 4301, 1, 11565); (5024, 5103, 1, 43888); (5104, 5109, 1, 5112);
   (7312, 7354, 1, 4304); (7357, 7359, 1, 4349); (7680, 7828, 2, 7681);
   (7838, 7838, 1, 223); (7840, 7934, 2, 7841); (7944, 7951, 1, 7936);
   (7960, 7965, 1, 7952); (7976, 7983, 1, 7968); (7992, 7999, 1, 7984);
   (8008, 8013, 1, 8000); (8025, 8031, 2, 8017); (8040, 8047, 1, 8032);
   (8072, 8079, 1, 8064); (8088, 8095, 1, 8080); (8104, 8111, 1, 8096);
   (8120, 8121, 1, 8112); (8122, 8123, 1, 8048); (8124, 8124, 1, 8115);
   (8136, 8139, 1, 8050); (8140, 8140, 1, 8131); (8152, 8153, 1, 8144);
   (8154, 8155, 1, 8054); (8168, 8169, 1, 8160); (8170, 8171, 1, 8058);
   (8172, 8172, 1, 8165); (8184, 8185, 1, 8056); (8186, 8187, 1, 8060);
   (8188, 8188, 1, 8179); (8486, 8486, 1, 969); (8490, 8490, 1, 107);
   (8491, 8491, 1, 229); (8498, 8498, 1, 8526); (8544, 8559, 1, 8560);
   (8579, 8579, 1, 8580); (9398, 9423, 1, 9424); (11264, 11311, 1, 11312);
   (11360, 11360, 1, 11361); (11362, 11362, 1, 619); (11363, 11363, 1, 7549);
   (11364, 11364, 1, 637); (11367, 11371, 2, 11368); (11373, 11373, 1, 593);
   (11374, 11374, 1, 625); (11375, 11375, 1, 592); (11376, 11376, 1, 594);
   (11378, 11378, 1, 11379); (11381, 11381, 1, 11382); (11390, 11391, 1, 575);
   (11392, 11490, 2, 11393); (11499, 11501, 2, 11500);
   (11506, 11506, 1, 11507); (42560, 42604, 2, 42561);
   (42624, 42650, 2, 42625); (42786, 42798, 2, 42787);
   (42802, 42862, 2, 42803); (42873, 42875, 2, 42874); (42877, 42877, 1, 7545);
   (42878, 42886, 2, 42879); (42891, 42891, 1, 42892); (42893, 42893, 1, 613);
   (42896, 42898, 2, 42897); (42902, 42920, 2, 42903); (42922, 42922, 1, 614);
   (42923, 42923, 1, 604); (42924, 42924, 1, 609); (42925, 42925, 1, 620);
   (42926, 42926, 1, 618); (42928, 42928, 1, 670); (42929, 42929, 1, 647);
   (42930, 42930, 1, 669); (42931, 42931, 1, 43859); (42932, 42946, 2, 42933);
   (42948, 42948, 1, 42900); (42949, 42949, 1, 642); (42950, 42950, 1, 7566);
   (42951, 42953, 2, 42952); (42960, 42960, 1, 42961);
   (42966, 42968, 2, 42967); (42997, 42997, 1, 42998);
   (65313, 65338, 1, 65345); (66560, 66599, 1, 66600);
   (66736, 66771, 1, 66776); (66928, 66938, 1, 66967);
   (66940, 66954, 1, 66979); (66956, 66962, 1, 66995);
   (66964, 66965, 1, 67003); (68736, 68786, 1, 68800);
   (71840, 71871, 1, 71872); (93760, 93791, 1, 93792);
   (125184, 125217, 1, 125218)].

(** The case-ignorable code points, as ranges in ascending order. *)
Definition case_ignorable_ranges : list (N * N) :=
  [(39, 39); (46, 46); (58, 58); (94, 94); (96, 96); (168, 168); (173, 173);
   (175, 175); (180, 180); (183, 184); (688, 879); (884, 885); (890, 890);
   (900, 901); (903, 903); (1155, 1161); (1369, 1369); (1375, 1375);
   (1425, 1469); (1471, 1471); (1473, 1474); (1476, 1477); (1479, 1479);
   (1524, 1524); (1536, 1541); (1552, 1562); (1564, 1564); (1600, 1600);
   (1611, 1631); (1648, 1648); (1750, 1757); (1759, 1768); (1770, 1773);
   (1807, 1807); (1809, 1809); (1840, 1866); (1958, 1968); (2027, 2037);
   (2042, 2042); (2045, 2045); (2070, 2093); (2137, 2139); (2184, 2184);
   (2192, 2193); (2200, 2207); (2249, 2306); (2362, 2362); (2364, 2364);
   (2369, 2376); (2381, 2381); (2385, 2391); (2402, 2403); (2417, 2417);
   (2433, 2433); (2492, 2492); (2497, 2500); (2509, 2509); (2530, 2531);
   (2558, 2558); (2561, 2562); (2620, 2620); (2625, 2626); (2631, 2632);
   (2635, 2637); (2641, 2641); (2672, 2673); (2677, 2677); (2689, 2690);
   (2748, 2748); (2753, 2757); (2759, 2760); (2765, 2765); (2786, 2787);
   (2810, 2815); (2817, 2817); (2876, 2876); (2879, 2879); (2881, 2884);
   (2893, 2893); (2901, 2902); (2914, 2915); (2946, 2946); (3008, 3008);
   (3021, 3021); (3072, 3072); (3076, 3076); (3132, 3132); (3134, 3136);
   (3142, 3144); (3146, 3149); (3157, 3158); (3170, 3171); (3201, 3201);
   (3260, 3260); (3263, 3263); (3270, 3270); (3276, 3277); (3298, 3299);
   (3328, 3329); (3387, 3388); (3393, 3396); (3405, 3405); (3426, 3427);
   (3457, 3457); (3530, 3530); (3538, 3540); (3542, 3542); (3633, 3633);
   (3636, 3642); (3654, 3662); (3761, 3761); (3764, 3772); (3782, 3782);
   (3784, 3789); (3864, 3865); (3893, 3893); (3895, 3895); (3897, 3897);
   (3953, 3966); (3968, 3972); (3974, 3975); (3981, 3991); (3993, 4028);
   (4038, 4038); (4141, 4144); (4146, 4151); (4153, 4154); (4157, 4158);
   (4184, 4185); (4190, 4192); (4209, 4212); (4226, 4226); (4229, 4230);
   (4237, 4237); (4253, 4253); (4348, 4348); (4957, 4959); (5906, 5908);
   (5938, 5939); (5970, 5971); (6002, 6003); (6068, 6069); (6071, 6077);
   (6086, 6086); (6089, 6099); (6103, 6103); (6109, 6109); (6155, 6159);
   (6211, 6211); (6277, 6278); (6313, 6313); (6432, 6434); (6439, 6440);
   (6450, 6450); (6457, 6459); (6679, 6680); (6683, 6683); (6742, 6742);
   (6744, 6750); (6752, 6752); (6754, 6754); (6757, 6764); (6771, 6780);
   (6783, 6783); (6823, 6823); (6832, 6862); (6912, 6915); (6964, 6964);
   (6966, 6970); (6972, 6972); (6978, 6978); (7019, 7027); (7040, 7041);
   (7074, 7077); (7080, 7081); (7083, 7085); (7142, 7142); (7144, 7145);
   (7149, 7149); (7151, 7153); (7212, 7219); (7222, 7223); (7288, 7293);
   (7376, 7378); (7380, 7392); (7394, 7400); (7405, 7405); (7412, 7412);
   (7416, 7417); (7468, 7530); (7544, 7544); (7579, 7679); (8125, 8125);
   (8127, 8129); (8141, 8143); (8157, 8159); (8173, 8175); (8189, 8190);
   (8203, 8207); (8216, 8217); (8228, 8228); (8231, 8231); (8234, 8238);
   (8288, 8292); (8294, 8303); (8305, 8305); (8319, 8319); (8336, 8348);
   (8400, 8432); (11388, 11389); (11503, 11505); (11631, 11631);
   (11647, 11647); (11744, 11775); (11823, 11823); (12293, 12293);
   (12330, 12333); (12337, 12341); (12347, 12347); (12441, 12446);
   (12540, 12542); (40981, 40981); (42232, 42237); (42508, 42508);
   (42607, 42610); (42612, 42621); (42623, 42623); (42652, 42655);
   (42736, 42737); (42752, 42785); (42864, 42864); (42888, 42890);
   (42994, 42996); (43000, 43001); (43010, 43010); (43014, 43014);
   (43019, 43019); (43045, 43046); (43052, 43052); (43204, 43205);
   (43232, 43249); (43263, 43263); (43302, 43309); (43335, 43345);
   (43392, 43394); (43443, 43443); (43446, 43449); (43452, 43453);
   (43471, 43471); (43493, 43494); (43561, 43566); (43569, 43570);
   (43573, 43574); (43587, 43587); (43596, 43596); (43632, 43632);
   (43644, 43644); (43696, 43696); (43698, 43700); (43703, 43704);
   (43710, 43711); (43713, 43713); (43741, 43741); (43756, 43757);
   (43763, 43764); (43766, 43766); (43867, 43871); (43881, 43883);
   (44005, 44005); (44008, 44008); (44013, 44013); (64286, 64286);
   (64434, 64450); (65024, 65039); (65043, 65043); (65056, 65071);
   (65106, 65106); (65109, 65109); (65279, 65279); (65287, 65287);
   (65294, 65294); (65306, 65306); (65342, 65342); (65344, 65344);
   (65392, 65392); (65438, 65439); (65507, 65507); (65529, 65531);
   (66045, 66045); (66272, 66272); (66422, 66426); (67456, 67461);
   (67463, 67504); (67506, 67514); (68097, 68099); (68101, 68102);
   (68108, 68111); (68152, 68154); (68159, 68159); (68325, 68326);
   (68900, 68903); (69291, 69292); (69446, 69456); (69506, 69509);
   (69633, 69633); (69688, 69702); (69744, 69744); (69747, 69748);
   (69759, 69761); (69811, 69814); (69817, 69818); (69821, 69821);
   (69826, 69826); (69837, 69837); (69888, 69890); (69927, 69931);
   (69933, 69940); (70003, 70003); (70016, 70017); (70070, 70078);
   (70089, 70092); (70095, 70095); (70191, 70193); (70196, 70196);
   (70198, 70199); (70206, 70206); (70367, 70367); (70371, 70378);
   (70400, 70401); (70459, 70460); (70464, 70464); (70502, 70508);
   (70512, 70516); (70712, 70719); (70722, 70724); (70726, 70726);
   (70750, 70750); (70835, 70840); (70842, 70842); (70847, 70848);
   (70850, 70851); (71090, 71093); (71100, 71101); (71103, 71104);
   (71132, 71133); (71219, 71226); (71229, 71229); (71231, 71232);
   (71339, 71339); (71341, 71341); (71344, 71349); (71351, 71351);
   (71453, 71455); (71458, 71461); (71463, 71467); (71727, 71735);
   (71737, 71738); (71995, 71996); (71998, 71998); (72003, 72003);
   (72148, 72151); (72154, 72155); (72160, 72160); (72193, 72202);
   (72243, 72248); (72251, 72254); (72263, 72263); (72273, 72278);
   (72281, 72283); (72330, 72342); (72344, 72345); (72752, 72758);
   (72760, 72765); (72767, 72767); (72850, 72871); (72874, 72880);
   (72882, 72883); (72885, 72886); (73009, 73014); (73018, 73018);
   (73020, 73021); (73023, 73029); (73031, 73031); (73104, 73105);
   (73109, 73109); (73111, 73111); (73459, 73460); (78896, 78904);
   (92912, 92916); (92976, 92982); (92992, 92995); (94031, 94031);
   (94095, 94111); (94176, 94177); (94179, 94180); (110576, 110579);
   (110581, 110587); (110589, 110590); (113821, 113822); (113824, 113827);
   (118528, 118573); (118576, 118598); (119143, 119145); (119155, 119170);
   (119173, 119179); (119210, 119213); (119362, 119364); (121344, 121398);
   (121403, 121452); (121461, 121461); (121476, 121476); (121499, 121503);
   (121505, 121519); (122880, 122886); (122888, 122904); (122907, 122913);
   (122915, 122916); (122918, 122922); (123184, 123197); (123566, 123566);
   (123628, 123631); (125136, 125142); (125252, 125259); (127995, 127999);
   (917505, 917505); (917536, 917631); (917760, 917999)].

(** The cased code points that are not case-ignorable, as ranges in
    ascending order; the scan for the final sigma asks for the case of a
    character only after it found it not ignorable. *)
Definition cased_ranges : list (N * N) :=
  [(65, 90); (97, 122); (170, 170); (181, 181); (186, 186); (192, 214);
   (216, 246); (248, 442); (444, 447); (452, 659); (661, 687); (880, 883);
   (886, 887); (891, 893); (895, 895); (902, 902); (904, 906); (908, 908);
   (910, 929); (931, 1013); (1015, 1153); (1162, 1327); (1329, 1366);
   (1376, 1416); (4256, 4293); (4295, 4295); (4301, 4301); (4304, 4346);
   (4349, 4351); (5024, 5109); (5112, 5117); (7296, 7304); (7312, 7354);
   (7357, 7359); (7424, 7467); (7531, 7543); (7545, 7578); (7680, 7957);
   (7960, 7965); (7968, 8005); (8008, 8013); (8016, 8023); (8025, 8025);
   (8027, 8027); (8029, 8029); (8031, 8061); (8064, 8116); (8118, 8124);
   (8126, 8126); (8130, 8132); (8134, 8140); (8144, 8147); (8150, 8155);
   (8160, 8172); (8178, 8180); (8182, 8188); (8450, 8450); (8455, 8455);
   (8458, 8467); (8469, 8469); (8473, 8477); (8484, 8484); (8486, 8486);
   (8488, 8488); (8490, 8493); (8495, 8500); (8505, 8505); (8508, 8511);
   (8517, 8521); (8526, 8526); (8544, 8575); (8579, 8580); (9398, 9449);
   (11264, 11387); (11390, 11492); (11499, 11502); (11506, 11507);
   (11520, 11557); (11559, 11559); (11565, 11565); (42560, 42605);
   (42624, 42651); (42786, 42863); (42865, 42887); (42891, 42894);
   (42896, 42954); (42960, 42961); (42963, 42963); (42965, 42969);
   (42997, 42998); (43002, 43002); (43824, 43866); (43872, 43880);
   (43888, 43967); (64256, 64262); (64275, 64279); (65313, 65338);
   (65345, 65370); (66560, 66639); (66736, 66771); (66776, 66811);
   (66928, 66938); (66940, 66954); (66956, 66962); (66964, 66965);
   (66967, 66977); (66979, 66993); (66995, 67001); (67003, 67004);
   (68736, 68786); (68800, 68850); (71840, 71903); (93760, 93823);
   (119808, 119892); (119894, 119964); (119966, 119967); (119970, 119970);
   (119973, 119974); (119977, 119980); (119982, 119993); (119995, 119995);
   (119997, 120003); (120005, 120069); (120071, 120074); (120077, 120084);
   (120086, 120092); (120094, 120121); (120123, 120126); (120128, 120132);
   (120134, 120134); (120138, 120144); (120146, 120485); (120488, 120512);
   (120514, 120538); (120540, 120570); (120572, 120596); (120598, 120628);
   (120630, 120654); (120656, 120686); (120688, 120712); (120714, 120744);
   (120746, 120770); (120772, 120779); (122624, 122633); (122635, 122654);
   (125184, 125251); (127280, 127305); (127312, 127337); (127344, 127369)].

Fixpoint lower_in (runs : list (N * N * N * N)) (c : N) : N :=
  match runs with
  | [] => c
  | (lo, hi, stride, lo') :: tl =>
      if c <? lo then c
      else if (c <=? hi) && ((c - lo) mod stride =? 0) then lo' + (c - lo)
      else lower_in tl c
  end.

Definition lower_point (c : N) : list N :=
  if c =? 304 then [105; 775] else [lower_in lower_runs c].

Fixpoint in_ranges (ranges : list (N * N)) (c : N) : bool :=
  match ranges with
  | [] => false
  | (lo, hi) :: tl =>
      if c <? lo then false
      else if c <=? hi then true
      else in_ranges tl c
  end.

Definition case_ignorable (c : N) : bool := in_ranges case_ignorable_ranges c.
Definition cased (c : N) : bool := in_ranges cased_ranges c.

Fixpoint first_not_ignorable (l : list N) : option N :=
  match l with
  | [] => None
  | c :: tl => if case_ignorable c then first_not_ignorable tl else Some c
  end.

(** The capital sigma, U+03A3, lowers to the final form U+03C2 when a cased
    letter precedes it and none follows, case-ignorable characters skipped
    on both sides; to U+03C3 otherwise. *)
Definition final_sigma (before_rev after : list N) : bool :=
  match first_not_ignorable before_rev with
  | Some c =>
      cased c &&
      match first_not_ignorable after with
      | Some c' => negb (cased c')
      | None => true
      end
  | None => false
  end.

Fixpoint lower_points (before_rev l : list N) : list N :=
  match l with
  | [] => []
  | c :: tl =>
      (if c =? 931 then [if final_sigma before_rev tl then 962 else 963]
       else lower_point c) ++ lower_points (c :: before_rev) tl
  end.

(** [str.lower()] *)
Definition lower (s : string) : string := encode (lower_points [] (decode s)).

End PyStr.
Import PyStr.

(** ** The pandas operations the source uses *)
Module Pandas.

(** A cell.  [VNone] stands for both [None] and a missing value. *)
Inductive value : Type :=
| VInt (z : Z)
| VStr (s : string)
| VTime (t : Z)
| VNone.

Definition value_eq_dec (a b : value) : {a = b} + {a <> b}.
Proof.
  decide equality; try apply Z.eq_dec; apply string_dec.
Defined.

(** [a == b] on cells: a missing value is equal to nothing, itself
    included. *)
Definition value_eqb (a b : value) : bool :=
  match a, b with
  | VInt x, VInt y => x =? y
  | VStr x, VStr y => String.eqb x y
  | VTime x, VTime y => x =? y
  | _, _ => false
  end.

Definition Row : Type := (Z * list value)%type.

Record DataFrame : Type := mkDataFrame {
  columns : list string;
  rows : list Row
}.

(** One row taken out of a frame: [name] is its index label, [index] the
    column labels, [values] the cells. *)
Record Series : Type := mkSeries {
  name : Z;
  index : list string;
  values : list value
}.

(** [pd.DataFrame(columns=cols)] *)
Definition new_frame (cols : list string) : DataFrame :=
  {| columns := cols; rows := [] |}.

(** [len(df)] *)
Definition len (d : DataFrame) : Z := Z.of_nat (length (rows d)).

(** [df.empty]: some axis has length 0. *)
Definition empty (d : DataFrame) : bool :=
  (length (rows d) =? 0)%nat || (length (columns d) =? 0)%nat.

(** [df.index.to_list()] *)
Definition index_to_list (d : DataFrame) : list value :=
  map (fun r : Row => VInt (fst r)) (rows d).

(** [Index.get_loc]: the position of a label.  A key is a Python value,
    [None] when the caller passes [None]; column labels are strings, so
    [None] is never found. *)
Fixpoint find_label (c : string) (cols : list string) : option nat :=
  match cols with
  | [] => None
  | c' :: tl =>
      if String.eqb c c' then Some 0%nat
      else option_map S (find_label c tl)
  end.

Definition get_loc (key : option string) (cols : list string) : result nat :=
  match key with
  | None => Raise KeyError
  | Some c =>
      match find_label c cols with
      | Some i => Ok i
      | None => Raise KeyError
      end
  end.

Definition cell (i : nat) (r : Row) : value := nth i (snd r) VNone.

(** [df[key]] for one column key, as the list of its cells.  This is the
    selection pandas makes of a label that occurs once among the columns.
    Of a label that occurs several times it makes a frame, which the source
    is not written for; the statements on the lookup and on the writes
    assume the labels pairwise distinct. *)
Definition getitem (d : DataFrame) (key : option string) : result (list value) :=
  let? i := get_loc key (columns d) in
  Ok (map (cell i) (rows d)).

(** Python's index normalisation: a negative index counts from the end. *)
Definition py_index {A : Type} (l : list A) (i : Z) : result A :=
  let n := Z.of_nat (length l) in
  let j := if i <? 0 then i + n else i in
  if (j <? 0) || (n <=? j) then Raise IndexError
  else match nth_error l (Z.to_nat j) with
       | Some a => Ok a
       | None => Raise IndexError
       end.

(** [df.iloc[i]] *)
Definition iloc (d : DataFrame) (i : Z) : result Series :=
  let? r := py_index (rows d) i in
  Ok {| name := fst r; index := columns d; values := snd r |}.

(** [row[key]] on a row of a frame. *)
Definition series_getitem (s : Series) (key : option string) : result value :=
  let? i := get_loc key (index s) in
  Ok (nth i (values s) VNone).

(** [row.attr]: attribute access to a column of a row. *)
Definition series_getattr (s : Series) (attr : string) : result value :=
  match find_label attr (index s) with
  | Some i => Ok (nth i (values s) VNone)
  | None => Raise AttributeError
  end.

(** [column == x] *)
Definition eq_scalar (col : list value) (x : value) : list bool :=
  map (fun v => value_eqb v x) col.

(** [column.isin(vals)]: membership, where a missing value is found among
    missing values. *)
Definition isin (col vals : list value) : list bool :=
  map (fun v => if in_dec value_eq_dec v vals then true else false) col.

(** [~mask] *)
Definition invert (mask : list bool) : list bool := map negb mask.

Fixpoint select {A : Type} (mask : list bool) (l : list A) : list A :=
  match mask, l with
  | b :: mask', a :: l' => if b then a :: select mask' l' else select mask' l'
  | _, _ => []
  end.

(** [df[mask]] for a boolean mask aligned with the rows. *)
Definition getitem_mask (d : DataFrame) (mask : list bool) : DataFrame :=
  {| columns := columns d; rows := select mask (rows d) |}.

(** Python's [l[:n]]: the first [n] items, or all but the last [-n] when
    [n] is negative. *)
Definition py_slice_to {A : Type} (n : Z) (l : list A) : list A :=
  if n <? 0 then firstn (Z.to_nat (Z.of_nat (length l) + n)) l
  else firstn (Z.to_nat n) l.

(** [df[:n]] *)
Definition slice_to (n : Z) (d : DataFrame) : DataFrame :=
  {| columns := columns d; rows := py_slice_to n (rows d) |}.

(** [df.head(n)] *)
Definition head (n : Z) (d : DataFrame) : DataFrame := slice_to n d.

(** [df.sample(n=n)]: sampling without replacement.  [draw] is what the
    random generator chose, a list of row positions.  Before anything is
    drawn, pandas rejects a negative [n]; numpy's [choice] then rejects an
    empty population unless [n] is 0, converts [n] to a machine integer,
    which overflows from [2 ** 64] on, and rejects an [n] larger than the
    population. *)
Definition sample (n : Z) (draw : list nat) (d : DataFrame) : result DataFrame :=
  if n <? 0 then Raise ValueError
  else if (len d =? 0) && negb (n =? 0) then Raise ValueError
  else if 2 ^ 64 <=? n then Raise OverflowError
  else if len d <? n then Raise ValueError
  else Ok {| columns := columns d;
             rows := flat_map (fun i => match nth_error (rows d) i with
                                        | Some r => [r]
                                        | None => []
                                        end) draw |}.

(** [df.loc[idx] = vals]: every row labelled [idx] is overwritten; when no
    row has that label the frame is enlarged by one row labelled [idx].
    The values must be as many as the columns. *)
Definition loc_set (idx : Z) (vals : list value) (d : DataFrame) : result DataFrame :=
  if negb (length vals =? length (columns d))%nat then Raise ValueError
  else if existsb (fun r : Row => fst r =? idx) (rows d)
  then Ok {| columns := columns d;
             rows := map (fun r : Row => if fst r =? idx then (idx, vals) else r)
                         (rows d) |}
  else Ok {| columns := columns d; rows := rows d ++ [(idx, vals)] |}.

End Pandas.
Import Pandas.

(** ** The class [Tortus] *)

(** What a call of the caller's [get_html] hook does: it returns a value or
    raises an exception of the running program. *)
Inductive hook_result : Type :=
| Returns (v : value)
| Raises (e : exn) (running : python_exn e = true).

(** The attributes [__init__] sets, and the class attribute
    [annotation_index].  [get_html] is the hook the caller passed, [None]
    standing for the function [__init__] puts in its place,
    [lambda row: row[self.text]]. *)
Record Tortus : Type := mkTortus {
  df : DataFrame;
  text : string;
  num_records : Z;
  id_column : option string;
  annotations : DataFrame;
  edit_annotations : bool;
  get_html : option (Series -> hook_result);
  random : bool;
  labels : list string;
  display_confirm : bool;
  subset_df : DataFrame;
  annotation_index : Z
}.

Definition set_annotations (a : DataFrame) (self : Tortus) : Tortus :=
  {| df := df self; text := text self; num_records := num_records self;
     id_column := id_column self; annotations := a;
     edit_annotations := edit_annotations self; get_html := get_html self;
     random := random self;
     labels := labels self; display_confirm := display_confirm self;
     subset_df := subset_df self; annotation_index := annotation_index self |}.

Definition set_subset_df (d : DataFrame) (self : Tortus) : Tortus :=
  {| df := df self; text := text self; num_records := num_records self;
     id_column := id_column self; annotations := annotations self;
     edit_annotations := edit_annotations self; get_html := get_html self;
     random := random self;
     labels := labels self; display_confirm := display_confirm self;
     subset_df := d; annotation_index := annotation_index self |}.

Definition set_annotation_index (i : Z) (self : Tortus) : Tortus :=
  {| df := df self; text := text self; num_records := num_records self;
     id_column := id_column self; annotations := annotations self;
     edit_annotations := edit_annotations self; get_html := get_html self;
     random := random self;
     labels := labels self; display_confirm := display_confirm self;
     subset_df := subset_df self; annotation_index := i |}.

Definition MAX_BUTTONS_IN_ROW : nat := 5.

(** The default of the [labels] parameter, as the source spells it. *)
Definition default_labels : list string := ["Positve"; "Negative"; "Neutral"].

(** [create_subset_df].  [draw] is the random generator's choice, used only
    on the [sample] path. *)
Definition create_subset_df (draw : list nat) (self : Tortus) : result DataFrame :=
  let? subset_df :=
    if empty (annotations self) then Ok (df self)
    else
      let? already_annotated := getitem (annotations self) (Some (text self)) in
      let? col := getitem (df self) (Some (text self)) in
      let row_selection_to_annotate := isin col already_annotated in
      let row_selection_to_annotate :=
        if negb (edit_annotations self) then invert row_selection_to_annotate
        else row_selection_to_annotate in
      Ok (getitem_mask (df self) row_selection_to_annotate) in
  if random self then sample (num_records self) draw subset_df
  else Ok (slice_to (num_records self) subset_df).

(** [__init__] up to the last line: the attributes it assigns.
    [annotations] is [None] or a frame; [subset_df] is not assigned yet. *)
Definition attributes (df : DataFrame) (text : string) (num_records : Z)
    (id_column : option string) (annotations : option DataFrame)
    (edit_annotations : bool) (get_html : option (Series -> hook_result))
    (random : bool) (labels : list string)
    (display_confirm : bool) : Tortus :=
  let annotations :=
    match annotations with
    | None =>
        match id_column with
        | None => new_frame ["id_column"; text; "label"; "annotated_at"]
        | Some c => new_frame [c; text; "label"; "annotated_at"]
        end
    | Some a => a
    end in
  {| df := df; text := text; num_records := num_records;
     id_column := id_column; annotations := annotations;
     edit_annotations := edit_annotations;
     get_html := get_html;
     random := if edit_annotations then false else random;
     labels := labels; display_confirm := display_confirm;
     subset_df := new_frame []; annotation_index := 0 |}.

(** [__init__]: [subset_df] is assigned last, from [create_subset_df] run on
    the attributes set so far. *)
Definition init (df : DataFrame) (text : string) (num_records : Z)
    (id_column : option string) (annotations : option DataFrame)
    (edit_annotations : bool) (get_html : option (Series -> hook_result))
    (random : bool) (labels : list string)
    (display_confirm : bool) (draw : list nat) : result Tortus :=
  let self := attributes df text num_records id_column annotations
                edit_annotations get_html random labels display_confirm in
  let? subset := create_subset_df draw self in
  Ok (set_subset_df subset self).

(** [create_record_id] *)
Definition create_record_id (self : Tortus) : result (list value) :=
  match id_column self with
  | None => Ok (index_to_list (subset_df self))
  | Some c => getitem (subset_df self) (Some c)
  end.

(** [self.get_html(row)]: the caller's hook, or [row[self.text]]. *)
Definition call_get_html (self : Tortus) (row : Series) : result value :=
  match get_html self with
  | Some f =>
      match f row with
      | Returns v => Ok v
      | Raises e _ => Raise e
      end
  | None => series_getitem row (Some (text self))
  end.

(** [make_html]: what [get_html] gives between two tags; [+] on a string
    and a value that is not one raises. *)
Definition make_html (self : Tortus) (row : Series) : result string :=
  let? v := call_get_html self row in
  match v with
  | VStr t => Ok ("<h4>" ++ t ++ "</h4>")%string
  | _ => Raise TypeError
  end.

(** [get_annotation_row_from_subset_iloc] *)
Definition get_annotation_row_from_subset_iloc (self : Tortus) (subset_iloc : Z)
    : result (option Series) :=
  let? cur_row := iloc (subset_df self) subset_iloc in
  let? col := getitem (annotations self) (id_column self) in
  let? x := series_getitem cur_row (id_column self) in
  let row_annot := getitem_mask (annotations self) (eq_scalar col x) in
  if 0 <? len row_annot then
    let? r := iloc row_annot 0 in Ok (Some r)
  else Ok None.

(** ** The widgets of one [annotate] call

    What is kept of a widget is what the handlers read or decide on: the
    caption of a button and whether it is disabled, the progress bar, the
    visibility of the confirm and redo buttons.  The style of a button (the
    colour the handlers give the clicked button before anything else, the
    borders) and the layout are not part of the model: a statement that a
    session is unchanged speaks of the object and of these parts of the
    widgets. *)

Record Button : Type := mkButton {
  description : string;
  disabled : bool
}.

(** [progress_bar.description]: the counter [f'{i}/{n}'], or one of the two
    closing captions. *)
Inductive Description : Type :=
| Position (i n : Z)
| Complete
| Start.

Record Widgets : Type := mkWidgets {
  html : string;
  label_buttons : list Button;
  skip_button : Button;
  progress_value : Z;
  progress_description : Description;
  confirm_visible : bool
}.

(** The value a bounded integer widget keeps of the one it is given: capped
    at [max], else floored at [min]. *)
Definition bounded (min max value : Z) : Z :=
  if max <? value then max
  else if value <? min then min
  else value.

(** The body of [annotate] down to [display]: the widgets it builds, or the
    exception that stops it.  The progress bar rejects a maximum below its
    minimum. *)
Definition annotate (self : Tortus) : result Widgets :=
  let? row := iloc (subset_df self) (annotation_index self) in
  let? html := make_html self row in
  let? row_annot := get_annotation_row_from_subset_iloc self (annotation_index self) in
  let? annot_label :=
    match row_annot with
    | Some r => series_getattr r "label"
    | None => Ok VNone
    end in
  let labels := map (fun l => {| description := l; disabled := false |}) (labels self) in
  (* IntProgress(value=self.annotation_index, min=0, max=self.num_records) *)
  if num_records self <? 0 then Raise TraitError
  (* np.array_split(sentiment, len(sentiment) // MAX_BUTTONS_IN_ROW) *)
  else if ((length labels + 2) / MAX_BUTTONS_IN_ROW =? 0)%nat then Raise ValueError
  else
    Ok {| html := html;
          label_buttons := labels;
          skip_button := {| description := "Skip"; disabled := false |};
          progress_value := bounded 0 (num_records self) (annotation_index self);
          progress_description :=
            Position (annotation_index self + 1) (num_records self);
          confirm_visible := false |}.

(** ** The handlers

    A handler runs on the object and on the widgets its closure captured.
    An exception leaves the assignments made before it in place. *)

Record Session : Type := mkSession {
  tortus : Tortus;
  ui : Widgets
}.

Definition M (A : Type) : Type := Session -> result A * Session.

Definition ret {A : Type} (a : A) : M A := fun s => (Ok a, s).

Definition bind {A B : Type} (c : M A) (k : A -> M B) : M B :=
  fun s =>
    match c s with
    | (Ok a, s') => k a s'
    | (Raise e, s') => (Raise e, s')
    end.

Definition lift {A : Type} (r : result A) : M A := fun s => (r, s).

Definition get_self : M Tortus := fun s => (Ok (tortus s), s).

Definition put_self (self : Tortus) : M unit :=
  fun s => (Ok tt, {| tortus := self; ui := ui s |}).

Definition put_ui (w : Widgets) : M unit :=
  fun s => (Ok tt, {| tortus := tortus s; ui := w |}).

Definition modify_ui (f : Widgets -> Widgets) : M unit :=
  fun s => (Ok tt, {| tortus := tortus s; ui := f (ui s) |}).

Notation "x <- c ;; k" := (bind c (fun x => k))
  (at level 61, c at next level, right associativity).
Notation "c ;;; k" := (bind c (fun _ => k))
  (at level 61, right associativity).

Definition set_disabled (b : bool) (w : Widgets) : Widgets :=
  {| html := html w;
     label_buttons :=
       map (fun l => {| description := description l; disabled := b |})
           (label_buttons w);
     skip_button :=
       {| description := description (skip_button w); disabled := b |};
     progress_value := progress_value w;
     progress_description := progress_description w;
     confirm_visible := confirm_visible w |}.

Definition set_confirm_visible (b : bool) (w : Widgets) : Widgets :=
  {| html := html w; label_buttons := label_buttons w;
     skip_button := skip_button w; progress_value := progress_value w;
     progress_description := progress_description w;
     confirm_visible := b |}.

Definition set_progress (v : Z) (d : Description) (w : Widgets) : Widgets :=
  {| html := html w; label_buttons := label_buttons w;
     skip_button := skip_button w; progress_value := v;
     progress_description := d;
     confirm_visible := confirm_visible w |}.

(** [move_clicked] *)
Definition move_clicked (delta : Z) : M unit :=
  self <- get_self ;;
  if (delta =? -1) && (annotation_index self =? 0) then ret tt
  else if annotation_index self <? len (subset_df self) - 1 then
    let self := set_annotation_index (annotation_index self + delta) self in
    put_self self ;;;
    w <- lift (annotate self) ;;
    put_ui w
  else
    modify_ui (set_progress (num_records self)
                 (if delta =? 1 then Complete else Start)).

Definition confirm_button_clicked : M unit := move_clicked 1.

Definition prev_button_clicked : M unit := move_clicked (-1).

(** [label_or_skip_buttons_clicked].  [now] is the clock reading
    [datetime.now().replace(microsecond=0)], in seconds. *)
Definition label_or_skip_buttons_clicked (button : Button) (skip : bool) (now : Z)
    : M unit :=
  self <- get_self ;;
  record_id <- lift (create_record_id self) ;;
  row_annot <- lift (get_annotation_row_from_subset_iloc self (annotation_index self)) ;;
  let new_button_label := lower (description button) in
  target <- lift
    match row_annot with
    | Some r =>
        let? lbl := if skip then series_getattr r "label"
                    else Ok (VStr new_button_label) in
        Ok (name r, lbl)
    | None =>
        Ok (len (annotations self),
            if skip then VNone else VStr new_button_label)
    end ;;
  rid <- lift (py_index record_id (annotation_index self)) ;;
  col <- lift (getitem (subset_df self) (Some (text self))) ;;
  txt <- lift (py_index col (annotation_index self)) ;;
  a <- lift (loc_set (fst target) [rid; txt; snd target; VTime now]
               (annotations self)) ;;
  put_self (set_annotations a self) ;;;
  modify_ui (set_disabled true) ;;;
  if display_confirm self then modify_ui (set_confirm_visible true)
  else confirm_button_clicked.

Definition label_buttons_clicked (button : Button) (now : Z) : M unit :=
  label_or_skip_buttons_clicked button false now.

Definition skip_button_clicked (button : Button) (now : Z) : M unit :=
  label_or_skip_buttons_clicked button true now.

(** [redo_button_clicked] *)
Definition redo_button_clicked : M unit :=
  self <- get_self ;;
  put_self (set_annotations (head (-1) (annotations self)) self) ;;;
  modify_ui (set_disabled false) ;;;
  modify_ui (set_confirm_visible false).

(** ** The operations of the specification, as the handlers perform them *)

(** [RecordIdAt(p)]: the handler's [record_id[p]], with [record_id] taken
    from [create_record_id]. *)
Definition RecordIdAt (self : Tortus) (p : Z) : result value :=
  let? record_id := create_record_id self in
  py_index record_id p.

(** The text the handler stores: [self.subset_df[self.text].iloc[p]]. *)
Definition TextAt (self : Tortus) (p : Z) : result value :=
  let? col := getitem (subset_df self) (Some (text self)) in
  py_index col p.

(** The five actions the widgets offer.  [ChooseLabel] clicks a button that
    carries the label; [Skip] clicks the skip button on display. *)
Inductive Action : Type :=
| ChooseLabel (label : string) (now : Z)
| Skip (now : Z)
| Confirm
| Prev
| Undo.

Definition handler (a : Action) : M unit :=
  match a with
  | ChooseLabel label now =>
      label_buttons_clicked {| description := label; disabled := false |} now
  | Skip now => fun s => skip_button_clicked (skip_button (ui s)) now s
  | Confirm => confirm_button_clicked
  | Prev => prev_button_clicked
  | Undo => redo_button_clicked
  end.

(** What a handler leaves behind, whether it returned or raised. *)
Definition after {A : Type} (m : M A) (s : Session) : Session := snd (m s).

(** A sequence of clicks; the notebook keeps dispatching after a handler
    raised. *)
Definition run (acts : list Action) (s : Session) : Session :=
  fold_left (fun s a => after (handler a) s) acts s.

(** The annotation table of a session. *)
Definition table (s : Session) : DataFrame := annotations (tortus s).

(** The current position of a session. *)
Definition position (s : Session) : Z := annotation_index (tortus s).

(** ** Well-formed sessions

    The annotation table has the four columns [__init__] gives it, in that
    order and pairwise distinct; its rows are labelled by their position, as
    in a table made by this tool or read back from a file; the text column is
    a column of the working subset. *)

Definition id_label (self : Tortus) : string :=
  match id_column self with
  | Some c => c
  | None => "id_column"
  end.

Definition labelled_from (o : nat) (l : list Row) : Prop :=
  map fst l = map Z.of_nat (seq o (length l)).

Definition default_index (d : DataFrame) : Prop := labelled_from 0 (rows d).

Record well_formed (self : Tortus) : Prop := mk_well_formed {
  wf_columns :
    columns (annotations self) = [id_label self; text self; "label"; "annotated_at"];
  wf_nodup : NoDup (columns (annotations self));
  wf_index : default_index (annotations self);
  wf_text : In (text self) (columns (subset_df self))
}.

(** Replacing the item at one position. *)
Fixpoint replace_at {A : Type} (k : nat) (a : A) (l : list A) : list A :=
  match l, k with
  | [], _ => []
  | _ :: tl, O => a :: tl
  | h :: tl, S k' => h :: replace_at k' a tl
  end.

(** The label a write stores. *)
Definition written_label (button : Button) (skip : bool) (prior : option Series)
    : value :=
  if skip then
    match prior with
    | Some e => nth 2 (values e) VNone
    | None => VNone
    end
  else VStr (lower (description button)).

(** The first call of [annotate] on a new object: the widgets it displays
    and the handlers it registers on them. *)
Definition start (self : Tortus) : result Session :=
  let? w := annotate self in
  Ok {| tortus := self; ui := w |}.

(** ** Sessions used as concrete inputs *)

(** A source table of three records with an id column. *)
Definition demo_df : DataFrame :=
  {| columns := ["id"; "text"];
     rows := [(0, [VInt 10; VStr "good"]);
              (1, [VInt 11; VStr "bad"]);
              (2, [VInt 12; VStr "so-so"])] |}.

(** [Tortus(demo_df, 'text', num_records=3, id_column='id')] *)
Definition demo_tortus : Tortus :=
  {| df := demo_df; text := "text"; num_records := 3;
     id_column := Some "id";
     annotations := new_frame ["id"; "text"; "label"; "annotated_at"];
     edit_annotations := false; get_html := None; random := false;
     labels := default_labels; display_confirm := false;
     subset_df := demo_df; annotation_index := 0 |}.

Definition demo_widgets (i : Z) (t : string) : Widgets :=
  {| html := t;
     label_buttons :=
       [ {| description := "Positve"; disabled := false |};
         {| description := "Negative"; disabled := false |};
         {| description := "Neutral"; disabled := false |} ];
     skip_button := {| description := "Skip"; disabled := false |};
     progress_value := i;
     progress_description := Position (i + 1) 3;
     confirm_visible := false |}.

(** The session right after [annotate()] on [demo_tortus]. *)
Definition demo_session : Session :=
  {| tortus := demo_tortus; ui := demo_widgets 0 "<h4>good</h4>" |}.

(** Back on the first record after labelling it. *)
Definition demo_relabel : Session :=
  run [ChooseLabel "Negative" 100; Prev] demo_session.

(** On the last of the three records. *)
Definition demo_last : Session := run [Confirm; Confirm] demo_session.

(** [Tortus(demo_df, 'text', num_records=3)]: no id column. *)
Definition demo_no_id : Tortus :=
  {| df := demo_df; text := "text"; num_records := 3;
     id_column := None;
     annotations := new_frame ["id_column"; "text"; "label"; "annotated_at"];
     edit_annotations := false; get_html := None; random := false;
     labels := default_labels; display_confirm := false;
     subset_df := demo_df; annotation_index := 0 |}.

(** A source table with the two columns and no row. *)
Definition empty_df : DataFrame := new_frame ["id"; "text"].

(** [Tortus(demo_df, 'text', num_records=3, id_column='id',
    display_confirm=True)], after [annotate()]. *)
Definition demo_confirm : Session :=
  {| tortus :=
       {| df := demo_df; text := "text"; num_records := 3;
          id_column := Some "id";
          annotations := new_frame ["id"; "text"; "label"; "annotated_at"];
          edit_annotations := false; get_html := None; random := false;
          labels := default_labels; display_confirm := true;
          subset_df := demo_df; annotation_index := 0 |};
     ui := demo_widgets 0 "<h4>good</h4>" |}.

(** With confirmation on: the first record labelled and confirmed, the
    second labelled, then back on the first record. *)
Definition demo_confirm_two_rows : Session :=
  run [ChooseLabel "Negative" 100; Confirm; ChooseLabel "Neutral" 101; Prev]
      demo_confirm.

(** A prior annotation table that holds the second record of [demo_df],
    keyed by the id column. *)
Definition demo_prior : DataFrame :=
  {| columns := ["id"; "text"; "label"; "annotated_at"];
     rows := [(0, [VInt 11; VStr "bad"; VStr "negative"; VTime 50])] |}.

(** The same entry in a table made without id column: the record id is the
    row index of the record in [demo_df]. *)
Definition demo_prior_index : DataFrame :=
  {| columns := ["id_column"; "text"; "label"; "annotated_at"];
     rows := [(0, [VInt 1; VStr "bad"; VStr "negative"; VTime 50])] |}.

(** [Tortus(demo_df, 'text', num_records=3, annotations=demo_prior_index,
    edit_annotations=True)]: no id column, editing the one prior entry. *)
Definition demo_no_id_edit : Tortus :=
  {| df := demo_df; text := "text"; num_records := 3;
     id_column := None;
     annotations := demo_prior_index;
     edit_annotations := true; get_html := None; random := false;
     labels := default_labels; display_confirm := false;
     subset_df := {| columns := ["id"; "text"];
                     rows := [(1, [VInt 11; VStr "bad"])] |};
     annotation_index := 0 |}.

(** ** Statement vocabulary *)

(** The rows lines 98 to 106 of [create_subset_df] select, before the
    sampling or the slice. *)
Definition rows_to_annotate (self : Tortus) : result DataFrame :=
  if empty (annotations self) then Ok (df self)
  else
    let? already_annotated := getitem (annotations self) (Some (text self)) in
    let? col := getitem (df self) (Some (text self)) in
    let row_selection_to_annotate := isin col already_annotated in
    let row_selection_to_annotate :=
      if negb (edit_annotations self) then invert row_selection_to_annotate
      else row_selection_to_annotate in
    Ok (getitem_mask (df self) row_selection_to_annotate).

(** The eligible rows in the specification's words: all source rows when the
    prior table is empty; otherwise, in edit mode the source rows whose text
    is in the prior table's text column, and outside edit mode those whose
    text is not.  [i] and [j] are the positions of the text column in the
    prior table and in the source table. *)
Definition eligible_rows (self : Tortus) (i j : nat) : list Row :=
  if empty (annotations self) then rows (df self)
  else
    filter
      (fun r =>
         if in_dec value_eq_dec (cell j r) (map (cell i) (rows (annotations self)))
         then edit_annotations self
         else negb (edit_annotations self))
      (rows (df self)).

Definition raises_python {A : Type} (r : result A) : Prop :=
  forall e, r = Raise e -> python_exn e = true.

(** The table a write computes: the steps of
    [label_or_skip_buttons_clicked] down to the assignment, as a function of
    the object. *)
Definition write_result (button : Button) (skip : bool) (now : Z) (self : Tortus)
    : result DataFrame :=
  let? record_id := create_record_id self in
  let? row_annot := get_annotation_row_from_subset_iloc self (annotation_index self) in
  let? target :=
    match row_annot with
    | Some r =>
        let? lbl := if skip then series_getattr r "label"
                    else Ok (VStr (lower (description button))) in
        Ok (name r, lbl)
    | None =>
        Ok (len (annotations self),
            if skip then VNone else VStr (lower (description button)))
    end in
  let? rid := py_index record_id (annotation_index self) in
  let? col := getitem (subset_df self) (Some (text self)) in
  let? txt := py_index col (annotation_index self) in
  loc_set (fst target) [rid; txt; snd target; VTime now] (annotations self).

(** The attributes no handler assigns. *)
Definition config (self : Tortus) :=
  (df self, text self, num_records self, id_column self,
   edit_annotations self, get_html self, random self, labels self,
   display_confirm self, subset_df self).

(** The position is a row of the working subset. *)
Definition in_range (s : Session) : Prop :=
  0 <= position s <= len (subset_df (tortus s)) - 1.

(** The two actions that write. *)
Definition is_write (a : Action) : bool :=
  match a with
  | ChooseLabel _ _ | Skip _ => true
  | _ => false
  end.

(** ** The path of the annotated file

    [os.path.splitext] on a POSIX system, as [genericpath._splitext] computes
    it with [sep = '/'], no [altsep] and [extsep = '.'].  A path is a Python
    [str], here the list of its characters. *)
Module PosixPath.

(** [p.rfind(c)] for a one-character [c]: the highest index of [c] in [p],
    or [-1]. *)
Fixpoint rfind (c : ascii) (p : list ascii) : Z :=
  match p with
  | [] => -1
  | a :: tl =>
      let r := rfind c tl in
      if 0 <=? r then r + 1
      else if Ascii.eqb a c then 0 else -1
  end.

(** Python's [l[i:]]. *)
Definition py_slice_from {A : Type} (i : Z) (l : list A) : list A :=
  if i <? 0 then skipn (Z.to_nat (Z.of_nat (length l) + i)) l
  else skipn (Z.to_nat i) l.

(** Python's [l[i:j]] for indices that are not negative. *)
Definition py_slice {A : Type} (i j : Z) (l : list A) : list A :=
  firstn (Z.to_nat j - Z.to_nat i) (skipn (Z.to_nat i) l).

Definition sep : ascii := "/"%char.
Definition extsep : ascii := "."%char.

(** [splitext]: the extension starts at the last dot after the last
    separator, unless the file name has nothing but dots before it.  The
    source walks [filenameIndex] from [sepIndex + 1] up to [dotIndex] and
    returns the split at the first character that is not a dot. *)
Definition splitext (p : list ascii) : list ascii * list ascii :=
  let sepIndex := rfind sep p in
  let dotIndex := rfind extsep p in
  if sepIndex <? dotIndex then
    if existsb (fun c => negb (Ascii.eqb c extsep))
               (py_slice (sepIndex + 1) dotIndex p)
    then (py_slice_to dotIndex p, py_slice_from dotIndex p)
    else (p, py_slice_to 0 p)
  else (p, py_slice_to 0 p).

End PosixPath.

(** [get_annotated_path] *)
Definition get_annotated_path (data_path : list ascii) : list ascii :=
  let arr := PosixPath.splitext data_path in
  fst arr ++ list_ascii_of_string "_annotated" ++ snd arr.

(** ** More statement vocabulary *)

(** A row of a frame as the [Series] that [iloc] makes of it. *)
Definition row_series (d : DataFrame) (r : Row) : Series :=
  {| name := fst r; index := columns d; values := snd r |}.

(** No two rows of the table hold the same record id. *)
Definition distinct_ids (d : DataFrame) : Prop :=
  NoDup (map (cell 0) (rows d)).

(** Every record of the working subset has an id: no cell of the id column
    (or no index label) is missing. *)
Definition ids_present (self : Tortus) : Prop :=
  exists ids, create_record_id self = Ok ids /\ ~ In VNone ids.

(** A table row that is the entry of some record of the working subset: its
    four cells are the record's id, the record's text, a label that is null
    or a lowercased text, and a timestamp. *)
Definition entry_of_subset (self : Tortus) (row : Row) : Prop :=
  exists q rid txt lbl t,
    RecordIdAt self q = Ok rid /\
    TextAt self q = Ok txt /\
    snd row = [rid; txt; lbl; VTime t] /\
    (lbl = VNone \/ exists d, lbl = VStr (lower d)).

(** The two actions that only navigate. *)
Definition is_move (a : Action) : bool :=
  match a with
  | Confirm | Prev => true
  | _ => false
  end.

(** A source table whose second record has no id. *)
Definition demo_df_missing_id : DataFrame :=
  {| columns := ["id"; "text"];
     rows := [(0, [VInt 10; VStr "good"]);
              (1, [VNone; VStr "bad"])] |}.

(** With confirmation on, on the record without id, after one skip. *)
Definition demo_missing_id : Session :=
  run [Confirm; Skip 5]
    {| tortus :=
         {| df := demo_df_missing_id; text := "text"; num_records := 3;
            id_column := Some "id";
            annotations := new_frame ["id"; "text"; "label"; "annotated_at"];
            edit_annotations := false; get_html := None; random := false;
            labels := default_labels; display_confirm := true;
            subset_df := demo_df_missing_id; annotation_index := 0 |};
       ui := demo_widgets 0 "<h4>good</h4>" |}.

(** A session on a working subset without rows; it has the widgets of no
    [annotate] call, which raises on it. *)
Definition demo_empty : Session :=
  {| tortus :=
       {| df := empty_df; text := "text"; num_records := 3;
          id_column := Some "id";
          annotations := new_frame ["id"; "text"; "label"; "annotated_at"];
          edit_annotations := false; get_html := None; random := false;
          labels := default_labels; display_confirm := false;
          subset_df := empty_df; annotation_index := 0 |};
     ui := demo_widgets 0 "" |}.

(** ** Vocabulary of the write claims *)

(** A session on which a click can write: the id column is configured and
    is a column of the working subset, the column labels of the working
    subset are pairwise distinct, and the position is one of its rows. *)
Definition writable (s : Session) : Prop :=
  (exists c, id_column (tortus s) = Some c /\
             In c (columns (subset_df (tortus s)))) /\
  NoDup (columns (subset_df (tortus s))) /\
  in_range s.

(** The rows of the table that hold the record id [rid], by [==]. *)
Definition same_id (rid : value) (a : Row) : bool := value_eqb (cell 0 a) rid.

(** The eligible rows in the specification's words, from the arguments of
    the constructor: all source rows when there is no prior table or an
    empty one; otherwise, in edit mode the source rows whose text is in the
    prior table's text column, and outside edit mode those whose text is
    not, in source order.  [i] and [j] are the positions of the text column
    in the prior table and in the source table. *)
Definition eligible (df : DataFrame) (prior : option DataFrame) (edit : bool)
    (i j : nat) : list Row :=
  match prior with
  | None => rows df
  | Some a =>
      if empty a then rows df
      else
        filter
          (fun r =>
             if in_dec value_eq_dec (cell j r) (map (cell i) (rows a))
             then edit else negb edit)
          (rows df)
  end.

(** A prior table that holds the first record of [demo_df] under a text the
    source table no longer has. *)
Definition demo_old_prior : DataFrame :=
  {| columns := ["id"; "text"; "label"; "annotated_at"];
     rows := [(0, [VInt 10; VStr "old text"; VStr "negative"; VTime 50])] |}.

(** [Tortus(demo_df, 'text', num_records=3, id_column='id',
    annotations=demo_old_prior)], after [annotate()]. *)
Definition demo_old_text : Session :=
  {| tortus :=
       {| df := demo_df; text := "text"; num_records := 3;
          id_column := Some "id";
          annotations := demo_old_prior;
          edit_annotations := false; get_html := None; random := false;
          labels := default_labels; display_confirm := false;
          subset_df := demo_df; annotation_index := 0 |};
     ui := demo_widgets 0 "<h4>good</h4>" |}.

(** A prior table whose one row, the entry of the second record, is
    labelled 1: what is left of a two-row table after its first row was
    filtered out. *)
Definition demo_shifted_prior : DataFrame :=
  {| columns := ["id"; "text"; "label"; "annotated_at"];
     rows := [(1, [VInt 11; VStr "bad"; VStr "negative"; VTime 50])] |}.

(** [Tortus(demo_df, 'text', num_records=3, id_column='id',
    annotations=demo_shifted_prior)], after [annotate()]: the working subset
    is the first and the third record. *)
Definition demo_shifted : Session :=
  {| tortus :=
       {| df := demo_df; text := "text"; num_records := 3;
          id_column := Some "id";
          annotations := demo_shifted_prior;
          edit_annotations := false; get_html := None; random := false;
          labels := default_labels; display_confirm := false;
          subset_df := {| columns := ["id"; "text"];
                          rows := [(0, [VInt 10; VStr "good"]);
                                   (2, [VInt 12; VStr "so-so"])] |};
          annotation_index := 0 |};
     ui := demo_widgets 0 "<h4>good</h4>" |}.


(** * Lemmas on lists and frames *)

(** ** Python strings *)

(** [str.lower()] on letters inside and outside ASCII, on the capital sigma
    in and out of final position, and on the one character that lowers to
    two code points. *)
Example lower_examples :
  lower "Positve" = "positve" /\
  lower "ÄRGER" = "ärger" /\
  lower "ΟΔΟΣ ΣΟΦΟΣ Σ" = "οδος σοφος σ" /\
  lower "İstanbul ẞ 𐐀 Ǆ" = "i̇stanbul ß 𐐨 ǆ".
Proof. repeat split; vm_compute; reflexivity. Qed.

Section ListFacts.
Context {A : Type}.

Lemma replace_at_length (k : nat) (a : A) (l : list A) :
  length (replace_at k a l) = length l.
Proof.
  revert k; induction l as [|h tl IH]; intros [|k]; simpl; auto.
Qed.

Lemma replace_at_nth_same (k : nat) (a : A) (l : list A) :
  (k < length l)%nat -> nth_error (replace_at k a l) k = Some a.
Proof.
  revert k; induction l as [|h tl IH]; intros [|k] Hk; simpl in *;
    try lia; auto.
  apply IH; lia.
Qed.

Lemma replace_at_nth_other (k j : nat) (a : A) (l : list A) :
  j <> k -> nth_error (replace_at k a l) j = nth_error l j.
Proof.
  revert k j; induction l as [|h tl IH]; intros [|k] [|j] Hjk; simpl;
    try congruence; auto.
Qed.

Lemma select_map (f : A -> bool) (l : list A) :
  select (map f l) l = filter f l.
Proof.
  induction l as [|h tl IH]; simpl; auto.
  destruct (f h); rewrite IH; reflexivity.
Qed.

Lemma select_map_of {B : Type} (g : A -> B) (f : B -> bool) (l : list A) :
  select (map f (map g l)) l = filter (fun a => f (g a)) l.
Proof.
  rewrite map_map. apply (select_map (fun a => f (g a))).
Qed.

Lemma filter_head_nth (f : A -> bool) (l : list A) (r : A) (tl : list A) :
  filter f l = r :: tl ->
  exists k, nth_error l k = Some r /\ f r = true.
Proof.
  induction l as [|h l' IH]; simpl; [discriminate|].
  destruct (f h) eqn:Hf.
  - intros Heq. injection Heq as -> _. exists 0%nat. auto.
  - intros Heq. destruct (IH Heq) as [k [Hk Hr]]. exists (S k). auto.
Qed.

Lemma py_index_inv (l : list A) (i : Z) (a : A) :
  py_index l i = Ok a ->
  exists k, nth_error l k = Some a /\ (k < length l)%nat /\
            Z.of_nat k = (if i <? 0 then i + Z.of_nat (length l) else i).
Proof.
  unfold py_index.
  set (j := if i <? 0 then i + Z.of_nat (length l) else i).
  destruct ((j <? 0) || (Z.of_nat (length l) <=? j)) eqn:Hr; [discriminate|].
  apply orb_false_iff in Hr. destruct Hr as [H0 Hn].
  apply Z.ltb_ge in H0. apply Z.leb_gt in Hn.
  destruct (nth_error l (Z.to_nat j)) eqn:Hnth; [|discriminate].
  intros Heq. injection Heq as ->.
  exists (Z.to_nat j). repeat split; auto; lia.
Qed.

Lemma py_index_nth (l : list A) (k : nat) (a : A) :
  nth_error l k = Some a -> py_index l (Z.of_nat k) = Ok a.
Proof.
  intros Hk. unfold py_index.
  assert (Hlt : (k < length l)%nat) by (apply nth_error_Some; congruence).
  destruct (Z.of_nat k <? 0) eqn:Hneg; [apply Z.ltb_lt in Hneg; lia|].
  destruct ((Z.of_nat k <? 0) || (Z.of_nat (length l) <=? Z.of_nat k)) eqn:Hr.
  - apply orb_true_iff in Hr. destruct Hr as [H|H];
      [apply Z.ltb_lt in H | apply Z.leb_le in H]; lia.
  - rewrite Nat2Z.id, Hk. reflexivity.
Qed.

Lemma py_index_map {B : Type} (g : A -> B) (l : list A) (i : Z) (a : A) :
  py_index l i = Ok a -> py_index (map g l) i = Ok (g a).
Proof.
  unfold py_index. rewrite length_map.
  destruct (_ || _); [discriminate|].
  rewrite nth_error_map.
  destruct (nth_error l _); [|discriminate].
  intros Heq. injection Heq as ->. reflexivity.
Qed.


Lemma py_slice_drop_last (l : list A) (a : A) :
  py_slice_to (-1) (l ++ [a]) = l.
Proof.
  unfold py_slice_to. simpl (-1 <? 0).
  rewrite length_app. simpl length.
  replace (Z.to_nat (Z.of_nat (length l + 1) + -1)) with (length l + 0)%nat by lia.
  rewrite firstn_app_2. simpl. apply app_nil_r.
Qed.

Lemma py_slice_last_removed (l : list A) :
  py_slice_to (-1) l = removelast l.
Proof.
  destruct l as [|h t]; [reflexivity|].
  destruct (@exists_last A (h :: t)) as [l' [a Hl]]; [discriminate|].
  rewrite Hl, py_slice_drop_last, removelast_last. reflexivity.
Qed.

End ListFacts.

Lemma value_eqb_eq (a b : value) : value_eqb a b = true -> a = b.
Proof.
  destruct a, b; simpl; try discriminate; intros H.
  - apply Z.eqb_eq in H. congruence.
  - apply String.eqb_eq in H. congruence.
  - apply Z.eqb_eq in H. congruence.
Qed.

Lemma find_label_In (c : string) (cols : list string) :
  In c cols -> exists i, find_label c cols = Some i.
Proof.
  induction cols as [|c' tl IH]; simpl; [tauto|].
  intros Hin. destruct (String.eqb c c') eqn:E; [eauto|].
  destruct Hin as [->|Hin]; [rewrite String.eqb_refl in E; discriminate|].
  destruct (IH Hin) as [i ->]. simpl. eauto.
Qed.

Lemma find_label_head (c : string) (tl : list string) :
  find_label c (c :: tl) = Some 0%nat.
Proof. simpl. rewrite String.eqb_refl. reflexivity. Qed.

(** In a table with the four distinct columns, [label] is the third. *)
Lemma find_label_third (a b : string) :
  NoDup [a; b; "label"; "annotated_at"] ->
  find_label "label" [a; b; "label"; "annotated_at"] = Some 2%nat.
Proof.
  intros Hnd. inversion Hnd as [|? ? Ha Hnd']; subst.
  inversion Hnd' as [|? ? Hb _]; subst.
  cbn [find_label].
  destruct (String.eqb "label" a) eqn:Ea.
  { apply String.eqb_eq in Ea. subst a. exfalso. apply Ha. right. left. reflexivity. }
  destruct (String.eqb "label" b) eqn:Eb.
  { apply String.eqb_eq in Eb. subst b. exfalso. apply Hb. left. reflexivity. }
  rewrite String.eqb_refl. reflexivity.
Qed.

Section DefaultIndex.

Lemma labelled_from_cons (o : nat) (r : Row) (l : list Row) :
  labelled_from o (r :: l) <-> fst r = Z.of_nat o /\ labelled_from (S o) l.
Proof.
  unfold labelled_from. simpl. split.
  - intros H. injection H as H1 H2. auto.
  - intros [H1 H2]. congruence.
Qed.

Lemma labelled_from_nth (o : nat) (l : list Row) (k : nat) (r : Row) :
  labelled_from o l -> nth_error l k = Some r -> fst r = Z.of_nat (o + k).
Proof.
  revert o k. induction l as [|h tl IH]; intros o [|k] Hl Hk; simpl in Hk;
    try discriminate; apply labelled_from_cons in Hl; destruct Hl as [H1 H2].
  - injection Hk as <-. rewrite H1. f_equal. lia.
  - rewrite (IH _ _ H2 Hk). f_equal. lia.
Qed.

Lemma labelled_from_fresh (o : nat) (l : list Row) (n : Z) :
  labelled_from o l -> Z.of_nat (o + length l) <= n ->
  existsb (fun r : Row => fst r =? n) l = false.
Proof.
  revert o. induction l as [|h tl IH]; intros o Hl Hn; simpl; auto.
  apply labelled_from_cons in Hl. destruct Hl as [H1 H2].
  simpl in Hn. rewrite (IH (S o) H2) by lia.
  rewrite orb_false_r. apply Z.eqb_neq. lia.
Qed.

Lemma labelled_from_present (o : nat) (l : list Row) (k : nat) :
  labelled_from o l -> (k < length l)%nat ->
  existsb (fun r : Row => fst r =? Z.of_nat (o + k)) l = true.
Proof.
  revert o k. induction l as [|h tl IH]; intros o k Hl Hk; simpl in *; [lia|].
  apply labelled_from_cons in Hl. destruct Hl as [H1 H2].
  destruct k as [|k].
  - rewrite H1, Nat.add_0_r, Z.eqb_refl. reflexivity.
  - replace (o + S k)%nat with (S o + k)%nat by lia.
    rewrite (IH (S o) k H2) by lia. apply orb_true_r.
Qed.

Lemma labelled_from_untouched (o : nat) (l : list Row) (n : nat) (new : Row) :
  labelled_from o l -> (n < o)%nat ->
  map (fun r : Row => if fst r =? Z.of_nat n then new else r) l = l.
Proof.
  revert o. induction l as [|h tl IH]; intros o Hl Hn; simpl; auto.
  apply labelled_from_cons in Hl. destruct Hl as [H1 H2].
  rewrite H1.
  destruct (Z.of_nat o =? Z.of_nat n) eqn:E; [apply Z.eqb_eq in E; lia|].
  f_equal. apply (IH (S o)); auto.
Qed.

Lemma labelled_from_overwrite (o : nat) (l : list Row) (k : nat) (new : Row) :
  labelled_from o l -> (k < length l)%nat ->
  map (fun r : Row => if fst r =? Z.of_nat (o + k) then new else r) l
  = replace_at k new l.
Proof.
  revert o k. induction l as [|h tl IH]; intros o k Hl Hk; simpl in *; [lia|].
  apply labelled_from_cons in Hl. destruct Hl as [H1 H2].
  destruct k as [|k].
  - rewrite H1, Nat.add_0_r, Z.eqb_refl. cbn [replace_at]. f_equal.
    apply (labelled_from_untouched (S o)); auto.
  - replace (o + S k)%nat with (S o + k)%nat by lia.
    rewrite H1. cbn [replace_at].
    destruct (Z.of_nat o =? Z.of_nat (S o + k)) eqn:E;
      [apply Z.eqb_eq in E; lia|].
    f_equal. apply IH; auto. lia.
Qed.

Lemma labelled_from_app (o : nat) (l : list Row) (vals : list value) :
  labelled_from o l ->
  labelled_from o (l ++ [(Z.of_nat (o + length l), vals)]).
Proof.
  unfold labelled_from. intros H.
  rewrite length_app, seq_app, !map_app. simpl.
  rewrite <- H. reflexivity.
Qed.

Lemma labelled_from_replace (o : nat) (l : list Row) (k : nat) (vals : list value) :
  labelled_from o l ->
  labelled_from o (replace_at k (Z.of_nat (o + k), vals) l).
Proof.
  revert o k. induction l as [|h tl IH]; intros o k Hl.
  { destruct k; exact Hl. }
  apply labelled_from_cons in Hl. destruct Hl as [H1 H2].
  destruct k as [|k]; cbn [replace_at]; apply labelled_from_cons; split; auto.
  - cbn [fst]. f_equal. lia.
  - replace (o + S k)%nat with (S o + k)%nat by lia. apply IH; auto.
Qed.

Lemma labelled_from_firstn (o : nat) (l : list Row) (n : nat) :
  labelled_from o l -> labelled_from o (firstn n l).
Proof.
  revert o n. induction l as [|h tl IH]; intros o [|n] Hl; simpl; auto;
    try reflexivity.
  apply labelled_from_cons in Hl. destruct Hl as [H1 H2].
  apply labelled_from_cons. split; auto.
Qed.

End DefaultIndex.

(** * Lemmas on the class *)

(** What a successful lookup of the prior annotation went through: the id
    column is configured and is a column of both frames, the position is a
    row [r] of the working subset, and the answer is the first annotation
    row whose id cell [==] the id cell of [r]. *)
Lemma lookup_inv (self : Tortus) (p : Z) (o : option Series) :
  get_annotation_row_from_subset_iloc self p = Ok o ->
  exists c i j r,
    id_column self = Some c /\
    find_label c (columns (annotations self)) = Some i /\
    find_label c (columns (subset_df self)) = Some j /\
    py_index (rows (subset_df self)) p = Ok r /\
    o = match filter (fun a => value_eqb (cell i a) (cell j r))
                     (rows (annotations self)) with
        | [] => None
        | a :: _ => Some {| name := fst a;
                            index := columns (annotations self);
                            values := snd a |}
        end.
Proof.
  unfold get_annotation_row_from_subset_iloc, iloc, getitem, series_getitem, get_loc.
  destruct (py_index (rows (subset_df self)) p) as [r|] eqn:Hr;
    cbn [bindR]; [|discriminate].
  destruct (id_column self) as [c|] eqn:Hc; cbn [bindR]; [|discriminate].
  destruct (find_label c (columns (annotations self))) as [i|] eqn:Hi;
    cbn [bindR]; [|discriminate].
  cbn [index values].
  destruct (find_label c (columns (subset_df self))) as [j|] eqn:Hj;
    cbn [bindR]; [|discriminate].
  unfold getitem_mask, eq_scalar, len. cbn [rows columns].
  rewrite select_map_of.
  fold (cell j r).
  intros H. exists c, i, j, r. repeat split; auto.
  destruct (filter _ (rows (annotations self))) as [|a tl].
  - simpl in H. congruence.
  - cbn [length] in H.
    replace (0 <? Z.of_nat (S (length tl))) with true in H
      by (symmetry; apply Z.ltb_lt; lia).
    unfold py_index in H. simpl in H. congruence.
Qed.

(** The record id and the text the handler stores, when the lookup went
    through and the text column is there. *)
Lemma write_operands (self : Tortus) (p : Z) (c : string) (j : nat) (r : Row) :
  id_column self = Some c ->
  find_label c (columns (subset_df self)) = Some j ->
  py_index (rows (subset_df self)) p = Ok r ->
  In (text self) (columns (subset_df self)) ->
  exists ids col t,
    create_record_id self = Ok ids /\
    py_index ids p = Ok (cell j r) /\
    getitem (subset_df self) (Some (text self)) = Ok col /\
    find_label (text self) (columns (subset_df self)) = Some t /\
    py_index col p = Ok (cell t r).
Proof.
  intros Hc Hj Hr Ht.
  destruct (find_label_In _ _ Ht) as [t Hft].
  exists (map (cell j) (rows (subset_df self))),
         (map (cell t) (rows (subset_df self))), t.
  unfold create_record_id, getitem, get_loc. rewrite Hc, Hj, Hft. cbn [bindR].
  repeat split; auto using py_index_map.
Qed.

Lemma move_clicked_table (delta : Z) (s : Session) :
  table (after (move_clicked delta) s) = table s.
Proof.
  unfold after, move_clicked, bind, get_self, ret, put_self, put_ui, lift,
    modify_ui, table.
  cbn [fst snd].
  destruct ((delta =? -1) && (annotation_index (tortus s) =? 0)); [reflexivity|].
  destruct (annotation_index (tortus s) <? len (subset_df (tortus s)) - 1);
    [|reflexivity].
  cbn [tortus].
  destruct (annotate _); reflexivity.
Qed.

(** The table a write leaves, from the values its steps produced. *)
Lemma write_table (button : Button) (skip : bool) (now : Z) (s : Session)
    (ids col : list value) (o : option Series) (idx : Z) (lbl rid txt : value)
    (a : DataFrame) :
  create_record_id (tortus s) = Ok ids ->
  get_annotation_row_from_subset_iloc (tortus s) (position s) = Ok o ->
  match o with
  | Some r =>
      let? l := if skip then series_getattr r "label"
                else Ok (VStr (lower (description button))) in
      Ok (name r, l)
  | None =>
      Ok (len (table s),
          if skip then VNone else VStr (lower (description button)))
  end = Ok (idx, lbl) ->
  py_index ids (position s) = Ok rid ->
  getitem (subset_df (tortus s)) (Some (text (tortus s))) = Ok col ->
  py_index col (position s) = Ok txt ->
  loc_set idx [rid; txt; lbl; VTime now] (table s) = Ok a ->
  table (after (label_or_skip_buttons_clicked button skip now) s) = a.
Proof.
  unfold position, table. intros Hids Ho Htg Hrid Hcol Htxt Ha.
  unfold after, label_or_skip_buttons_clicked, bind, get_self, lift.
  cbn [fst snd]. rewrite Hids, Ho, Htg, Hrid, Hcol, Htxt.
  cbn [fst snd]. rewrite Ha.
  unfold put_self, modify_ui. cbn [fst snd tortus ui].
  destruct (display_confirm (tortus s)).
  - reflexivity.
  - unfold confirm_button_clicked.
    match goal with
    | |- annotations (tortus (snd (move_clicked 1 ?s0))) = _ =>
        change (table (after (move_clicked 1) s0) = a);
        rewrite move_clicked_table
    end.
    reflexivity.
Qed.

(** Both write paths of [label_or_skip_buttons_clicked] on a well-formed
    session: with no prior entry the table gains one row, labelled by the
    old row count; with a prior entry [e] the row at the position of [e],
    and no other, is rewritten. *)
Lemma write_cases (button : Button) (skip : bool) (now : Z) (s : Session)
    (o : option Series) :
  well_formed (tortus s) ->
  get_annotation_row_from_subset_iloc (tortus s) (position s) = Ok o ->
  exists rid txt,
    RecordIdAt (tortus s) (position s) = Ok rid /\
    TextAt (tortus s) (position s) = Ok txt /\
    let new := [rid; txt; written_label button skip o; VTime now] in
    let s' := after (label_or_skip_buttons_clicked button skip now) s in
    match o with
    | None =>
        table s' = {| columns := columns (table s);
                      rows := rows (table s) ++ [(len (table s), new)] |}
    | Some e =>
        exists k,
          nth_error (rows (table s)) k = Some (name e, values e) /\
          name e = Z.of_nat k /\
          nth 0 (values e) VNone = rid /\
          table s' = {| columns := columns (table s);
                        rows := replace_at k (name e, new) (rows (table s)) |}
    end.
Proof.
  intros [Hcols Hnd Hidx Htext] Hlook.
  destruct (lookup_inv _ _ _ Hlook) as (c & i & j & r & Hc & Hi & Hj & Hr & Ho).
  destruct (write_operands _ _ _ _ _ Hc Hj Hr Htext)
    as (ids & col & t & Hids & Hrid & Hcol & Hft & Htxt).
  assert (Hidl : id_label (tortus s) = c) by (unfold id_label; rewrite Hc; auto).
  rewrite Hidl in Hcols.
  assert (Hi0 : i = 0%nat).
  { rewrite Hcols, find_label_head in Hi. congruence. }
  subst i.
  exists (cell j r), (cell t r).
  unfold RecordIdAt, TextAt. rewrite Hids, Hcol. cbn [bindR].
  split; [exact Hrid|]. split; [exact Htxt|].
  cbv zeta.
  set (lbl := written_label button skip o).
  destruct (filter _ (rows (annotations (tortus s)))) as [|a tl] eqn:Hf;
    subst o.
  - (* no prior entry: setting with enlargement *)
    apply (write_table button skip now s ids col None (len (table s)) lbl
             (cell j r) (cell t r));
      [exact Hids | exact Hlook | | exact Hrid | exact Hcol | exact Htxt | ].
    + unfold lbl, written_label. destruct skip; reflexivity.
    + unfold loc_set, table. rewrite Hcols. cbn [length Nat.eqb negb].
      rewrite (labelled_from_fresh 0 _ _ Hidx) by (unfold len; lia).
      reflexivity.
  - (* a prior entry: the row labelled [fst a] is overwritten *)
    destruct (filter_head_nth _ _ _ _ Hf) as [k [Hk Heq]].
    assert (Hlt : (k < length (rows (annotations (tortus s))))%nat)
      by (apply nth_error_Some; congruence).
    pose proof (labelled_from_nth 0 _ _ _ Hidx Hk) as Hname.
    cbn [Nat.add] in Hname.
    exists k. cbn [name values].
    split; [unfold table; rewrite Hk; destruct a; reflexivity|].
    split; [exact Hname|].
    split; [apply value_eqb_eq in Heq; exact Heq|].
    eapply (write_table button skip now s ids col _ (fst a) lbl
              (cell j r) (cell t r));
      [exact Hids | exact Hlook | | exact Hrid | exact Hcol | exact Htxt | ].
    + cbn [name]. unfold lbl, written_label, series_getattr.
      cbn [index values]. destruct skip; [|reflexivity].
      rewrite Hcols. rewrite Hcols in Hnd.
      rewrite (find_label_third _ _ Hnd). reflexivity.
    + unfold loc_set, table. rewrite Hcols. cbn [length Nat.eqb negb].
      rewrite Hname.
      pose proof (labelled_from_present 0 _ k Hidx Hlt) as Hp.
      pose proof (fun new => labelled_from_overwrite 0 _ k new Hidx Hlt) as Hw.
      cbn [Nat.add] in Hp, Hw. rewrite Hp, Hw.
      reflexivity.
Qed.

(** The concrete sessions are what the constructor and [annotate] build. *)
Example demo_tortus_init :
  init demo_df "text" 3 (Some "id") None false None false default_labels false []
  = Ok demo_tortus.
Proof. reflexivity. Qed.

Example demo_session_start : start demo_tortus = Ok demo_session.
Proof. reflexivity. Qed.

Example demo_no_id_init :
  init demo_df "text" 3 None None false None false default_labels false []
  = Ok demo_no_id.
Proof. reflexivity. Qed.

Ltac distinct_labels :=
  repeat (constructor; [cbn [In]; intuition discriminate|]); constructor.

Ltac well_formed_by_computation :=
  constructor;
  [ vm_compute; reflexivity
  | vm_compute; distinct_labels
  | vm_compute; reflexivity
  | vm_compute; tauto ].

Ltac writable_by_computation :=
  split;
  [ eexists; split; [reflexivity | vm_compute; tauto]
  | split; [vm_compute; distinct_labels | vm_compute; split; discriminate] ].

Lemma demo_session_well_formed : well_formed (tortus demo_session).
Proof. well_formed_by_computation. Defined.

Lemma demo_relabel_well_formed : well_formed (tortus demo_relabel).
Proof. well_formed_by_computation. Defined.

(** * Writes: [ChooseLabel] and [Skip] *)

(** * What the handlers leave in place *)

(** The table after a write is the one [write_result] computes from the
    object, or the old table when a step raised: the widgets play no part. *)
Lemma write_table_eq (button : Button) (skip : bool) (now : Z) (s : Session) :
  table (after (label_or_skip_buttons_clicked button skip now) s)
  = match write_result button skip now (tortus s) with
    | Ok a => a
    | Raise _ => table s
    end.
Proof.
  unfold after, label_or_skip_buttons_clicked, write_result, bind, get_self,
    lift, table.
  cbn [fst snd].
  destruct (create_record_id (tortus s)) as [ids|]; cbn [bindR]; [|reflexivity].
  destruct (get_annotation_row_from_subset_iloc _ _) as [o|];
    cbn [bindR]; [|reflexivity].
  match goal with
  | |- context [bindR ?t _] => destruct t as [tg|]; cbn [bindR]; [|reflexivity]
  end.
  destruct (py_index ids _) as [rid|]; cbn [bindR]; [|reflexivity].
  destruct (getitem _ _) as [col|]; cbn [bindR]; [|reflexivity].
  destruct (py_index col _) as [txt|]; cbn [bindR]; [|reflexivity].
  destruct (loc_set _ _ _) as [a|]; [|reflexivity].
  unfold put_self, modify_ui. cbn [fst snd tortus ui].
  destruct (display_confirm (tortus s)); [reflexivity|].
  unfold confirm_button_clicked.
  match goal with
  | |- annotations (tortus (snd (move_clicked 1 ?s0))) = _ =>
      change (table (after (move_clicked 1) s0) = a);
      rewrite move_clicked_table
  end.
  reflexivity.
Qed.

Lemma move_clicked_config (delta : Z) (s : Session) :
  config (tortus (after (move_clicked delta) s)) = config (tortus s).
Proof.
  unfold after, move_clicked, bind, get_self, ret, put_self, put_ui, lift,
    modify_ui.
  cbn [fst snd].
  destruct ((delta =? -1) && (annotation_index (tortus s) =? 0)); [reflexivity|].
  destruct (annotation_index (tortus s) <? len (subset_df (tortus s)) - 1);
    [|reflexivity].
  cbn [tortus].
  destruct (annotate _); reflexivity.
Qed.

Lemma write_config (button : Button) (skip : bool) (now : Z) (s : Session) :
  config (tortus (after (label_or_skip_buttons_clicked button skip now) s))
  = config (tortus s).
Proof.
  unfold after, label_or_skip_buttons_clicked, bind, get_self, lift.
  cbn [fst snd].
  destruct (create_record_id (tortus s)) as [ids|]; [|reflexivity].
  destruct (get_annotation_row_from_subset_iloc _ _) as [o|]; [|reflexivity].
  match goal with
  | |- context [match ?t with Ok _ => _ | Raise _ => _ end] =>
      destruct t as [tg|]; [|reflexivity]
  end.
  destruct (py_index ids _) as [rid|]; [|reflexivity].
  destruct (getitem _ _) as [col|]; [|reflexivity].
  destruct (py_index col _) as [txt|]; [|reflexivity].
  destruct (loc_set _ _ _) as [a|]; [|reflexivity].
  unfold put_self, modify_ui. cbn [fst snd tortus ui].
  destruct (display_confirm (tortus s)); [reflexivity|].
  unfold confirm_button_clicked.
  match goal with
  | |- config (tortus (snd (move_clicked 1 ?s0))) = _ =>
      change (config (tortus (after (move_clicked 1) s0)) = config (tortus s));
      rewrite move_clicked_config
  end.
  reflexivity.
Qed.

Lemma handler_config (a : Action) (s : Session) :
  config (tortus (after (handler a) s)) = config (tortus s).
Proof.
  destruct a as [label now|now| | |]; cbn [handler].
  - apply write_config.
  - apply (write_config (skip_button (ui s)) true now s).
  - apply move_clicked_config.
  - apply move_clicked_config.
  - reflexivity.
Qed.

Lemma config_subset_df (t1 t2 : Tortus) :
  config t1 = config t2 -> subset_df t1 = subset_df t2.
Proof. unfold config. intros H. congruence. Qed.

(** ** The position *)

(** [move_clicked] case by case. *)
Lemma move_clicked_position (delta : Z) (s : Session) :
  position (after (move_clicked delta) s)
  = if (delta =? -1) && (position s =? 0) then position s
    else if position s <? len (subset_df (tortus s)) - 1
         then position s + delta
         else position s.
Proof.
  unfold after, move_clicked, bind, get_self, ret, put_self, put_ui, lift,
    modify_ui, position.
  cbn [fst snd].
  destruct ((delta =? -1) && (annotation_index (tortus s) =? 0)); [reflexivity|].
  destruct (annotation_index (tortus s) <? len (subset_df (tortus s)) - 1);
    [|reflexivity].
  cbn [tortus].
  destruct (annotate _); reflexivity.
Qed.

Lemma write_position (button : Button) (skip : bool) (now : Z) (s : Session) :
  position (after (label_or_skip_buttons_clicked button skip now) s) = position s
  \/ position (after (label_or_skip_buttons_clicked button skip now) s)
     = position (after (move_clicked 1)
                   {| tortus := tortus s; ui := ui s |}).
Proof.
  unfold after at 1 2, label_or_skip_buttons_clicked, bind, get_self, lift.
  cbn [fst snd].
  destruct (create_record_id (tortus s)) as [ids|]; [|left; reflexivity].
  destruct (get_annotation_row_from_subset_iloc _ _) as [o|]; [|left; reflexivity].
  match goal with
  | |- context [match ?t with Ok _ => _ | Raise _ => _ end] =>
      destruct t as [tg|]; [|left; reflexivity]
  end.
  destruct (py_index ids _) as [rid|]; [|left; reflexivity].
  destruct (getitem _ _) as [col|]; [|left; reflexivity].
  destruct (py_index col _) as [txt|]; [|left; reflexivity].
  destruct (loc_set _ _ _) as [a|]; [|left; reflexivity].
  unfold put_self, modify_ui. cbn [fst snd tortus ui].
  destruct (display_confirm (tortus s)); [left; reflexivity|].
  right. unfold confirm_button_clicked.
  match goal with
  | |- position (snd (move_clicked 1 ?s0)) = _ =>
      change (position (after (move_clicked 1) s0)
              = position (after (move_clicked 1)
                            {| tortus := tortus s; ui := ui s |}))
  end.
  rewrite !move_clicked_position. reflexivity.
Qed.

Lemma move_clicked_in_range (delta : Z) (s : Session) :
  delta = 1 \/ delta = -1 ->
  in_range s -> in_range (after (move_clicked delta) s).
Proof.
  intros Hd [Hlo Hhi]. unfold in_range.
  rewrite (config_subset_df _ _ (move_clicked_config delta s)).
  rewrite move_clicked_position.
  destruct ((delta =? -1) && (position s =? 0)) eqn:Hg; [lia|].
  destruct (position s <? len (subset_df (tortus s)) - 1) eqn:Hlt; [|lia].
  apply Z.ltb_lt in Hlt.
  destruct Hd as [-> | ->]; [lia|].
  apply andb_false_iff in Hg. destruct Hg as [Hg|Hg]; [discriminate|].
  apply Z.eqb_neq in Hg. lia.
Qed.

Lemma handler_in_range (a : Action) (s : Session) :
  in_range s -> in_range (after (handler a) s).
Proof.
  intros Hr.
  assert (Hw : forall button skip now,
             in_range (after (label_or_skip_buttons_clicked button skip now) s)).
  { intros button skip now. unfold in_range.
    rewrite (config_subset_df _ _ (write_config button skip now s)).
    destruct (write_position button skip now s) as [-> | ->]; [exact Hr|].
    pose proof (move_clicked_in_range 1 {| tortus := tortus s; ui := ui s |}
                  (or_introl eq_refl) Hr) as Hm.
    unfold in_range in Hm.
    rewrite (config_subset_df _ _ (move_clicked_config 1 _)) in Hm.
    exact Hm. }
  destruct a as [label now|now| | |]; cbn [handler].
  - apply Hw.
  - apply (Hw (skip_button (ui s)) true now).
  - apply move_clicked_in_range; auto.
  - apply move_clicked_in_range; auto.
  - exact Hr.
Qed.

Lemma run_in_range (acts : list Action) (s : Session) :
  in_range s -> in_range (run acts s).
Proof.
  revert s. induction acts as [|a acts IH]; intros s Hr; [exact Hr|].
  cbn [run fold_left]. apply IH. apply handler_in_range. exact Hr.
Qed.

Lemma run_config (acts : list Action) (s : Session) :
  config (tortus (run acts s)) = config (tortus s).
Proof.
  revert s. induction acts as [|a acts IH]; intros s; [reflexivity|].
  cbn [run fold_left].
  change (config (tortus (run acts (after (handler a) s))) = config (tortus s)).
  rewrite IH. apply handler_config.
Qed.

(** * The exceptions the code can raise

    No path of the constructor, of [annotate] or of a handler raises one of
    the three error classes of the specification: the source defines no
    exception of its own and validates nothing before calling pandas. *)

Create HintDb python.

Lemma raises_python_ok {A : Type} (a : A) : raises_python (Ok a).
Proof. intros e H. discriminate. Qed.

Lemma raises_python_raise {A : Type} (e : exn) :
  python_exn e = true -> raises_python (@Raise A e).
Proof. intros He e' H. injection H as <-. exact He. Qed.

Lemma raises_python_bind {A B : Type} (c : result A) (k : A -> result B) :
  raises_python c -> (forall a, raises_python (k a)) ->
  raises_python (bindR c k).
Proof.
  intros Hc Hk. destruct c as [a|e]; cbn [bindR]; [apply Hk|].
  intros e' H. apply Hc. congruence.
Qed.

#[local] Hint Resolve raises_python_ok raises_python_bind : python.
#[local] Hint Extern 1 (raises_python (Raise _)) =>
  apply raises_python_raise; reflexivity : python.

Lemma py_index_python {A : Type} (l : list A) (i : Z) :
  raises_python (py_index l i).
Proof.
  unfold py_index. destruct (_ || _); auto with python.
  destruct (nth_error _ _); auto with python.
Qed.

Lemma get_loc_python (key : option string) (cols : list string) :
  raises_python (get_loc key cols).
Proof.
  unfold get_loc. destruct key; auto with python.
  destruct (find_label _ _); auto with python.
Qed.

#[local] Hint Resolve py_index_python get_loc_python : python.

Lemma getitem_python (d : DataFrame) (key : option string) :
  raises_python (getitem d key).
Proof. unfold getitem. auto with python. Qed.

Lemma iloc_python (d : DataFrame) (i : Z) : raises_python (iloc d i).
Proof. unfold iloc. auto with python. Qed.

Lemma series_getitem_python (r : Series) (key : option string) :
  raises_python (series_getitem r key).
Proof. unfold series_getitem. auto with python. Qed.

Lemma series_getattr_python (r : Series) (attr : string) :
  raises_python (series_getattr r attr).
Proof. unfold series_getattr. destruct (find_label _ _); auto with python. Qed.

Lemma sample_python (n : Z) (draw : list nat) (d : DataFrame) :
  raises_python (sample n draw d).
Proof.
  unfold sample. destruct (n <? 0); auto with python.
  destruct ((len d =? 0) && negb (n =? 0)); auto with python.
  destruct (2 ^ 64 <=? n); auto with python.
  destruct (len d <? n); auto with python.
Qed.

Lemma loc_set_python (idx : Z) (vals : list value) (d : DataFrame) :
  raises_python (loc_set idx vals d).
Proof.
  unfold loc_set. destruct (negb _); auto with python.
  destruct (existsb _ _); auto with python.
Qed.

#[local] Hint Resolve getitem_python iloc_python series_getitem_python
  series_getattr_python sample_python loc_set_python : python.

Lemma rows_to_annotate_python (self : Tortus) :
  raises_python (rows_to_annotate self).
Proof. unfold rows_to_annotate. destruct (empty _); auto 6 with python. Qed.

Lemma create_subset_df_eq (draw : list nat) (self : Tortus) :
  create_subset_df draw self
  = let? subset_df := rows_to_annotate self in
    if random self then sample (num_records self) draw subset_df
    else Ok (slice_to (num_records self) subset_df).
Proof. reflexivity. Qed.

Lemma create_subset_df_python (draw : list nat) (self : Tortus) :
  raises_python (create_subset_df draw self).
Proof.
  rewrite create_subset_df_eq.
  apply raises_python_bind; [apply rows_to_annotate_python|].
  intros d. destruct (random self); auto with python.
Qed.

Lemma init_python df text n idc ann edit gh rnd labels dc draw :
  raises_python (init df text n idc ann edit gh rnd labels dc draw).
Proof.
  unfold init. apply raises_python_bind; [apply create_subset_df_python|].
  auto with python.
Qed.

Lemma create_record_id_python (self : Tortus) :
  raises_python (create_record_id self).
Proof. unfold create_record_id. destruct (id_column self); auto with python. Qed.

Lemma call_get_html_python (self : Tortus) (row : Series) :
  raises_python (call_get_html self row).
Proof.
  unfold call_get_html. destruct (get_html self) as [f|]; auto with python.
  destruct (f row) as [v|e He]; auto with python.
  apply raises_python_raise. exact He.
Qed.

Lemma make_html_python (self : Tortus) (row : Series) :
  raises_python (make_html self row).
Proof.
  unfold make_html.
  apply raises_python_bind; [apply call_get_html_python|].
  intros [ | | | ]; auto with python.
Qed.

Lemma lookup_python (self : Tortus) (p : Z) :
  raises_python (get_annotation_row_from_subset_iloc self p).
Proof.
  unfold get_annotation_row_from_subset_iloc.
  repeat (apply raises_python_bind; [solve [auto with python]|intro]).
  destruct (0 <? _); auto with python.
Qed.

#[local] Hint Resolve create_record_id_python make_html_python lookup_python
  : python.

Lemma annotate_python (self : Tortus) : raises_python (annotate self).
Proof.
  unfold annotate.
  repeat (apply raises_python_bind; [solve [auto with python]|intro]).
  apply raises_python_bind.
  { match goal with |- raises_python (match ?o with _ => _ end) => destruct o end;
      auto with python. }
  intro. destruct (_ <? _); auto with python.
  destruct (_ =? _)%nat; auto with python.
Qed.

Lemma write_result_python (button : Button) (skip : bool) (now : Z) (self : Tortus) :
  raises_python (write_result button skip now self).
Proof.
  unfold write_result.
  repeat (apply raises_python_bind; [solve [auto with python]|intro]).
  apply raises_python_bind.
  { match goal with |- raises_python (match ?o with _ => _ end) => destruct o end;
      auto with python.
    destruct skip; auto with python. }
  intro. auto 7 with python.
Qed.

(** The state monad: a computation raises what its steps raise. *)
Lemma bind_python {A B : Type} (c : M A) (k : A -> M B) (s : Session) :
  raises_python (fst (c s)) ->
  (forall a s', raises_python (fst (k a s'))) ->
  raises_python (fst (bind c k s)).
Proof.
  intros Hc Hk. unfold bind.
  destruct (c s) as [[a|e] s']; cbn [fst] in *; [apply Hk|].
  intros e' H. apply Hc. congruence.
Qed.

Lemma move_clicked_python (delta : Z) (s : Session) :
  raises_python (fst (move_clicked delta s)).
Proof.
  unfold move_clicked.
  apply bind_python; [apply raises_python_ok|]. intros self s1.
  destruct (_ && _); [apply raises_python_ok|].
  destruct (_ <? _); [|apply raises_python_ok].
  apply bind_python; [apply raises_python_ok|]. intros _ s2.
  apply bind_python; [apply annotate_python|]. intros w s3.
  apply raises_python_ok.
Qed.

Lemma write_python (button : Button) (skip : bool) (now : Z) (s : Session) :
  raises_python (fst (label_or_skip_buttons_clicked button skip now s)).
Proof.
  unfold label_or_skip_buttons_clicked.
  apply bind_python; [apply raises_python_ok|]. intros self s1.
  apply bind_python; [apply create_record_id_python|]. intros ids s2.
  apply bind_python; [apply lookup_python|]. intros o s3.
  apply bind_python.
  { unfold lift. cbn [fst]. destruct o; auto with python.
    destruct skip; auto with python. }
  intros tg s4.
  apply bind_python; [apply py_index_python|]. intros rid s5.
  apply bind_python; [apply getitem_python|]. intros col s6.
  apply bind_python; [apply py_index_python|]. intros txt s7.
  apply bind_python; [apply loc_set_python|]. intros a s8.
  apply bind_python; [apply raises_python_ok|]. intros _ s9.
  apply bind_python; [apply raises_python_ok|]. intros _ s10.
  destruct (display_confirm self);
    [apply raises_python_ok | apply move_clicked_python].
Qed.

Lemma handler_python (a : Action) (s : Session) :
  raises_python (fst (handler a s)).
Proof.
  destruct a as [label now|now| | |]; cbn [handler].
  - apply write_python.
  - apply write_python.
  - apply move_clicked_python.
  - apply move_clicked_python.
  - intros e H. discriminate.
Qed.

(** * Navigation *)

Lemma init_annotation_index df text n idc ann edit gh rnd labels dc draw self :
  init df text n idc ann edit gh rnd labels dc draw = Ok self ->
  annotation_index self = 0.
Proof.
  unfold init. destruct (create_subset_df _ _) as [d|]; cbn [bindR];
    [|discriminate].
  intros H. injection H as <-. reflexivity.
Qed.

(** C10.  For every session the constructor builds with a non-empty working
    subset, the position starts at 0 and, whatever sequence of label, skip,
    confirm, prev and redo clicks follows, stays within
    [0, len(WorkingSubset) - 1]; the working subset itself never changes. *)
Theorem position_stays_in_range
    df text n idc ann edit gh rnd labels dc draw (self : Tortus) (w : Widgets)
    (acts : list Action) :
  init df text n idc ann edit gh rnd labels dc draw = Ok self ->
  0 < len (subset_df self) ->
  let s := {| tortus := self; ui := w |} in
  position s = 0 /\
  subset_df (tortus (run acts s)) = subset_df self /\
  0 <= position (run acts s) <= len (subset_df self) - 1.
Proof.
  intros Hinit Hlen s.
  pose proof (init_annotation_index _ _ _ _ _ _ _ _ _ _ _ _ Hinit) as H0.
  assert (Hs : subset_df (tortus (run acts s)) = subset_df self)
    by apply (config_subset_df _ _ (run_config acts s)).
  split; [exact H0|]. split; [exact Hs|].
  assert (Hr : in_range s).
  { unfold in_range, position. subst s. cbn [tortus]. lia. }
  pose proof (run_in_range acts s Hr) as Hrun.
  unfold in_range in Hrun. rewrite Hs in Hrun. exact Hrun.
Qed.

Lemma position_stays_in_range_witness :
  position demo_session = 0 /\
  subset_df (tortus (run [ChooseLabel "Negative" 1; Prev; Prev; Skip 2; Confirm;
                          Undo; Confirm; Confirm] demo_session))
  = subset_df demo_tortus /\
  0 <= position (run [ChooseLabel "Negative" 1; Prev; Prev; Skip 2; Confirm;
                      Undo; Confirm; Confirm] demo_session)
    <= len (subset_df demo_tortus) - 1.
Proof.
  apply (position_stays_in_range demo_df "text" 3 (Some "id") None false None false
           default_labels false [] demo_tortus (demo_widgets 0 "<h4>good</h4>")).
  - reflexivity.
  - reflexivity.
Defined.

(** C10, as stated, fails on a session whose working subset is empty: the
    constructor accepts a source table without rows, the position is 0 and
    the interval [0, -1] holds no position. *)
Lemma empty_subset_position_out_of_range :
  exists self,
    init empty_df "text" 3 (Some "id") None false None false default_labels false []
    = Ok self /\
    len (subset_df self) = 0 /\
    ~ (0 <= annotation_index self <= len (subset_df self) - 1).
Proof.
  eexists. split; [reflexivity|]. split; [reflexivity|].
  vm_compute. intros [_ H]. apply H. reflexivity.
Qed.

(** Inside the working subset [move_clicked] moves by [delta]. *)
Lemma move_clicked_before_last (delta : Z) (s : Session) :
  position s < len (subset_df (tortus s)) - 1 ->
  ~ (delta = -1 /\ position s = 0) ->
  position (after (move_clicked delta) s) = position s + delta.
Proof.
  intros Hlt Hg. rewrite move_clicked_position.
  destruct ((delta =? -1) && (position s =? 0)) eqn:E.
  - apply andb_true_iff in E. destruct E as [E1 E2].
    apply Z.eqb_eq in E1. apply Z.eqb_eq in E2. tauto.
  - apply Z.ltb_lt in Hlt. rewrite Hlt. reflexivity.
Qed.

(** On the last row, and past the first, [move_clicked] takes its closing
    branch for either direction: the object is untouched and only the
    caption tells the directions apart. *)
Lemma move_clicked_at_last (delta : Z) (s : Session) :
  len (subset_df (tortus s)) - 1 <= position s ->
  ~ (delta = -1 /\ position s = 0) ->
  move_clicked delta s
  = (Ok tt,
     {| tortus := tortus s;
        ui := set_progress (num_records (tortus s))
                (if delta =? 1 then Complete else Start) (ui s) |}).
Proof.
  intros Hge Hg. unfold move_clicked, bind, get_self, modify_ui, position in *.
  destruct ((delta =? -1) && (annotation_index (tortus s) =? 0)) eqn:E.
  - apply andb_true_iff in E. destruct E as [E1 E2].
    apply Z.eqb_eq in E1. apply Z.eqb_eq in E2. tauto.
  - destruct (annotation_index (tortus s) <? len (subset_df (tortus s)) - 1) eqn:L.
    + apply Z.ltb_lt in L. lia.
    + reflexivity.
Qed.

(** C5, on the code: on the last of three records, [Prev] leaves the
    position where it is and closes the display under the caption 'Start',
    where the claim has it move back to the second record and stay active. *)
Theorem prev_at_last_position_stays :
  position demo_last = 2 /\
  len (subset_df (tortus demo_last)) = 3 /\
  fst (handler Prev demo_last) = Ok tt /\
  position (after (handler Prev) demo_last) = 2 /\
  progress_description (ui (after (handler Prev) demo_last)) = Start.
Proof. repeat split. Qed.

(** * Completion *)

(** C7, amended.  [Advance(+1)] at the final position returns normally,
    leaves the object (position and table included) as it is and sets the
    progress caption to 'Complete'.  The code keeps no closed state: no
    handler run afterwards raises [SessionClosedError], and a write run
    afterwards leaves the table the same write would have left before. *)
Theorem advance_at_last_position_completes (s : Session) :
  position s = len (subset_df (tortus s)) - 1 ->
  let c := after (handler Confirm) s in
  fst (handler Confirm s) = Ok tt /\
  progress_description (ui c) = Complete /\
  tortus c = tortus s /\
  (forall a, fst (handler a c) <> Raise SessionClosedError) /\
  (forall a, is_write a = true ->
             table (after (handler a) c) = table (after (handler a) s)).
Proof.
  intros Hlast c.
  assert (Hm : move_clicked 1 s
               = (Ok tt,
                  {| tortus := tortus s;
                     ui := set_progress (num_records (tortus s)) Complete (ui s) |})).
  { apply (move_clicked_at_last 1 s); [lia|]. intros [H _]. discriminate. }
  subst c. unfold after. cbn [handler]. unfold confirm_button_clicked.
  rewrite Hm. cbn [fst snd tortus ui progress_description set_progress].
  repeat split.
  - intros a H. pose proof (handler_python a _ _ H) as Hp. discriminate.
  - intros [label now|now| | |] Hw; try discriminate.
    + cbn [handler]. unfold label_buttons_clicked.
      fold (after (label_or_skip_buttons_clicked
                     {| description := label; disabled := false |} false now)
                  {| tortus := tortus s;
                     ui := set_progress (num_records (tortus s)) Complete (ui s) |}).
      fold (after (label_or_skip_buttons_clicked
                     {| description := label; disabled := false |} false now) s).
      rewrite !write_table_eq. reflexivity.
    + cbn [handler ui set_progress skip_button]. unfold skip_button_clicked.
      fold (after (label_or_skip_buttons_clicked (skip_button (ui s)) true now)
                  {| tortus := tortus s;
                     ui := set_progress (num_records (tortus s)) Complete (ui s) |}).
      fold (after (label_or_skip_buttons_clicked (skip_button (ui s)) true now) s).
      rewrite !write_table_eq. reflexivity.
Qed.

Lemma advance_at_last_position_completes_witness :
  fst (handler Confirm demo_last) = Ok tt /\
  progress_description (ui (after (handler Confirm) demo_last)) = Complete /\
  tortus (after (handler Confirm) demo_last) = tortus demo_last /\
  (forall a, fst (handler a (after (handler Confirm) demo_last))
             <> Raise SessionClosedError) /\
  table (after (handler (ChooseLabel "Positive" 7))
           (after (handler Confirm) demo_last))
  = table (after (handler (ChooseLabel "Positive" 7)) demo_last) /\
  table (after (handler (Skip 8)) (after (handler Confirm) demo_last))
  = table (after (handler (Skip 8)) demo_last).
Proof.
  destruct (advance_at_last_position_completes demo_last eq_refl)
    as (H1 & H2 & H3 & H4 & H5).
  repeat (split; [assumption|]).
  split; [exact (H5 (ChooseLabel "Positive" 7) eq_refl)
         | exact (H5 (Skip 8) eq_refl)].
Defined.

(** C7, as stated, fails: after the advance that shows 'Complete', a label
    click is not rejected; it returns normally and adds the entry of the last
    record to the table. *)
Lemma write_after_complete_is_accepted :
  let c := after (handler Confirm) demo_last in
  progress_description (ui c) = Complete /\
  fst (handler (ChooseLabel "Positive" 7) c) = Ok tt /\
  fst (handler (ChooseLabel "Positive" 7) c) <> Raise SessionClosedError /\
  rows (table c) = [] /\
  rows (table (after (handler (ChooseLabel "Positive" 7)) c))
  = [(0, [VInt 12; VStr "so-so"; VStr "positive"; VTime 7])].
Proof.
  cbv zeta. repeat split. vm_compute. discriminate.
Qed.

(** * Labels *)

(** What a call of [annotate] that returns went through, and the widgets
    it built. *)
Lemma annotate_inv (self : Tortus) (w : Widgets) :
  annotate self = Ok w ->
  exists row t o,
    iloc (subset_df self) (annotation_index self) = Ok row /\
    call_get_html self row = Ok (VStr t) /\
    get_annotation_row_from_subset_iloc self (annotation_index self) = Ok o /\
    0 <= num_records self /\
    (3 <= length (labels self))%nat /\
    w = {| html := ("<h4>" ++ t ++ "</h4>")%string;
           label_buttons :=
             map (fun l => {| description := l; disabled := false |})
                 (labels self);
           skip_button := {| description := "Skip"; disabled := false |};
           progress_value :=
             bounded 0 (num_records self) (annotation_index self);
           progress_description :=
             Position (annotation_index self + 1) (num_records self);
           confirm_visible := false |}.
Proof.
  unfold annotate, make_html.
  destruct (iloc _ _) as [row|]; cbn [bindR]; [|discriminate].
  destruct (call_get_html self row) as [[ |t| | ]|] eqn:Hhook; cbn [bindR];
    try discriminate.
  destruct (get_annotation_row_from_subset_iloc _ _) as [o|];
    cbn [bindR]; [|discriminate].
  match goal with
  | |- context [bindR ?x _] => destruct x; cbn [bindR]; [|discriminate]
  end.
  destruct (num_records self <? 0) eqn:Hn; [discriminate|].
  destruct (_ =? _)%nat eqn:Hdiv; [discriminate|].
  intros H. injection H as <-.
  exists row, t, o.
  split; [reflexivity|]. split; [exact Hhook|]. split; [reflexivity|].
  split; [|split; [|reflexivity]].
  - apply Z.ltb_ge. exact Hn.
  - apply Nat.eqb_neq in Hdiv. rewrite length_map in Hdiv.
    unfold MAX_BUTTONS_IN_ROW in Hdiv.
    destruct (Nat.lt_ge_cases (length (labels self) + 2) 5) as [Hlt|Hge]; [|lia].
    exfalso. apply Hdiv. apply Nat.div_small. exact Hlt.
Qed.

(** The buttons [annotate] displays carry the configured labels, one each. *)
Lemma annotate_label_buttons (self : Tortus) (w : Widgets) :
  annotate self = Ok w -> map description (label_buttons w) = labels self.
Proof.
  intros H. destruct (annotate_inv self w H) as (row & t & o & _ & _ & _ & _ & _ & ->).
  cbn [label_buttons]. rewrite map_map. cbn [description]. apply map_id.
Qed.

(** * Undo *)

Lemma demo_confirm_well_formed : well_formed (tortus demo_confirm).
Proof. well_formed_by_computation. Defined.

Lemma redo_button_clicked_eq (s : Session) :
  redo_button_clicked s
  = (Ok tt,
     {| tortus := set_annotations (head (-1) (annotations (tortus s))) (tortus s);
        ui := set_confirm_visible false (set_disabled false (ui s)) |}).
Proof. reflexivity. Qed.

(** X25.  [Undo()] returns normally, removes the last row of the table and
    nothing else, does not move the position, and leaves an empty table as
    it is.  Run on a well-formed session right after a label or a skip whose
    lookup found no prior entry, it gives back the table the write started
    from, rows and content, with confirmation on or off. *)
Theorem undo_removes_last_row (s : Session) (a : Action) :
  let u := after (handler Undo) s in
  fst (handler Undo s) = Ok tt /\
  columns (table u) = columns (table s) /\
  rows (table u) = removelast (rows (table s)) /\
  position u = position s /\
  (rows (table s) = [] -> table u = table s) /\
  (well_formed (tortus s) ->
   is_write a = true ->
   get_annotation_row_from_subset_iloc (tortus s) (position s) = Ok None ->
   length (rows (table (after (handler a) s))) = S (length (rows (table s))) /\
   table (after (handler Undo) (after (handler a) s)) = table s).
Proof.
  intros u.
  assert (Hu : table u
               = {| columns := columns (table s);
                    rows := py_slice_to (-1) (rows (table s)) |})
    by reflexivity.
  split; [reflexivity|]. rewrite Hu. cbn [columns rows].
  split; [reflexivity|].
  split; [apply py_slice_last_removed|]. split; [reflexivity|].
  split.
  - intros Hnil. rewrite Hnil. destruct (table s) as [cols rs].
    cbn [rows columns] in *. rewrite Hnil. reflexivity.
  - intros Hwf Hw Hlook.
    assert (Happ : exists new,
               table (after (handler a) s)
               = {| columns := columns (table s);
                    rows := rows (table s) ++ [new] |}).
    { destruct a as [label now|now| | |]; try discriminate.
      - destruct (write_cases {| description := label; disabled := false |}
                    false now s None Hwf Hlook) as (rid & txt & _ & _ & H).
        eexists. exact H.
      - destruct (write_cases (skip_button (ui s)) true now s None Hwf Hlook)
          as (rid & txt & _ & _ & H).
        eexists. exact H. }
    destruct Happ as [new Happ].
    split.
    + rewrite Happ. cbn [rows]. rewrite length_app. cbn [length]. lia.
    + change (table (after (handler Undo) (after (handler a) s)))
        with {| columns := columns (table (after (handler a) s));
                rows := py_slice_to (-1) (rows (table (after (handler a) s))) |}.
      rewrite Happ. cbn [columns rows].
      rewrite py_slice_drop_last.
      destruct (table s); reflexivity.
Qed.

Lemma undo_removes_last_row_witness :
  fst (handler Undo demo_confirm) = Ok tt /\
  columns (table (after (handler Undo) demo_confirm))
  = columns (table demo_confirm) /\
  rows (table (after (handler Undo) demo_confirm))
  = removelast (rows (table demo_confirm)) /\
  position (after (handler Undo) demo_confirm) = position demo_confirm /\
  table (after (handler Undo) demo_confirm) = table demo_confirm /\
  length (rows (table (after (handler (ChooseLabel "Negative" 5)) demo_confirm)))
  = S (length (rows (table demo_confirm))) /\
  table (after (handler Undo)
           (after (handler (ChooseLabel "Negative" 5)) demo_confirm))
  = table demo_confirm.
Proof.
  destruct (undo_removes_last_row demo_confirm (ChooseLabel "Negative" 5))
    as (H1 & H2 & H3 & H4 & H5 & H6).
  repeat (split; [assumption|]).
  split; [exact (H5 eq_refl)|].
  exact (H6 demo_confirm_well_formed eq_refl eq_refl).
Defined.

(** C4, on the code: [redo_button_clicked], whose docstring says 'Deletes
    the most recent input to annotations', drops the last row of the table
    whatever the last input was.  With confirmation on and two records
    labelled, back on the first record a new label rewrites row 0 and leaves
    two rows; the undo that follows removes row 1, the entry of the other
    record, and keeps the rewrite it was meant to take back: one row is left
    where the write started from two, and the table before the write is not
    restored. *)
Theorem undo_after_update_loses_a_row :
  let s := demo_confirm_two_rows in
  let w := after (handler (ChooseLabel "Neutral" 7)) s in
  let u := after (handler Undo) w in
  get_annotation_row_from_subset_iloc (tortus s) (position s)
  = Ok (Some {| name := 0;
                index := ["id"; "text"; "label"; "annotated_at"];
                values := [VInt 10; VStr "good"; VStr "negative"; VTime 100] |}) /\
  rows (table s) = [(0, [VInt 10; VStr "good"; VStr "negative"; VTime 100]);
                    (1, [VInt 11; VStr "bad"; VStr "neutral"; VTime 101])] /\
  rows (table w) = [(0, [VInt 10; VStr "good"; VStr "neutral"; VTime 7]);
                    (1, [VInt 11; VStr "bad"; VStr "neutral"; VTime 101])] /\
  fst (handler Undo w) = Ok tt /\
  rows (table u) = [(0, [VInt 10; VStr "good"; VStr "neutral"; VTime 7])] /\
  length (rows (table u)) <> length (rows (table s)) /\
  table u <> table s.
Proof.
  cbv zeta. repeat split; try reflexivity; vm_compute; discriminate.
Qed.

(** * Construction of the working subset *)

Lemma rows_to_annotate_eligible (self : Tortus) (i j : nat) :
  (empty (annotations self) = false ->
   find_label (text self) (columns (annotations self)) = Some i /\
   find_label (text self) (columns (df self)) = Some j) ->
  rows_to_annotate self
  = Ok {| columns := columns (df self); rows := eligible_rows self i j |}.
Proof.
  intros Hcols. unfold rows_to_annotate, eligible_rows.
  destruct (empty (annotations self)).
  - destruct (df self); reflexivity.
  - destruct (Hcols eq_refl) as [Hi Hj].
    unfold getitem, get_loc. rewrite Hi, Hj. cbn [bindR].
    unfold getitem_mask, isin, invert. f_equal. f_equal.
    destruct (edit_annotations self); cbn [negb].
    + rewrite select_map_of. apply filter_ext. intros r.
      destruct (in_dec _ _ _); reflexivity.
    + rewrite map_map, select_map_of. apply filter_ext. intros r.
      destruct (in_dec _ _ _); reflexivity.
Qed.

Lemma eligible_rows_In (self : Tortus) (i j : nat) (r : Row) :
  In r (eligible_rows self i j) <->
  In r (rows (df self)) /\
  (empty (annotations self) = false ->
   if edit_annotations self
   then In (cell j r) (map (cell i) (rows (annotations self)))
   else ~ In (cell j r) (map (cell i) (rows (annotations self)))).
Proof.
  unfold eligible_rows. destruct (empty (annotations self)).
  - split; [intros H; split; [exact H|discriminate] | tauto].
  - rewrite filter_In.
    destruct (in_dec value_eq_dec (cell j r) (map (cell i) (rows (annotations self))))
      as [Hin|Hout]; destruct (edit_annotations self); cbn [negb];
      intuition discriminate.
Qed.

(** The eligible rows of the object the constructor builds are those of its
    arguments. *)
Lemma eligible_rows_attributes d0 txt n idc ann edit gh rnd lbls dc (i j : nat) :
  eligible_rows (attributes d0 txt n idc ann edit gh rnd lbls dc) i j
  = eligible d0 ann edit i j.
Proof.
  unfold eligible_rows, eligible, attributes.
  cbn [annotations df edit_annotations].
  destruct ann as [a|]; [reflexivity|]. destruct idc; reflexivity.
Qed.



(** C9, amended.  With random order requested outside edit mode and a count
    above the number of eligible rows, construction fails, whatever the
    generator would have drawn, with the exception the sampling call raises:
    [ValueError], or [OverflowError] when the count is [2 ** 64] or more and
    some row is eligible.  Nothing is truncated, nothing is validated
    beforehand, and no path of the constructor raises [ConfigError].  The
    eligible rows are read off the arguments, as for the sequential case;
    when the prior table is not empty the text column has to be a column of
    both tables, whose column labels are pairwise distinct. *)
Theorem sampling_beyond_eligible_rows_raises
    d0 txt n idc (ann : option DataFrame) gh lbls dc draw (i j : nat) :
  (forall a, ann = Some a -> empty a = false ->
     NoDup (columns a) /\ NoDup (columns d0) /\
     find_label txt (columns a) = Some i /\
     find_label txt (columns d0) = Some j) ->
  Z.of_nat (length (eligible d0 ann false i j)) < n ->
  init d0 txt n idc ann false gh true lbls dc draw
  = Raise (if (length (eligible d0 ann false i j) =? 0)%nat || (n <? 2 ^ 64)
           then ValueError else OverflowError) /\
  (forall edit gh' rnd draw',
      init d0 txt n idc ann edit gh' rnd lbls dc draw' <> Raise ConfigError).
Proof.
  intros Hcols Hlt. split.
  - set (self := attributes d0 txt n idc ann false gh true lbls dc).
    assert (Hself : empty (annotations self) = false ->
                    find_label (text self) (columns (annotations self)) = Some i /\
                    find_label (text self) (columns (df self)) = Some j).
    { unfold self, attributes. cbn [annotations text df].
      destruct ann as [a|].
      - intros Hne. destruct (Hcols a eq_refl Hne) as (_ & _ & Hi & Hj). auto.
      - destruct idc; discriminate. }
    unfold init. fold self.
    rewrite create_subset_df_eq, (rows_to_annotate_eligible self i j Hself).
    cbn [bindR]. change (random self) with true. cbv iota.
    change (num_records self) with n.
    unfold self. rewrite eligible_rows_attributes.
    unfold sample, len. cbn [rows].
    set (m := length (eligible d0 ann false i j)) in *.
    destruct (n <? 0) eqn:Hneg; [apply Z.ltb_lt in Hneg; lia|].
    replace (negb (n =? 0)) with true
      by (symmetry; apply negb_true_iff, Z.eqb_neq; lia).
    rewrite andb_true_r.
    destruct m as [|m'] eqn:Hm; [reflexivity|].
    replace (Z.of_nat (S m') =? 0) with false
      by (symmetry; apply Z.eqb_neq; lia).
    cbn [Nat.eqb orb].
    rewrite Z.leb_antisym.
    destruct (n <? 2 ^ 64); cbn [negb]; [|reflexivity].
    apply Z.ltb_lt in Hlt. rewrite Hlt. reflexivity.
  - intros edit gh' rnd draw' H.
    pose proof (init_python _ _ _ _ _ _ _ _ _ _ _ _ H) as Hp. discriminate.
Qed.

Lemma sampling_beyond_eligible_rows_raises_witness :
  (init demo_df "text" 3 (Some "id") (Some demo_prior) false None true
        default_labels false [0; 1]%nat
   = Raise ValueError /\
   (forall edit gh' rnd draw',
       init demo_df "text" 3 (Some "id") (Some demo_prior) edit gh' rnd
            default_labels false draw'
       <> Raise ConfigError)) /\
  (init demo_df "text" (2 ^ 64) (Some "id") None false None true
        default_labels false []
   = Raise OverflowError /\
   (forall edit gh' rnd draw',
       init demo_df "text" (2 ^ 64) (Some "id") None edit gh' rnd
            default_labels false draw'
       <> Raise ConfigError)).
Proof.
  split.
  - apply (sampling_beyond_eligible_rows_raises demo_df "text" 3 (Some "id")
             (Some demo_prior) None default_labels false [0; 1]%nat 1%nat 1%nat).
    + intros a Ha _. injection Ha as <-.
      split; [cbn; distinct_labels|]. split; [cbn; distinct_labels|].
      split; reflexivity.
    + reflexivity.
  - apply (sampling_beyond_eligible_rows_raises demo_df "text" (2 ^ 64) (Some "id")
             None None default_labels false [] 0%nat 0%nat).
    + intros a Ha. discriminate.
    + reflexivity.
Defined.

(** C9, as stated, fails: asking at random for three records where a prior
    table leaves two eligible does not end in [ConfigError] but in the
    [ValueError] of the sampling call; so does asking for seven of three
    without prior table. *)
Lemma sampling_failure_is_not_ConfigError :
  eligible demo_df (Some demo_prior) false 1 1
  = [(0, [VInt 10; VStr "good"]); (2, [VInt 12; VStr "so-so"])] /\
  init demo_df "text" 3 (Some "id") (Some demo_prior) false None true
       default_labels false []
  = Raise ValueError /\
  init demo_df "text" 3 (Some "id") (Some demo_prior) false None true
       default_labels false []
  <> Raise ConfigError /\
  len demo_df < 7 /\
  init demo_df "text" 7 (Some "id") None false None true default_labels false []
  = Raise ValueError /\
  init demo_df "text" 7 (Some "id") None false None true default_labels false []
  <> Raise ConfigError.
Proof. repeat split; discriminate. Qed.

(** * The prior-annotation lookup without an id column *)

(** Without an id column the lookup never returns: it indexes both frames
    with [None]. *)
Lemma lookup_without_id_column (self : Tortus) (p : Z) :
  id_column self = None ->
  get_annotation_row_from_subset_iloc self p = Raise KeyError \/
  get_annotation_row_from_subset_iloc self p = Raise IndexError.
Proof.
  intros Hid. unfold get_annotation_row_from_subset_iloc, iloc.
  destruct (py_index (rows (subset_df self)) p) as [r|e] eqn:Hr; cbn [bindR].
  - left. unfold getitem, get_loc. rewrite Hid. reflexivity.
  - right. unfold py_index in Hr.
    destruct (_ || _); [congruence|].
    destruct (nth_error _ _); congruence.
Qed.

Example demo_no_id_edit_init :
  init demo_df "text" 3 None (Some demo_prior_index) true None false
       default_labels false [] = Ok demo_no_id_edit.
Proof. reflexivity. Qed.

(** C6, on the code: with no id column configured the record ids are the
    row indices ([create_record_id] returns them), yet the lookup raises
    [KeyError] where the claim has it return none (no entry in the table) or
    the entry (the table holds one for row index 1); [annotate], which calls
    the lookup, raises with it. *)
Theorem prior_entry_lookup_raises_without_id_column :
  id_column demo_no_id = None /\
  RecordIdAt demo_no_id 0 = Ok (VInt 0) /\
  rows (annotations demo_no_id) = [] /\
  get_annotation_row_from_subset_iloc demo_no_id 0 = Raise KeyError /\
  annotate demo_no_id = Raise KeyError /\
  id_column demo_no_id_edit = None /\
  RecordIdAt demo_no_id_edit 0 = Ok (VInt 1) /\
  rows (annotations demo_no_id_edit)
  = [(0, [VInt 1; VStr "bad"; VStr "negative"; VTime 50])] /\
  get_annotation_row_from_subset_iloc demo_no_id_edit 0 = Raise KeyError.
Proof. repeat split. Qed.

(** * Well-formedness is an invariant

    The hypothesis of the write theorems holds of every object the
    constructor builds without a prior table, and every handler keeps it. *)

Lemma well_formed_transfer (t t' : Tortus) :
  config t' = config t ->
  columns (annotations t') = columns (annotations t) ->
  default_index (annotations t') ->
  well_formed t -> well_formed t'.
Proof.
  intros Hc Hcols Hidx [Wc Wn Wi Wt].
  assert (Hid : id_column t' = id_column t) by (unfold config in Hc; congruence).
  assert (Htx : text t' = text t) by (unfold config in Hc; congruence).
  assert (Hsub : subset_df t' = subset_df t) by (unfold config in Hc; congruence).
  constructor.
  - rewrite Hcols, Wc. unfold id_label. rewrite Hid, Htx. reflexivity.
  - rewrite Hcols. exact Wn.
  - exact Hidx.
  - rewrite Htx, Hsub. exact Wt.
Qed.

Lemma write_result_lookup (button : Button) (skip : bool) (now : Z)
    (self : Tortus) (a : DataFrame) :
  write_result button skip now self = Ok a ->
  exists o, get_annotation_row_from_subset_iloc self (annotation_index self) = Ok o.
Proof.
  unfold write_result.
  destruct (create_record_id self); cbn [bindR]; [|discriminate].
  destruct (get_annotation_row_from_subset_iloc _ _) as [o|];
    cbn [bindR]; [|discriminate].
  eauto.
Qed.

Lemma write_well_formed (button : Button) (skip : bool) (now : Z) (s : Session) :
  well_formed (tortus s) ->
  well_formed (tortus (after (label_or_skip_buttons_clicked button skip now) s)).
Proof.
  intros Hwf.
  set (s' := after (label_or_skip_buttons_clicked button skip now) s).
  pose proof (write_table_eq button skip now s) as Ht. fold s' in Ht.
  apply (well_formed_transfer (tortus s)); [apply write_config | | | exact Hwf];
    fold s'; fold (table s'); fold (table s).
  - destruct (write_result button skip now (tortus s)) as [a|] eqn:Hr;
      [|rewrite Ht; reflexivity].
    destruct (write_result_lookup _ _ _ _ _ Hr) as [o Hlook].
    destruct (write_cases button skip now s o Hwf Hlook)
      as (rid & txt & _ & _ & Hw).
    cbv zeta in Hw. fold s' in Hw.
    destruct o as [e|]; [destruct Hw as (k & _ & _ & _ & Hw)|];
      rewrite Hw; reflexivity.
  - unfold default_index.
    destruct (write_result button skip now (tortus s)) as [a|] eqn:Hr;
      [|rewrite Ht; apply (wf_index _ Hwf)].
    destruct (write_result_lookup _ _ _ _ _ Hr) as [o Hlook].
    destruct (write_cases button skip now s o Hwf Hlook)
      as (rid & txt & _ & _ & Hw).
    cbv zeta in Hw. fold s' in Hw.
    destruct o as [e|].
    + destruct Hw as (k & _ & Hname & _ & Hw). rewrite Hw, Hname. cbn [rows].
      apply (labelled_from_replace 0). apply (wf_index _ Hwf).
    + rewrite Hw. cbn [rows]. unfold len.
      apply (labelled_from_app 0). apply (wf_index _ Hwf).
Qed.

Lemma handler_well_formed (a : Action) (s : Session) :
  well_formed (tortus s) -> well_formed (tortus (after (handler a) s)).
Proof.
  intros Hwf. destruct a as [label now|now| | |]; cbn [handler].
  - apply write_well_formed. exact Hwf.
  - apply (write_well_formed (skip_button (ui s)) true now s Hwf).
  - unfold confirm_button_clicked.
    pose proof (move_clicked_table 1 s) as Hm. unfold table in Hm.
    apply (well_formed_transfer (tortus s));
      [apply move_clicked_config | | | exact Hwf];
      rewrite Hm; [reflexivity | apply (wf_index _ Hwf)].
  - unfold prev_button_clicked.
    pose proof (move_clicked_table (-1) s) as Hm. unfold table in Hm.
    apply (well_formed_transfer (tortus s));
      [apply move_clicked_config | | | exact Hwf];
      rewrite Hm; [reflexivity | apply (wf_index _ Hwf)].
  - apply (well_formed_transfer (tortus s)); [reflexivity | reflexivity | | exact Hwf].
    unfold after. rewrite redo_button_clicked_eq.
    cbn [snd tortus set_annotations annotations].
    unfold default_index, head, slice_to, py_slice_to. cbn [rows].
    destruct (-1 <? 0); apply labelled_from_firstn; apply (wf_index _ Hwf).
Qed.

Lemma run_well_formed (acts : list Action) (s : Session) :
  well_formed (tortus s) -> well_formed (tortus (run acts s)).
Proof.
  revert s. induction acts as [|a acts IH]; intros s Hwf; [exact Hwf|].
  cbn [run fold_left]. apply IH. apply handler_well_formed. exact Hwf.
Qed.

(** Without a prior table the constructor's own table is well-formed, as
    soon as the text column is a column of the source table and the four
    column labels of the annotation table are distinct. *)
Lemma init_well_formed d0 txt n idc edit gh rnd lbls dc draw (self : Tortus) :
  init d0 txt n idc None edit gh rnd lbls dc draw = Ok self ->
  In txt (columns d0) ->
  NoDup [match idc with Some c => c | None => "id_column" end;
         txt; "label"; "annotated_at"] ->
  well_formed self.
Proof.
  unfold init. rewrite create_subset_df_eq.
  set (t := attributes d0 txt n idc None edit gh rnd lbls dc).
  assert (He : rows_to_annotate t = Ok d0).
  { unfold rows_to_annotate, t, attributes. destruct idc; reflexivity. }
  rewrite He. cbn [bindR].
  intros Hinit Htext Hnd.
  assert (Hsub : exists d, self = set_subset_df d t /\ columns d = columns d0).
  { destruct (random t).
    - unfold sample in Hinit.
      destruct (num_records t <? 0); [discriminate|].
      destruct ((len d0 =? 0) && negb (num_records t =? 0)); [discriminate|].
      destruct (2 ^ 64 <=? num_records t); [discriminate|].
      destruct (len d0 <? num_records t); [discriminate|].
      cbn [bindR] in Hinit. injection Hinit as <-. eexists. split; reflexivity.
    - cbn [bindR] in Hinit. injection Hinit as <-. eexists. split; reflexivity. }
  destruct Hsub as (d & -> & Hcols).
  assert (Hann : columns (annotations t)
                 = [match idc with Some c => c | None => "id_column" end;
                    txt; "label"; "annotated_at"]
                 /\ rows (annotations t) = []).
  { unfold t, attributes. destruct idc; split; reflexivity. }
  destruct Hann as [Hac Har].
  constructor; cbn [set_subset_df annotations text subset_df id_label id_column].
  - rewrite Hac. unfold id_label, t, attributes. destruct idc; reflexivity.
  - rewrite Hac. exact Hnd.
  - unfold default_index. rewrite Har. reflexivity.
  - rewrite Hcols. exact Htext.
Qed.

(** * Further properties of the code *)

(** ** The lookup of the prior entry *)

Lemma find_filter_head {A : Type} (f : A -> bool) (l : list A) :
  find f l = match filter f l with
             | [] => None
             | a :: _ => Some a
             end.
Proof.
  induction l as [|h tl IH]; simpl; auto.
  destruct (f h); auto.
Qed.

Lemma find_app_none {A : Type} (f : A -> bool) (l l' : list A) :
  find f l = None -> find f (l ++ l') = find f l'.
Proof.
  induction l as [|h tl IH]; simpl; auto.
  destruct (f h); [discriminate|auto].
Qed.

Lemma find_split {A : Type} (f : A -> bool) (l : list A) (a : A) :
  find f l = Some a ->
  exists pre post, l = pre ++ a :: post /\ find f pre = None /\ f a = true.
Proof.
  induction l as [|h tl IH]; simpl; [discriminate|].
  destruct (f h) eqn:Hf.
  - intros H. injection H as <-. exists [], tl. auto.
  - intros H. destruct (IH H) as (pre & post & -> & Hpre & Ha).
    exists (h :: pre), post. simpl. rewrite Hf. auto.
Qed.

Lemma replace_at_app {A : Type} (pre post : list A) (a new : A) :
  replace_at (length pre) new (pre ++ a :: post) = pre ++ new :: post.
Proof.
  induction pre as [|h tl IH]; simpl; [reflexivity|]. rewrite IH. reflexivity.
Qed.

Lemma value_eqb_none (a : value) : value_eqb a VNone = false.
Proof. destruct a; reflexivity. Qed.

Lemma value_eqb_refl (a : value) : a <> VNone -> value_eqb a a = true.
Proof.
  destruct a; simpl; intros H;
    [apply Z.eqb_refl | apply String.eqb_refl | apply Z.eqb_refl | congruence].
Qed.

(** The lookup evaluated: with the id column a column of both frames and
    the position a row [r] of the working subset, it returns the first
    annotation row whose id cell [==] the id cell of [r]. *)
Lemma lookup_eval (self : Tortus) (p : Z) (c : string) (i j : nat) (r : Row) :
  id_column self = Some c ->
  find_label c (columns (annotations self)) = Some i ->
  find_label c (columns (subset_df self)) = Some j ->
  py_index (rows (subset_df self)) p = Ok r ->
  get_annotation_row_from_subset_iloc self p
  = Ok (option_map (row_series (annotations self))
          (find (fun a => value_eqb (cell i a) (cell j r))
                (rows (annotations self)))).
Proof.
  intros Hc Hi Hj Hr.
  unfold get_annotation_row_from_subset_iloc, iloc, getitem, series_getitem, get_loc.
  rewrite Hr, Hc. cbn [bindR]. rewrite Hi. cbn [bindR index values].
  rewrite Hj. cbn [bindR].
  unfold getitem_mask, eq_scalar, len. cbn [rows columns].
  rewrite select_map_of. fold (cell j r).
  rewrite find_filter_head.
  destruct (filter _ (rows (annotations self))) as [|a tl]; [reflexivity|].
  cbn [length].
  replace (0 <? Z.of_nat (S (length tl))) with true
    by (symmetry; apply Z.ltb_lt; lia).
  reflexivity.
Qed.

(** The record id of a position the lookup went through. *)
Lemma lookup_record_id (self : Tortus) (p : Z) (c : string) (j : nat) (r : Row) :
  id_column self = Some c ->
  find_label c (columns (subset_df self)) = Some j ->
  py_index (rows (subset_df self)) p = Ok r ->
  RecordIdAt self p = Ok (cell j r).
Proof.
  intros Hc Hj Hr. unfold RecordIdAt, create_record_id, getitem, get_loc.
  rewrite Hc, Hj. cbn [bindR]. apply py_index_map. exact Hr.
Qed.

(** X1.  On two frames whose column labels are pairwise distinct, with the
    id column a column of both and the position a row of the working
    subset, the lookup of the prior entry succeeds and returns the first row
    of the annotation table whose id cell equals the record's id, as a row
    of that table; it returns none exactly when no row of the table has that
    id. *)
Theorem prior_entry_is_first_match
    (self : Tortus) (p : Z) (c : string) (i j : nat) (r : Row) :
  NoDup (columns (annotations self)) ->
  NoDup (columns (subset_df self)) ->
  id_column self = Some c ->
  find_label c (columns (annotations self)) = Some i ->
  find_label c (columns (subset_df self)) = Some j ->
  py_index (rows (subset_df self)) p = Ok r ->
  let same_id := fun a : Row => value_eqb (cell i a) (cell j r) in
  RecordIdAt self p = Ok (cell j r) /\
  get_annotation_row_from_subset_iloc self p
  = Ok (option_map (row_series (annotations self))
          (find same_id (rows (annotations self)))) /\
  (get_annotation_row_from_subset_iloc self p = Ok None <->
   forall a, In a (rows (annotations self)) -> same_id a = false) /\
  (forall e, get_annotation_row_from_subset_iloc self p = Ok (Some e) ->
     exists pre a post,
       rows (annotations self) = pre ++ a :: post /\
       e = row_series (annotations self) a /\
       cell i a = cell j r /\
       forall b, In b pre -> same_id b = false).
Proof.
  intros _ _ Hc Hi Hj Hr same_id.
  pose proof (lookup_eval self p c i j r Hc Hi Hj Hr) as Hl.
  fold same_id in Hl.
  split; [apply (lookup_record_id self p c j r Hc Hj Hr)|].
  split; [exact Hl|]. rewrite Hl. split.
  - split.
    + intros H a Ha.
      destruct (find same_id (rows (annotations self))) eqn:Hf; [discriminate|].
      apply (find_none _ _ Hf a Ha).
    + intros H.
      destruct (find same_id (rows (annotations self))) as [a|] eqn:Hf;
        [|reflexivity].
      destruct (find_some _ _ Hf) as [Ha Hs]. rewrite (H a Ha) in Hs. discriminate.
  - intros e He.
    destruct (find same_id (rows (annotations self))) as [a|] eqn:Hf;
      [|discriminate].
    cbn [option_map] in He. injection He as <-.
    destruct (find_split _ _ _ Hf) as (pre & post & Hrows & Hpre & Ha).
    exists pre, a, post. repeat split; auto.
    + apply value_eqb_eq. exact Ha.
    + intros b Hb. apply (find_none _ _ Hpre b Hb).
Qed.

Lemma prior_entry_is_first_match_witness :
  RecordIdAt (tortus demo_relabel) 0 = Ok (VInt 10) /\
  get_annotation_row_from_subset_iloc (tortus demo_relabel) 0
  = Ok (Some {| name := 0;
                index := ["id"; "text"; "label"; "annotated_at"];
                values := [VInt 10; VStr "good"; VStr "negative"; VTime 100] |}).
Proof.
  assert (Ha : NoDup (columns (annotations (tortus demo_relabel))))
    by (vm_compute; distinct_labels).
  assert (Hs : NoDup (columns (subset_df (tortus demo_relabel))))
    by (vm_compute; distinct_labels).
  destruct (prior_entry_is_first_match (tortus demo_relabel) 0 "id" 0 0
              (0, [VInt 10; VStr "good"]) Ha Hs eq_refl eq_refl eq_refl eq_refl)
    as (H1 & H2 & _).
  split; [exact H1 | exact H2].
Defined.

(** On a well-formed session the id column is the first column of the
    table, so a lookup that went through compared the first cells. *)
Lemma lookup_well_formed (self : Tortus) (p : Z) (o : option Series) :
  well_formed self ->
  get_annotation_row_from_subset_iloc self p = Ok o ->
  exists rid,
    RecordIdAt self p = Ok rid /\
    o = option_map (row_series (annotations self))
          (find (fun a => value_eqb (cell 0 a) rid) (rows (annotations self))).
Proof.
  intros [Hcols _ _ _] Hlook.
  destruct (lookup_inv _ _ _ Hlook) as (c & i & j & r & Hc & Hi & Hj & Hr & _).
  assert (Hi0 : i = 0%nat).
  { unfold id_label in Hcols. rewrite Hc in Hcols.
    rewrite Hcols, find_label_head in Hi. congruence. }
  subst i. exists (cell j r).
  split; [apply (lookup_record_id self p c j r Hc Hj Hr)|].
  pose proof (lookup_eval self p c 0 j r Hc Hi Hj Hr) as He.
  rewrite Hlook in He. congruence.
Qed.

(** On a well-formed, writable session the lookup returns: the first row of
    the table that holds the record id of the position, or none. *)
Lemma writable_lookup (s : Session) :
  well_formed (tortus s) ->
  writable s ->
  exists rid,
    RecordIdAt (tortus s) (position s) = Ok rid /\
    get_annotation_row_from_subset_iloc (tortus s) (position s)
    = Ok (option_map (row_series (table s)) (find (same_id rid) (rows (table s)))).
Proof.
  intros [Hcols _ _ _] ((c & Hc & Hin) & _ & Hrange).
  destruct (find_label_In _ _ Hin) as [j Hj].
  assert (Hi : find_label c (columns (annotations (tortus s))) = Some 0%nat).
  { unfold id_label in Hcols. rewrite Hc in Hcols.
    rewrite Hcols. apply find_label_head. }
  unfold in_range, position, len in Hrange.
  destruct (nth_error (rows (subset_df (tortus s)))
              (Z.to_nat (annotation_index (tortus s)))) as [r|] eqn:Hn.
  2:{ apply nth_error_None in Hn. lia. }
  assert (Hr : py_index (rows (subset_df (tortus s))) (position s) = Ok r).
  { unfold position.
    replace (annotation_index (tortus s))
      with (Z.of_nat (Z.to_nat (annotation_index (tortus s)))) by lia.
    apply py_index_nth. exact Hn. }
  exists (cell j r). split.
  - apply (lookup_record_id _ _ c j r Hc Hj Hr).
  - apply (lookup_eval _ _ c 0%nat j r Hc Hi Hj Hr).
Qed.

Lemma labelled_from_split (pre post : list Row) (e : Row) :
  labelled_from 0 (pre ++ e :: post) -> fst e = Z.of_nat (length pre).
Proof.
  intros Hidx.
  pose proof (labelled_from_nth 0 (pre ++ e :: post) (length pre) e Hidx) as H.
  cbn [Nat.add] in H. apply H.
  rewrite nth_error_app2 by lia. rewrite Nat.sub_diag. reflexivity.
Qed.

(** What a write does to the table of a well-formed, writable session.
    With no row holding the record id of the position, one row is appended:
    the record id, the record's text, the label, the clock reading.  With
    such a row, the first of them is replaced as a whole by the same four
    cells, under its own index label, and the rows before and after it stay
    as they are. *)
Lemma write_effect (button : Button) (skip : bool) (now : Z) (s : Session) :
  well_formed (tortus s) ->
  writable s ->
  let s' := after (label_or_skip_buttons_clicked button skip now) s in
  exists rid txt,
    RecordIdAt (tortus s) (position s) = Ok rid /\
    TextAt (tortus s) (position s) = Ok txt /\
    columns (table s') = columns (table s) /\
    match find (same_id rid) (rows (table s)) with
    | None =>
        get_annotation_row_from_subset_iloc (tortus s) (position s) = Ok None /\
        rows (table s')
        = rows (table s)
          ++ [(len (table s),
               [rid; txt; written_label button skip None; VTime now])]
    | Some e =>
        get_annotation_row_from_subset_iloc (tortus s) (position s)
        = Ok (Some (row_series (table s) e)) /\
        exists pre post,
          rows (table s) = pre ++ e :: post /\
          find (same_id rid) pre = None /\
          cell 0 e = rid /\
          rows (table s')
          = pre
            ++ (fst e,
                [rid; txt;
                 written_label button skip (Some (row_series (table s) e));
                 VTime now])
            :: post
    end.
Proof.
  intros Hwf Hw s'.
  destruct (writable_lookup s Hwf Hw) as (rid & Hrid & Hlook).
  destruct (write_cases button skip now s _ Hwf Hlook)
    as (rid' & txt & Hrid' & Htxt & Hcases).
  rewrite Hrid in Hrid'. injection Hrid' as <-.
  exists rid, txt. split; [exact Hrid|]. split; [exact Htxt|].
  cbv zeta in Hcases. fold s' in Hcases.
  destruct (find (same_id rid) (rows (table s))) as [e|] eqn:Hfind;
    cbn [option_map] in Hcases, Hlook.
  - destruct Hcases as (k & Hk & Hname & _ & Htab).
    rewrite Htab. cbn [columns rows]. split; [reflexivity|].
    split; [exact Hlook|].
    destruct (find_split _ _ _ Hfind) as (pre & post & Hrows & Hpre & He).
    exists pre, post. split; [exact Hrows|]. split; [exact Hpre|].
    split; [apply value_eqb_eq; exact He|].
    cbn [row_series name] in Hname.
    assert (Hk' : k = length pre).
    { pose proof (wf_index _ Hwf) as Hidx. unfold default_index in Hidx.
      fold (table s) in Hidx. rewrite Hrows in Hidx.
      pose proof (labelled_from_split pre post e Hidx). lia. }
    subst k. cbn [row_series name]. rewrite Hrows. apply replace_at_app.
  - rewrite Hcases. cbn [columns rows]. split; [reflexivity|].
    split; [exact Hlook | reflexivity].
Qed.

(** The lookup reads the object through its configuration and its table
    only. *)
Lemma lookup_same (t t' : Tortus) (p : Z) :
  config t' = config t -> annotations t' = annotations t ->
  get_annotation_row_from_subset_iloc t' p
  = get_annotation_row_from_subset_iloc t p.
Proof.
  intros Hc Ha. unfold get_annotation_row_from_subset_iloc.
  assert (Hid : id_column t' = id_column t) by (unfold config in Hc; congruence).
  assert (Hsub : subset_df t' = subset_df t) by (unfold config in Hc; congruence).
  rewrite Hid, Hsub, Ha. reflexivity.
Qed.

Lemma record_id_same (t t' : Tortus) (p : Z) :
  config t' = config t -> RecordIdAt t' p = RecordIdAt t p.
Proof.
  intros Hc. unfold RecordIdAt, create_record_id.
  assert (Hid : id_column t' = id_column t) by (unfold config in Hc; congruence).
  assert (Hsub : subset_df t' = subset_df t) by (unfold config in Hc; congruence).
  rewrite Hid, Hsub. reflexivity.
Qed.

Lemma text_at_same (t t' : Tortus) (p : Z) :
  config t' = config t -> TextAt t' p = TextAt t p.
Proof.
  intros Hc. unfold TextAt.
  assert (Htx : text t' = text t) by (unfold config in Hc; congruence).
  assert (Hsub : subset_df t' = subset_df t) by (unfold config in Hc; congruence).
  rewrite Htx, Hsub. reflexivity.
Qed.

(** ** Writing, then looking up *)

(** After a write at a position whose record has an id, the lookup at that
    position finds the row just written. *)
Lemma lookup_after_write
    (button : Button) (skip : bool) (now : Z) (s : Session)
    (o : option Series) (rid : value) :
  well_formed (tortus s) ->
  get_annotation_row_from_subset_iloc (tortus s) (position s) = Ok o ->
  RecordIdAt (tortus s) (position s) = Ok rid ->
  rid <> VNone ->
  let s' := after (label_or_skip_buttons_clicked button skip now) s in
  exists k txt,
    TextAt (tortus s) (position s) = Ok txt /\
    nth_error (rows (table s')) k
    = Some (Z.of_nat k, [rid; txt; written_label button skip o; VTime now]) /\
    get_annotation_row_from_subset_iloc (tortus s') (position s)
    = Ok (Some {| name := Z.of_nat k;
                  index := columns (table s);
                  values := [rid; txt; written_label button skip o; VTime now] |}) /\
    (o = None -> k = length (rows (table s))).
Proof.
  intros Hwf Hlook Hrid Hpresent s'.
  destruct (write_cases button skip now s o Hwf Hlook)
    as (rid' & txt & Hrid' & Htxt & Hw).
  rewrite Hrid in Hrid'. injection Hrid' as <-.
  cbv zeta in Hw. fold s' in Hw.
  set (new := [rid; txt; written_label button skip o; VTime now]) in *.
  destruct (lookup_well_formed _ _ _ Hwf Hlook) as (rid'' & Hrid'' & Ho).
  rewrite Hrid in Hrid''. injection Hrid'' as <-.
  set (same_id := fun a : Row => value_eqb (cell 0 a) rid) in *.
  (* the lookup on the new object *)
  pose proof (write_config button skip now s) as Hcfg. fold s' in Hcfg.
  destruct (lookup_inv _ _ _ Hlook) as (c & i & j & r & Hc & Hi & Hj & Hr & _).
  assert (Hcr : cell j r = rid).
  { pose proof (lookup_record_id _ _ _ _ _ Hc Hj Hr) as H.
    rewrite Hrid in H. congruence. }
  assert (Hc' : id_column (tortus s') = Some c)
    by (unfold config in Hcfg; congruence).
  assert (Hsub' : subset_df (tortus s') = subset_df (tortus s))
    by (unfold config in Hcfg; congruence).
  assert (Hnew : same_id (0, new) = true).
  { unfold same_id, cell, new. cbn [snd nth]. apply value_eqb_refl. exact Hpresent. }
  assert (Hcols : columns (table s) = c :: tl (columns (table s))).
  { destruct Hwf as [Wc _ _ _]. unfold table. rewrite Wc.
    unfold id_label. rewrite Hc. reflexivity. }
  assert (Heval : forall rows',
             table s' = {| columns := columns (table s); rows := rows' |} ->
             get_annotation_row_from_subset_iloc (tortus s') (position s)
             = Ok (option_map (row_series (table s')) (find same_id rows'))).
  { intros rows' Ht.
    rewrite (lookup_eval (tortus s') (position s) c 0 j r Hc').
    - fold (table s'). rewrite Ht. cbn [rows]. rewrite Hcr. reflexivity.
    - fold (table s'). rewrite Ht. cbn [columns]. rewrite Hcols.
      apply find_label_head.
    - rewrite Hsub'. exact Hj.
    - rewrite Hsub'. exact Hr. }
  destruct o as [e|].
  - destruct Hw as (k & Hk & Hname & Hid & Hw).
    exists k, txt. split; [exact Htxt|].
    assert (Hlt : (k < length (rows (table s)))%nat)
      by (apply nth_error_Some; congruence).
    split.
    { rewrite Hw. cbn [rows]. rewrite Hname.
      apply replace_at_nth_same. exact Hlt. }
    split; [|discriminate].
    rewrite (Heval _ Hw). rewrite Hw. unfold row_series. cbn [columns rows].
    destruct (find same_id (rows (annotations (tortus s)))) as [a|] eqn:Hf;
      [|discriminate].
    destruct (find_split _ _ _ Hf) as (pre & post & Hrows & Hpre & Ha).
    cbn [option_map] in Ho. injection Ho as He. subst e.
    unfold row_series in Hk, Hname. cbn [name values] in Hk, Hname.
    assert (Hk' : k = length pre).
    { pose proof (labelled_from_nth 0 (rows (table s)) (length pre) a
                    (wf_index _ Hwf)) as Hl.
      unfold table in Hl. rewrite Hrows in Hl.
      rewrite nth_error_app2, Nat.sub_diag in Hl by lia.
      specialize (Hl eq_refl). cbn [Nat.add] in Hl. lia. }
    unfold table. rewrite Hrows, Hk', replace_at_app.
    rewrite (find_app_none _ _ _ Hpre). cbn [find].
    change (same_id (name (row_series (annotations (tortus s)) a), new))
      with (same_id (0, new)).
    rewrite Hnew.
    cbn [option_map fst snd]. unfold row_series. cbn [name].
    rewrite Hname, Hk'. reflexivity.
  - exists (length (rows (table s))), txt. split; [exact Htxt|].
    split.
    { rewrite Hw. cbn [rows]. rewrite nth_error_app2, Nat.sub_diag by lia.
      reflexivity. }
    split; [|reflexivity].
    rewrite (Heval _ Hw). rewrite Hw. unfold row_series. cbn [columns rows].
    destruct (find same_id (rows (annotations (tortus s)))) as [a|] eqn:Hf;
      [discriminate|].
    unfold table. rewrite (find_app_none _ _ _ Hf). cbn [find].
    change (same_id (len (annotations (tortus s)), new))
      with (same_id (0, new)).
    rewrite Hnew.
    reflexivity.
Qed.

(** X2.  On a well-formed, writable session, after a label or a skip at a
    position whose record has an id, the lookup at that position returns
    the entry just written: the record's id and text, the label the write
    stored and the clock reading, at the row the write appended or
    replaced. *)
Theorem write_then_lookup
    (button : Button) (skip : bool) (now : Z) (s : Session) (rid : value) :
  well_formed (tortus s) ->
  writable s ->
  RecordIdAt (tortus s) (position s) = Ok rid ->
  rid <> VNone ->
  let s' := after (label_or_skip_buttons_clicked button skip now) s in
  let prior := option_map (row_series (table s))
                 (find (same_id rid) (rows (table s))) in
  exists k txt,
    TextAt (tortus s) (position s) = Ok txt /\
    nth_error (rows (table s')) k
    = Some (Z.of_nat k, [rid; txt; written_label button skip prior; VTime now]) /\
    get_annotation_row_from_subset_iloc (tortus s') (position s)
    = Ok (Some {| name := Z.of_nat k;
                  index := columns (table s);
                  values := [rid; txt; written_label button skip prior;
                             VTime now] |}).
Proof.
  intros Hwf Hw Hrid Hpresent s' prior.
  destruct (writable_lookup s Hwf Hw) as (rid' & Hrid' & Hlook).
  rewrite Hrid in Hrid'. injection Hrid' as <-. fold prior in Hlook.
  destruct (lookup_after_write button skip now s prior rid Hwf Hlook Hrid Hpresent)
    as (k & txt & H1 & H2 & H3 & _).
  exists k, txt. auto.
Qed.

Lemma demo_confirm_writable : writable demo_confirm.
Proof. writable_by_computation. Defined.

Lemma write_then_lookup_witness :
  exists k txt,
    TextAt (tortus demo_confirm) 0 = Ok txt /\
    nth_error
      (rows (table (after (label_or_skip_buttons_clicked
                             {| description := "Neutral"; disabled := false |}
                             false 9) demo_confirm))) k
    = Some (Z.of_nat k, [VInt 10; txt; VStr "neutral"; VTime 9]) /\
    get_annotation_row_from_subset_iloc
      (tortus (after (label_or_skip_buttons_clicked
                        {| description := "Neutral"; disabled := false |}
                        false 9) demo_confirm)) 0
    = Ok (Some {| name := Z.of_nat k;
                  index := ["id"; "text"; "label"; "annotated_at"];
                  values := [VInt 10; txt; VStr "neutral"; VTime 9] |}).
Proof.
  apply (write_then_lookup {| description := "Neutral"; disabled := false |}
           false 9 demo_confirm (VInt 10) demo_confirm_well_formed
           demo_confirm_writable eq_refl).
  discriminate.
Defined.

(** ** What a write does to a well-formed table, with what the lookup saw *)

Lemma write_step (button : Button) (skip : bool) (now : Z) (s : Session) :
  well_formed (tortus s) ->
  let s' := after (label_or_skip_buttons_clicked button skip now) s in
  table s' = table s \/
  exists o rid txt,
    get_annotation_row_from_subset_iloc (tortus s) (position s) = Ok o /\
    RecordIdAt (tortus s) (position s) = Ok rid /\
    TextAt (tortus s) (position s) = Ok txt /\
    o = option_map (row_series (table s))
          (find (fun a => value_eqb (cell 0 a) rid) (rows (table s))) /\
    let new := [rid; txt; written_label button skip o; VTime now] in
    match o with
    | None =>
        table s' = {| columns := columns (table s);
                      rows := rows (table s) ++ [(len (table s), new)] |}
    | Some e =>
        exists k,
          nth_error (rows (table s)) k = Some (name e, values e) /\
          name e = Z.of_nat k /\
          nth 0 (values e) VNone = rid /\
          table s' = {| columns := columns (table s);
                        rows := replace_at k (name e, new) (rows (table s)) |}
    end.
Proof.
  intros Hwf s'.
  pose proof (write_table_eq button skip now s) as Ht. fold s' in Ht.
  destruct (write_result button skip now (tortus s)) as [a|e] eqn:Hr;
    [|left; exact Ht].
  right.
  destruct (write_result_lookup _ _ _ _ _ Hr) as [o Hlook].
  fold (position s) in Hlook.
  destruct (write_cases button skip now s o Hwf Hlook)
    as (rid & txt & Hrid & Htxt & Hw).
  destruct (lookup_well_formed _ _ _ Hwf Hlook) as (rid' & Hrid' & Ho).
  rewrite Hrid in Hrid'. injection Hrid' as <-.
  exists o, rid, txt. repeat (split; [assumption|]). exact Hw.
Qed.

(** X3.  A record whose id is missing never has a prior entry, whatever the
    table holds: on a well-formed, writable session at such a record the
    lookup returns none, so every label or skip on that record appends one
    more row. *)
Theorem missing_record_id_never_matches
    (s : Session) (button : Button) (skip : bool) (now : Z) :
  well_formed (tortus s) ->
  writable s ->
  RecordIdAt (tortus s) (position s) = Ok VNone ->
  get_annotation_row_from_subset_iloc (tortus s) (position s) = Ok None /\
  length (rows (table (after (label_or_skip_buttons_clicked button skip now) s)))
  = S (length (rows (table s))).
Proof.
  intros Hwf Hw Hrid.
  destruct (writable_lookup s Hwf Hw) as (rid & Hrid' & Hlook).
  rewrite Hrid in Hrid'. injection Hrid' as <-.
  assert (Hnone : find (same_id VNone) (rows (table s)) = None).
  { destruct (find _ (rows (table s))) as [a|] eqn:Hf; [|reflexivity].
    destruct (find_some _ _ Hf) as [_ Hs]. unfold same_id in Hs.
    rewrite value_eqb_none in Hs. discriminate. }
  rewrite Hnone in Hlook. cbn [option_map] in Hlook.
  split; [exact Hlook|].
  destruct (write_cases button skip now s None Hwf Hlook)
    as (rid & txt & _ & _ & Hcases).
  cbv zeta in Hcases. rewrite Hcases. cbn [rows]. rewrite length_app.
  cbn [length]. lia.
Qed.

Lemma demo_missing_id_well_formed : well_formed (tortus demo_missing_id).
Proof. well_formed_by_computation. Defined.

Lemma demo_missing_id_writable : writable demo_missing_id.
Proof. writable_by_computation. Defined.

Lemma missing_record_id_never_matches_witness :
  rows (table demo_missing_id) = [(0, [VNone; VStr "bad"; VNone; VTime 5])] /\
  get_annotation_row_from_subset_iloc (tortus demo_missing_id)
    (position demo_missing_id) = Ok None /\
  length (rows (table (after (label_or_skip_buttons_clicked
                                (skip_button (ui demo_missing_id)) true 6)
                         demo_missing_id)))
  = S (length (rows (table demo_missing_id))).
Proof.
  split; [reflexivity|].
  apply (missing_record_id_never_matches demo_missing_id
           (skip_button (ui demo_missing_id)) true 6
           demo_missing_id_well_formed demo_missing_id_writable eq_refl).
Defined.

(** ** Invariants of the annotation table *)

Lemma NoDup_snoc {A : Type} (l : list A) (a : A) :
  NoDup l -> ~ In a l -> NoDup (l ++ [a]).
Proof.
  induction l as [|h tl IH]; intros Hnd Hin; simpl.
  - constructor; [tauto|constructor].
  - inversion Hnd as [|? ? Hh Htl]; subst. constructor.
    + rewrite in_app_iff. simpl. intros [H|[H|[]]]; [tauto|].
      apply Hin. left. congruence.
    + apply IH; [exact Htl|]. intros H. apply Hin. right. exact H.
Qed.

Lemma firstn_In {A : Type} (n : nat) (l : list A) (x : A) :
  In x (firstn n l) -> In x l.
Proof.
  revert n. induction l as [|h tl IH]; intros [|n] H; simpl in *; try tauto.
  destruct H as [H|H]; [left; exact H | right; apply (IH n H)].
Qed.

Lemma NoDup_firstn {A : Type} (n : nat) (l : list A) :
  NoDup l -> NoDup (firstn n l).
Proof.
  revert n. induction l as [|h tl IH]; intros [|n] Hnd; simpl;
    try constructor.
  - inversion Hnd as [|? ? Hh Htl]; subst.
    intros H. apply Hh. apply (firstn_In n tl). exact H.
  - inversion Hnd; subst. apply IH. assumption.
Qed.

Lemma replace_at_map_same {A B : Type} (f : A -> B) (k : nat) (a b : A) (l : list A) :
  nth_error l k = Some a -> f b = f a -> map f (replace_at k b l) = map f l.
Proof.
  revert k. induction l as [|h tl IH]; intros [|k] Hk Hf; simpl in *;
    try discriminate.
  - injection Hk as ->. rewrite Hf. reflexivity.
  - rewrite (IH k Hk Hf). reflexivity.
Qed.

Lemma replace_at_In {A : Type} (k : nat) (b x : A) (l : list A) :
  In x (replace_at k b l) -> x = b \/ In x l.
Proof.
  revert k. induction l as [|h tl IH]; intros [|k] H; simpl in *; try tauto.
  - destruct H as [H|H]; auto.
  - destruct H as [H|H]; auto. destruct (IH k H); auto.
Qed.

Lemma py_slice_to_incl {A : Type} (n : Z) (l : list A) (x : A) :
  In x (py_slice_to n l) -> In x l.
Proof.
  unfold py_slice_to. destruct (n <? 0); apply firstn_In.
Qed.

Lemma config_ids_present (t t' : Tortus) :
  config t' = config t -> ids_present t -> ids_present t'.
Proof.
  intros Hc (ids & Hids & Hnone). exists ids. split; [|exact Hnone].
  unfold create_record_id in *.
  assert (Hid : id_column t' = id_column t) by (unfold config in Hc; congruence).
  assert (Hsub : subset_df t' = subset_df t) by (unfold config in Hc; congruence).
  rewrite Hid, Hsub. exact Hids.
Qed.

Lemma record_id_present (self : Tortus) (p : Z) (rid : value) :
  ids_present self -> RecordIdAt self p = Ok rid -> rid <> VNone.
Proof.
  intros (ids & Hids & Hnone) Hrid Heq. subst rid.
  unfold RecordIdAt in Hrid. rewrite Hids in Hrid. cbn [bindR] in Hrid.
  destruct (py_index_inv _ _ _ Hrid) as (k & Hk & _).
  apply Hnone. apply (nth_error_In _ _ Hk).
Qed.

Lemma write_distinct_ids (button : Button) (skip : bool) (now : Z) (s : Session) :
  well_formed (tortus s) -> ids_present (tortus s) ->
  distinct_ids (table s) ->
  distinct_ids (table (after (label_or_skip_buttons_clicked button skip now) s)).
Proof.
  intros Hwf Hids Hnd.
  destruct (write_step button skip now s Hwf)
    as [Heq | (o & rid & txt & Hlook & Hrid & Htxt & Ho & Hw)];
    [rewrite Heq; exact Hnd|].
  cbv zeta in Hw. unfold distinct_ids in *.
  pose proof (record_id_present _ _ _ Hids Hrid) as Hpresent.
  destruct o as [e|].
  - destruct Hw as (k & Hk & Hname & Hid & Hw). rewrite Hw. cbn [rows].
    rewrite (replace_at_map_same (cell 0) k (name e, values e) _ _ Hk);
      [exact Hnd|].
    unfold cell. cbn [snd nth]. symmetry. exact Hid.
  - rewrite Hw. cbn [rows]. rewrite map_app. cbn [map].
    apply NoDup_snoc; [exact Hnd|].
    unfold cell at 1. cbn [snd nth].
    intros Hin. apply in_map_iff in Hin. destruct Hin as (a & Ha & Hin).
    destruct (find (fun a => value_eqb (cell 0 a) rid) (rows (table s)))
      eqn:Hf; [discriminate|].
    pose proof (find_none _ _ Hf a Hin) as Hfalse. cbv beta in Hfalse.
    rewrite Ha, (value_eqb_refl rid Hpresent) in Hfalse. discriminate.
Qed.

Lemma handler_distinct_ids (a : Action) (s : Session) :
  well_formed (tortus s) -> ids_present (tortus s) ->
  distinct_ids (table s) -> distinct_ids (table (after (handler a) s)).
Proof.
  intros Hwf Hids Hnd. destruct a as [label now|now| | |]; cbn [handler].
  - apply write_distinct_ids; assumption.
  - apply (write_distinct_ids (skip_button (ui s)) true now s); assumption.
  - unfold confirm_button_clicked. rewrite move_clicked_table. exact Hnd.
  - unfold prev_button_clicked. rewrite move_clicked_table. exact Hnd.
  - unfold distinct_ids, after, table. rewrite redo_button_clicked_eq.
    cbn [snd tortus set_annotations annotations head slice_to rows].
    unfold py_slice_to. destruct (-1 <? 0); rewrite <- firstn_map;
      apply NoDup_firstn; exact Hnd.
Qed.

(** X4.  At most one entry per record id: on a well-formed session whose
    working subset has no missing id, if no two rows of the annotation table
    hold the same record id, then no sequence of label, skip, confirm, prev
    and redo clicks makes two rows hold the same id. *)
Theorem one_entry_per_record_id (acts : list Action) (s : Session) :
  well_formed (tortus s) ->
  ids_present (tortus s) ->
  distinct_ids (table s) ->
  distinct_ids (table (run acts s)).
Proof.
  revert s. induction acts as [|a acts IH]; intros s Hwf Hids Hnd; [exact Hnd|].
  cbn [run fold_left]. apply IH.
  - apply handler_well_formed. exact Hwf.
  - apply (config_ids_present (tortus s)); [apply handler_config | exact Hids].
  - apply handler_distinct_ids; assumption.
Qed.

Lemma demo_session_ids_present : ids_present (tortus demo_session).
Proof.
  exists [VInt 10; VInt 11; VInt 12]. split; [reflexivity|].
  cbn [In]. intuition discriminate.
Defined.

Lemma one_entry_per_record_id_witness :
  distinct_ids
    (table (run [ChooseLabel "Negative" 1; Prev; Skip 2; Prev;
                 ChooseLabel "Neutral" 3; ChooseLabel "Positve" 4; Undo]
                demo_session)).
Proof.
  apply one_entry_per_record_id.
  - exact demo_session_well_formed.
  - exact demo_session_ids_present.
  - constructor.
Defined.

Lemma entry_config (t t' : Tortus) (row : Row) :
  config t' = config t -> entry_of_subset t row -> entry_of_subset t' row.
Proof.
  intros Hc (q & rid & txt & lbl & tm & Hrid & Htxt & Hrow & Hlbl).
  exists q, rid, txt, lbl, tm.
  rewrite (record_id_same t t' q Hc), (text_at_same t t' q Hc). auto.
Qed.

Lemma write_entries (button : Button) (skip : bool) (now : Z) (s : Session) :
  well_formed (tortus s) ->
  (forall row, In row (rows (table s)) -> entry_of_subset (tortus s) row) ->
  forall row,
    In row (rows (table (after (label_or_skip_buttons_clicked button skip now) s))) ->
    entry_of_subset (tortus s) row.
Proof.
  intros Hwf Hall row.
  destruct (write_step button skip now s Hwf)
    as [Heq | (o & rid & txt & Hlook & Hrid & Htxt & Ho & Hw)];
    [rewrite Heq; apply Hall|].
  cbv zeta in Hw.
  assert (Hnew : forall idx,
             entry_of_subset (tortus s)
               (idx, [rid; txt; written_label button skip o; VTime now])).
  { intros idx. exists (position s), rid, txt, (written_label button skip o), now.
    repeat split; auto.
    unfold written_label. destruct skip; [|right; eauto].
    destruct o as [e|]; [|left; reflexivity].
    destruct Hw as (k & Hk & _).
    destruct (Hall _ (nth_error_In _ _ Hk))
      as (q & rid' & txt' & lbl & tm & _ & _ & Hrow & Hlbl).
    cbn [snd] in Hrow. rewrite Hrow. exact Hlbl. }
  destruct o as [e|].
  - destruct Hw as (k & Hk & Hname & Hid & Hw). rewrite Hw. cbn [rows].
    intros Hin. destruct (replace_at_In _ _ _ _ Hin) as [-> | Hold];
      [apply Hnew | apply Hall; exact Hold].
  - rewrite Hw. cbn [rows]. rewrite in_app_iff. cbn [In].
    intros [Hold | [<- | []]]; [apply Hall; exact Hold | apply Hnew].
Qed.

Lemma handler_entries (a : Action) (s : Session) :
  well_formed (tortus s) ->
  (forall row, In row (rows (table s)) -> entry_of_subset (tortus s) row) ->
  forall row, In row (rows (table (after (handler a) s))) ->
              entry_of_subset (tortus s) row.
Proof.
  intros Hwf Hall. destruct a as [label now|now| | |]; cbn [handler].
  - apply write_entries; assumption.
  - apply (write_entries (skip_button (ui s)) true now s); assumption.
  - unfold confirm_button_clicked. rewrite move_clicked_table. exact Hall.
  - unfold prev_button_clicked. rewrite move_clicked_table. exact Hall.
  - intros row. unfold after, table. rewrite redo_button_clicked_eq.
    cbn [snd tortus set_annotations annotations head slice_to rows].
    intros Hin. apply Hall. apply (py_slice_to_incl _ _ _ Hin).
Qed.

(** X5.  On a well-formed session whose table holds only entries of records
    of the working subset (an empty table, for one), every row the table
    holds after any sequence of clicks is the entry of some record of the
    working subset: that record's id, that record's text, a label that is
    null or a lowercased text, and a timestamp. *)
Theorem table_holds_entries_of_subset (acts : list Action) (s : Session) :
  well_formed (tortus s) ->
  (forall row, In row (rows (table s)) -> entry_of_subset (tortus s) row) ->
  forall row, In row (rows (table (run acts s))) ->
              entry_of_subset (tortus s) row.
Proof.
  revert s. induction acts as [|a acts IH]; intros s Hwf Hall; [exact Hall|].
  cbn [run fold_left]. intros row Hin.
  apply (entry_config (tortus (after (handler a) s)));
    [symmetry; apply handler_config|].
  apply (IH (after (handler a) s)).
  - apply handler_well_formed. exact Hwf.
  - intros row' Hin'.
    apply (entry_config (tortus s)); [apply handler_config|].
    apply (handler_entries a s Hwf Hall row' Hin').
  - exact Hin.
Qed.

Lemma table_holds_entries_of_subset_witness :
  Forall (entry_of_subset (tortus demo_session))
    (rows (table (run [ChooseLabel "Negative" 1; Prev; Skip 2;
                       ChooseLabel "NEUTRAL" 3] demo_session))).
Proof.
  apply Forall_forall.
  apply table_holds_entries_of_subset.
  - exact demo_session_well_formed.
  - intros row [].
Defined.

(** X6.  Well-formedness is kept: a session the constructor builds without
    prior table, on a source table that has the text column, with the four
    column labels of the annotation table distinct, has after any sequence
    of clicks an annotation table with those four columns whose rows are
    labelled 0, 1, 2, ... by their position. *)
Theorem sessions_stay_well_formed
    d0 txt n idc edit gh rnd lbls dc draw (self : Tortus) (w : Widgets)
    (acts : list Action) :
  init d0 txt n idc None edit gh rnd lbls dc draw = Ok self ->
  In txt (columns d0) ->
  NoDup [match idc with Some c => c | None => "id_column" end;
         txt; "label"; "annotated_at"] ->
  let s' := run acts {| tortus := self; ui := w |} in
  well_formed (tortus s') /\
  columns (table s')
  = [match idc with Some c => c | None => "id_column" end;
     txt; "label"; "annotated_at"] /\
  map fst (rows (table s')) = map Z.of_nat (seq 0 (length (rows (table s')))).
Proof.
  intros Hinit Htxt Hnd s'.
  pose proof (init_well_formed _ _ _ _ _ _ _ _ _ _ _ Hinit Htxt Hnd) as Hwf.
  pose proof (run_well_formed acts {| tortus := self; ui := w |} Hwf) as Hrun.
  fold s' in Hrun. split; [exact Hrun|].
  split; [|apply (wf_index _ Hrun)].
  pose proof (run_config acts {| tortus := self; ui := w |}) as Hc.
  fold s' in Hc. cbn [tortus] in Hc.
  unfold table. rewrite (wf_columns _ Hrun). unfold id_label.
  assert (Hid : id_column (tortus s') = idc).
  { assert (H : id_column (tortus s') = id_column self)
      by (unfold config in Hc; congruence).
    rewrite H. unfold init in Hinit.
    destruct (create_subset_df _ _); cbn [bindR] in Hinit; [|discriminate].
    injection Hinit as <-. reflexivity. }
  assert (Htx : text (tortus s') = txt).
  { assert (H : text (tortus s') = text self)
      by (unfold config in Hc; congruence).
    rewrite H. unfold init in Hinit.
    destruct (create_subset_df _ _); cbn [bindR] in Hinit; [|discriminate].
    injection Hinit as <-. reflexivity. }
  rewrite Hid, Htx. reflexivity.
Qed.

Lemma sessions_stay_well_formed_witness :
  let s' := run [ChooseLabel "Negative" 1; Skip 2; Prev; Undo; Confirm]
                demo_session in
  well_formed (tortus s') /\
  columns (table s') = ["id"; "text"; "label"; "annotated_at"] /\
  map fst (rows (table s')) = map Z.of_nat (seq 0 (length (rows (table s')))).
Proof.
  apply (sessions_stay_well_formed demo_df "text" 3 (Some "id") false None false
           default_labels false [] demo_tortus (demo_widgets 0 "<h4>good</h4>")).
  - reflexivity.
  - cbn [In demo_df columns]. tauto.
  - distinct_labels.
Defined.

(** ** A write as a whole *)

(** The handler in one equation: the steps down to the assignment either
    raise, and then nothing was assigned, or give the new table; after the
    assignment the buttons are disabled and, by the mode, the confirm and
    redo buttons are shown or [move_clicked(1)] runs. *)
Lemma write_unfold (button : Button) (skip : bool) (now : Z) (s : Session) :
  label_or_skip_buttons_clicked button skip now s
  = match write_result button skip now (tortus s) with
    | Raise e => (Raise e, s)
    | Ok a =>
        let s1 := {| tortus := set_annotations a (tortus s);
                     ui := set_disabled true (ui s) |} in
        if display_confirm (tortus s)
        then (Ok tt, {| tortus := tortus s1;
                        ui := set_confirm_visible true (ui s1) |})
        else move_clicked 1 s1
    end.
Proof.
  unfold label_or_skip_buttons_clicked, write_result, bind, get_self, lift.
  destruct (create_record_id (tortus s)) as [ids|]; cbn [bindR]; [|reflexivity].
  destruct (get_annotation_row_from_subset_iloc _ _) as [o|];
    cbn [bindR]; [|reflexivity].
  match goal with
  | |- context [bindR ?t _] => destruct t as [tg|]; cbn [bindR]; [|reflexivity]
  end.
  destruct (py_index ids _) as [rid|]; cbn [bindR]; [|reflexivity].
  destruct (getitem _ _) as [col|]; cbn [bindR]; [|reflexivity].
  destruct (py_index col _) as [txt|]; cbn [bindR]; [|reflexivity].
  destruct (loc_set _ _ _) as [a|]; [|reflexivity].
  unfold put_self, modify_ui. cbn [fst snd tortus ui].
  destruct (display_confirm (tortus s)); reflexivity.
Qed.

(** On a well-formed session a write whose lookup goes through reaches the
    assignment. *)
Lemma write_result_ok (button : Button) (skip : bool) (now : Z) (s : Session)
    (o : option Series) :
  well_formed (tortus s) ->
  get_annotation_row_from_subset_iloc (tortus s) (position s) = Ok o ->
  write_result button skip now (tortus s)
  = Ok (table (after (label_or_skip_buttons_clicked button skip now) s)).
Proof.
  intros Hwf Hlook.
  pose proof (write_table_eq button skip now s) as Ht.
  destruct (write_result button skip now (tortus s)) as [a|e] eqn:Hr;
    [rewrite Ht; reflexivity|].
  exfalso.
  destruct Hwf as [Hcols Hnd Hidx Htext].
  destruct (lookup_inv _ _ _ Hlook) as (c & i & j & r & Hc & Hi & Hj & Hr' & Ho).
  destruct (write_operands _ _ _ _ _ Hc Hj Hr' Htext)
    as (ids & col & t & Hids & Hrid & Hcol & Hft & Htxt).
  unfold write_result in Hr. unfold position in *.
  rewrite Hids, Hlook in Hr. cbn [bindR] in Hr.
  assert (Hidl : id_label (tortus s) = c) by (unfold id_label; rewrite Hc; auto).
  rewrite Hidl in Hcols.
  assert (Hlen : forall idx vals,
             length vals = 4%nat ->
             exists a, loc_set idx vals (annotations (tortus s)) = Ok a).
  { intros idx vals Hv. unfold loc_set. rewrite Hcols, Hv. cbn [length Nat.eqb negb].
    destruct (existsb _ _); eauto. }
  assert (Htg : exists tg,
             match o with
             | Some r0 =>
                 let? lbl := if skip then series_getattr r0 "label"
                             else Ok (VStr (lower (description button))) in
                 Ok (name r0, lbl)
             | None =>
                 Ok (len (annotations (tortus s)),
                     if skip then VNone else VStr (lower (description button)))
             end = Ok tg).
  { destruct o as [e0|]; [|eauto].
    destruct skip; [|cbn [bindR]; eauto].
    destruct (filter _ (rows (annotations (tortus s)))) as [|a tl];
      [discriminate|].
    injection Ho as ->. unfold series_getattr. cbn [index values].
    rewrite Hcols. rewrite Hcols in Hnd. rewrite (find_label_third _ _ Hnd).
    cbn [bindR]. eauto. }
  destruct Htg as [tg Htg]. rewrite Htg in Hr. cbn [bindR] in Hr.
  rewrite Hrid in Hr. cbn [bindR] in Hr.
  rewrite Hcol in Hr. cbn [bindR] in Hr.
  rewrite Htxt in Hr. cbn [bindR] in Hr.
  destruct (Hlen (fst tg) [cell j r; cell t r; snd tg; VTime now] eq_refl)
    as [a Ha].
  rewrite Ha in Hr. discriminate.
Qed.

(** X8.  With confirmation on, a label or a skip on a well-formed session
    whose lookup goes through returns normally and waits: the position is
    the same, every label button and the skip button are disabled, the
    confirm and redo buttons are shown, and the progress bar is untouched. *)
Theorem write_with_confirmation_waits
    (button : Button) (skip : bool) (now : Z) (s : Session) (o : option Series) :
  well_formed (tortus s) ->
  get_annotation_row_from_subset_iloc (tortus s) (position s) = Ok o ->
  display_confirm (tortus s) = true ->
  let s' := after (label_or_skip_buttons_clicked button skip now) s in
  fst (label_or_skip_buttons_clicked button skip now s) = Ok tt /\
  position s' = position s /\
  Forall (fun b => disabled b = true) (label_buttons (ui s')) /\
  map description (label_buttons (ui s')) = map description (label_buttons (ui s)) /\
  disabled (skip_button (ui s')) = true /\
  confirm_visible (ui s') = true /\
  progress_value (ui s') = progress_value (ui s) /\
  progress_description (ui s') = progress_description (ui s).
Proof.
  intros Hwf Hlook Hdc s'. subst s'. unfold after.
  rewrite write_unfold, (write_result_ok button skip now s o Hwf Hlook).
  cbv zeta. rewrite Hdc.
  cbn [fst snd tortus ui set_confirm_visible set_disabled label_buttons
       skip_button confirm_visible progress_value progress_description disabled].
  repeat split.
  - apply Forall_forall. intros b Hb. apply in_map_iff in Hb.
    destruct Hb as (b0 & <- & _). reflexivity.
  - rewrite map_map. reflexivity.
Qed.

Lemma write_with_confirmation_waits_witness :
  let s' := after (label_or_skip_buttons_clicked
                     {| description := "Negative"; disabled := false |} false 9)
                  demo_confirm in
  fst (label_or_skip_buttons_clicked
         {| description := "Negative"; disabled := false |} false 9 demo_confirm)
  = Ok tt /\
  position s' = position demo_confirm /\
  Forall (fun b => disabled b = true) (label_buttons (ui s')) /\
  map description (label_buttons (ui s'))
  = map description (label_buttons (ui demo_confirm)) /\
  disabled (skip_button (ui s')) = true /\
  confirm_visible (ui s') = true /\
  progress_value (ui s') = progress_value (ui demo_confirm) /\
  progress_description (ui s') = progress_description (ui demo_confirm).
Proof.
  apply (write_with_confirmation_waits
           {| description := "Negative"; disabled := false |} false 9
           demo_confirm None demo_confirm_well_formed eq_refl eq_refl).
Defined.

(** X9.  With confirmation off, a label or a skip on a well-formed session
    whose lookup goes through moves on by itself: before the last row the
    position grows by one; on the last row it stays, the handler returns
    normally and the progress caption becomes 'Complete'. *)
Theorem write_without_confirmation_advances
    (button : Button) (skip : bool) (now : Z) (s : Session) (o : option Series) :
  well_formed (tortus s) ->
  get_annotation_row_from_subset_iloc (tortus s) (position s) = Ok o ->
  display_confirm (tortus s) = false ->
  let s' := after (label_or_skip_buttons_clicked button skip now) s in
  position s'
  = (if position s <? len (subset_df (tortus s)) - 1
     then position s + 1 else position s) /\
  (len (subset_df (tortus s)) - 1 <= position s ->
   fst (label_or_skip_buttons_clicked button skip now s) = Ok tt /\
   progress_description (ui s') = Complete /\
   progress_value (ui s') = num_records (tortus s)).
Proof.
  intros Hwf Hlook Hdc s'. subst s'. unfold after.
  rewrite write_unfold, (write_result_ok button skip now s o Hwf Hlook).
  cbv zeta. rewrite Hdc.
  set (a := table (after (label_or_skip_buttons_clicked button skip now) s)).
  set (s1 := {| tortus := set_annotations a (tortus s);
                ui := set_disabled true (ui s) |}).
  split.
  - change (position (after (move_clicked 1) s1)
            = (if position s <? len (subset_df (tortus s)) - 1
               then position s + 1 else position s)).
    rewrite move_clicked_position. reflexivity.
  - intros Hlast.
    rewrite (move_clicked_at_last 1 s1); [repeat split | exact Hlast |].
    intros [H _]. discriminate.
Qed.

Lemma write_without_confirmation_advances_witness :
  position (after (label_or_skip_buttons_clicked
                     {| description := "Negative"; disabled := false |} false 9)
                  demo_session) = 1 /\
  fst (label_or_skip_buttons_clicked
         {| description := "Negative"; disabled := false |} false 9 demo_last)
  = Ok tt /\
  progress_description
    (ui (after (label_or_skip_buttons_clicked
                  {| description := "Negative"; disabled := false |} false 9)
               demo_last)) = Complete.
Proof.
  split.
  - apply (write_without_confirmation_advances
             {| description := "Negative"; disabled := false |} false 9
             demo_session None demo_session_well_formed eq_refl eq_refl).
  - destruct (write_without_confirmation_advances
                {| description := "Negative"; disabled := false |} false 9
                demo_last None ltac:(well_formed_by_computation) eq_refl eq_refl)
      as [_ H].
    destruct (H ltac:(vm_compute; discriminate)) as (H1 & H2 & _).
    split; assumption.
Defined.

(** ** Navigation and redo, composed *)

(** X10.  Navigation never touches the annotations: after any sequence of
    confirm and prev clicks the annotation table and the working subset are
    what they were, whether or not a re-render raised on the way. *)
Theorem navigation_keeps_the_table (acts : list Action) (s : Session) :
  forallb is_move acts = true ->
  table (run acts s) = table s /\
  subset_df (tortus (run acts s)) = subset_df (tortus s).
Proof.
  intros Hmoves. split; [|apply (config_subset_df _ _ (run_config acts s))].
  revert s Hmoves. induction acts as [|a acts IH]; intros s Hmoves;
    [reflexivity|].
  cbn [forallb] in Hmoves. apply andb_true_iff in Hmoves.
  destruct Hmoves as [Ha Hacts].
  cbn [run fold_left].
  change (table (run acts (after (handler a) s)) = table s).
  rewrite (IH _ Hacts).
  destruct a; try discriminate; apply move_clicked_table.
Qed.

Lemma navigation_keeps_the_table_witness :
  table (run [Confirm; Prev; Confirm; Confirm; Prev] demo_relabel)
  = table demo_relabel /\
  subset_df (tortus (run [Confirm; Prev; Confirm; Confirm; Prev] demo_relabel))
  = subset_df (tortus demo_relabel).
Proof.
  apply navigation_keeps_the_table. reflexivity.
Defined.

(** X11.  Confirm then prev.  From a position before the last row, a
    confirm followed by a prev comes back to the same position, unless the
    confirm reached the last row: there the prev does not move and the
    position stays one further. *)
Theorem confirm_then_prev (s : Session) :
  0 <= position s < len (subset_df (tortus s)) - 1 ->
  position (run [Confirm; Prev] s)
  = (if position s + 1 <? len (subset_df (tortus s)) - 1
     then position s else position s + 1).
Proof.
  intros [Hlo Hhi]. cbn [run fold_left handler].
  unfold confirm_button_clicked, prev_button_clicked.
  set (s1 := after (move_clicked 1) s).
  assert (Hp1 : position s1 = position s + 1).
  { apply move_clicked_before_last; [lia|]. intros [H _]. discriminate. }
  assert (Hsub : subset_df (tortus s1) = subset_df (tortus s))
    by apply (config_subset_df _ _ (move_clicked_config 1 s)).
  rewrite move_clicked_position, Hsub, Hp1.
  destruct ((-1 =? -1) && (position s + 1 =? 0)) eqn:Hg.
  - apply andb_true_iff in Hg. destruct Hg as [_ Hg].
    apply Z.eqb_eq in Hg. lia.
  - destruct (position s + 1 <? len (subset_df (tortus s)) - 1); lia.
Qed.

Lemma confirm_then_prev_witness :
  position (run [Confirm; Prev] demo_session) = 0 /\
  position (run [Confirm; Prev] (run [Confirm] demo_session)) = 2.
Proof.
  split.
  - apply (confirm_then_prev demo_session).
    vm_compute. split; [discriminate | reflexivity].
  - apply (confirm_then_prev (run [Confirm] demo_session)).
    vm_compute. split; [discriminate | reflexivity].
Defined.

Lemma removelast_firstn_sub {A : Type} (l : list A) (k : nat) :
  firstn (length (removelast l) - k) (removelast l)
  = firstn (length l - S k) l.
Proof.
  rewrite removelast_firstn_len, length_firstn, firstn_firstn. f_equal. lia.
Qed.

(** X12.  Redo, repeated: [k] redo clicks in a row remove the last [k] rows
    of the table, all of them when it has no more than [k], return normally
    each time, and leave the position where it was. *)
Theorem redo_k_times (k : nat) (s : Session) :
  rows (table (run (repeat Undo k) s))
  = firstn (length (rows (table s)) - k) (rows (table s)) /\
  columns (table (run (repeat Undo k) s)) = columns (table s) /\
  position (run (repeat Undo k) s) = position s /\
  (forall s0, fst (handler Undo s0) = Ok tt).
Proof.
  split; [|split; [|split; [|reflexivity]]].
  - revert s. induction k as [|k IH]; intros s.
    + cbn [repeat run fold_left]. rewrite Nat.sub_0_r, firstn_all. reflexivity.
    + cbn [repeat run fold_left].
      change (rows (table (run (repeat Undo k) (after (handler Undo) s)))
              = firstn (length (rows (table s)) - S k) (rows (table s))).
      rewrite IH.
      change (rows (table (after (handler Undo) s)))
        with (py_slice_to (-1) (rows (table s))).
      rewrite py_slice_last_removed. apply removelast_firstn_sub.
  - revert s. induction k as [|k IH]; intros s; [reflexivity|].
    cbn [repeat run fold_left].
    change (columns (table (run (repeat Undo k) (after (handler Undo) s)))
            = columns (table s)).
    rewrite IH. reflexivity.
  - revert s. induction k as [|k IH]; intros s; [reflexivity|].
    cbn [repeat run fold_left].
    change (position (run (repeat Undo k) (after (handler Undo) s))
            = position s).
    rewrite IH. reflexivity.
Qed.

(** ** A working subset without rows *)

Lemma py_index_nil {A : Type} (i : Z) : @py_index A [] i = Raise IndexError.
Proof.
  unfold py_index. cbn [length Z.of_nat].
  destruct (i <? 0) eqn:Hi.
  - replace (i + 0 <? 0) with true
      by (symmetry; apply Z.ltb_lt; apply Z.ltb_lt in Hi; lia).
    reflexivity.
  - replace (0 <=? i) with true
      by (symmetry; apply Z.leb_le; apply Z.ltb_ge in Hi; lia).
    rewrite orb_true_r. reflexivity.
Qed.

Lemma write_on_empty_subset (button : Button) (skip : bool) (now : Z) (s : Session) :
  rows (subset_df (tortus s)) = [] ->
  exists e, (e = IndexError \/ e = KeyError) /\
            label_or_skip_buttons_clicked button skip now s = (Raise e, s).
Proof.
  intros Hrows. rewrite write_unfold.
  unfold write_result, create_record_id, get_annotation_row_from_subset_iloc,
    iloc, getitem, get_loc.
  destruct (id_column (tortus s)) as [c|].
  - destruct (find_label c (columns (subset_df (tortus s)))); cbn [bindR].
    + rewrite Hrows, py_index_nil. cbn [bindR]. eauto.
    + eauto.
  - cbn [bindR]. rewrite Hrows, py_index_nil. cbn [bindR]. eauto.
Qed.

Lemma handler_on_empty_subset (a : Action) (s : Session) :
  rows (subset_df (tortus s)) = [] -> position s = 0 ->
  position (after (handler a) s) = 0.
Proof.
  intros Hrows Hpos.
  assert (Hw : forall button skip now,
             position (after (label_or_skip_buttons_clicked button skip now) s) = 0).
  { intros button skip now.
    destruct (write_on_empty_subset button skip now s Hrows) as (e & _ & He).
    unfold after. rewrite He. exact Hpos. }
  assert (Hm : forall delta, position (after (move_clicked delta) s) = 0).
  { intros delta. rewrite move_clicked_position. unfold len.
    rewrite Hrows, Hpos. cbn [length Z.of_nat].
    destruct (_ && _); reflexivity. }
  destruct a as [label now|now| | |]; cbn [handler].
  - apply Hw.
  - apply (Hw (skip_button (ui s)) true now).
  - apply Hm.
  - apply Hm.
  - exact Hpos.
Qed.

(** X13.  On a session whose working subset has no row, [annotate] raises
    [IndexError]; a label or a skip raises [IndexError] (or [KeyError], when
    the id column is no column of the table) and leaves the session as it
    is; and whatever is clicked, the position stays 0. *)
Theorem nothing_happens_on_an_empty_subset (acts : list Action) (s : Session) :
  rows (subset_df (tortus s)) = [] ->
  position s = 0 ->
  annotate (tortus s) = Raise IndexError /\
  (forall button skip now,
      exists e, (e = IndexError \/ e = KeyError) /\
                label_or_skip_buttons_clicked button skip now s = (Raise e, s)) /\
  position (run acts s) = 0.
Proof.
  intros Hrows Hpos. split; [|split].
  - unfold annotate, iloc. rewrite Hrows, py_index_nil. reflexivity.
  - intros. apply write_on_empty_subset. exact Hrows.
  - revert s Hrows Hpos. induction acts as [|a acts IH]; intros s Hrows Hpos;
      [exact Hpos|].
    cbn [run fold_left]. apply IH.
    + rewrite (config_subset_df _ _ (handler_config a s)). exact Hrows.
    + apply handler_on_empty_subset; assumption.
Qed.

Lemma nothing_happens_on_an_empty_subset_witness :
  annotate (tortus demo_empty) = Raise IndexError /\
  (forall button skip now,
      exists e, (e = IndexError \/ e = KeyError) /\
                label_or_skip_buttons_clicked button skip now demo_empty
                = (Raise e, demo_empty)) /\
  position (run [Confirm; ChooseLabel "Negative" 1; Prev; Skip 2; Undo; Confirm]
                demo_empty) = 0.
Proof.
  apply nothing_happens_on_an_empty_subset; reflexivity.
Defined.

(** ** Two writes on the same record *)

Lemma write_with_confirmation_position
    (button : Button) (skip : bool) (now : Z) (s : Session) (o : option Series) :
  well_formed (tortus s) ->
  get_annotation_row_from_subset_iloc (tortus s) (position s) = Ok o ->
  display_confirm (tortus s) = true ->
  position (after (label_or_skip_buttons_clicked button skip now) s) = position s.
Proof.
  intros Hwf Hlook Hdc. unfold after.
  rewrite write_unfold, (write_result_ok button skip now s o Hwf Hlook).
  cbv zeta. rewrite Hdc. reflexivity.
Qed.

Lemma second_write
    (b1 b2 : Button) (k1 k2 : bool) (t1 t2 : Z) (s : Session) (rid : value) :
  well_formed (tortus s) ->
  get_annotation_row_from_subset_iloc (tortus s) (position s) = Ok None ->
  RecordIdAt (tortus s) (position s) = Ok rid ->
  rid <> VNone ->
  display_confirm (tortus s) = true ->
  let s1 := after (label_or_skip_buttons_clicked b1 k1 t1) s in
  let s2 := after (label_or_skip_buttons_clicked b2 k2 t2) s1 in
  exists txt,
    TextAt (tortus s) (position s) = Ok txt /\
    table s2
    = {| columns := columns (table s);
         rows := rows (table s)
                 ++ [(len (table s),
                      [rid; txt;
                       if k2 then written_label b1 k1 None
                       else VStr (lower (description b2));
                       VTime t2])] |}.
Proof.
  intros Hwf Hlook Hrid Hpresent Hdc s1 s2.
  destruct (write_cases b1 k1 t1 s None Hwf Hlook)
    as (rid' & txt & Hrid' & Htxt & Hw1).
  rewrite Hrid in Hrid'. injection Hrid' as <-.
  cbv zeta in Hw1. fold s1 in Hw1.
  destruct (lookup_after_write b1 k1 t1 s None rid Hwf Hlook Hrid Hpresent)
    as (k & txt' & Htxt' & _ & Hlook1 & Hk).
  rewrite Htxt in Htxt'. injection Htxt' as <-.
  specialize (Hk eq_refl). subst k. fold s1 in Hlook1.
  assert (Hcfg : config (tortus s1) = config (tortus s))
    by apply write_config.
  assert (Hpos : position s1 = position s).
  { apply (write_with_confirmation_position b1 k1 t1 s None Hwf Hlook Hdc). }
  exists txt. split; [exact Htxt|].
  pose proof (write_well_formed b1 k1 t1 s Hwf) as Hwf1. fold s1 in Hwf1.
  rewrite <- Hpos in Hlook1.
  destruct (write_cases b2 k2 t2 s1 _ Hwf1 Hlook1)
    as (rid2 & txt2 & Hrid2 & Htxt2 & j & Hj & Hname & _ & Hw2).
  fold s2 in Hw2. cbn [name values] in *.
  rewrite Hpos, (record_id_same _ _ _ Hcfg), Hrid in Hrid2.
  injection Hrid2 as <-.
  rewrite Hpos, (text_at_same _ _ _ Hcfg), Htxt in Htxt2.
  injection Htxt2 as <-.
  apply Nat2Z.inj in Hname. subst j.
  rewrite Hw2, Hw1. cbn [columns rows].
  rewrite (replace_at_app (rows (table s)) []).
  unfold written_label at 1. cbn [values nth]. unfold len.
  destruct k2; reflexivity.
Qed.

(** X14.  With confirmation on, on a well-formed session at a record that
    has an id and for which the lookup returns no entry, two writes in a
    row leave one entry, not two: a second label replaces the first (the
    table is the one the second label alone would have left), a label after
    a skip replaces the null label likewise, and a skip after a label keeps
    the label and takes the later clock reading. *)
Theorem second_write_rewrites_the_entry
    (l1 l2 : string) (t1 t2 : Z) (s : Session) (rid : value) :
  well_formed (tortus s) ->
  get_annotation_row_from_subset_iloc (tortus s) (position s) = Ok None ->
  RecordIdAt (tortus s) (position s) = Ok rid ->
  rid <> VNone ->
  display_confirm (tortus s) = true ->
  table (run [ChooseLabel l1 t1; ChooseLabel l2 t2] s)
  = table (run [ChooseLabel l2 t2] s) /\
  table (run [Skip t1; ChooseLabel l2 t2] s)
  = table (run [ChooseLabel l2 t2] s) /\
  exists txt,
    TextAt (tortus s) (position s) = Ok txt /\
    rows (table (run [ChooseLabel l2 t2] s))
    = rows (table s) ++ [(len (table s), [rid; txt; VStr (lower l2); VTime t2])] /\
    rows (table (run [ChooseLabel l1 t1; Skip t2] s))
    = rows (table s) ++ [(len (table s), [rid; txt; VStr (lower l1); VTime t2])].
Proof.
  intros Hwf Hlook Hrid Hpresent Hdc.
  destruct (write_cases {| description := l2; disabled := false |} false t2 s
              None Hwf Hlook) as (rid' & txt & Hrid' & Htxt & Hone).
  rewrite Hrid in Hrid'. injection Hrid' as <-.
  cbv zeta in Hone. unfold written_label in Hone. cbn [description] in Hone.
  assert (Htwo : forall b1 k1 b2 k2,
             table (after (label_or_skip_buttons_clicked b2 k2 t2)
                      (after (label_or_skip_buttons_clicked b1 k1 t1) s))
             = {| columns := columns (table s);
                  rows := rows (table s)
                          ++ [(len (table s),
                               [rid; txt;
                                if k2 then written_label b1 k1 None
                                else VStr (lower (description b2));
                                VTime t2])] |}).
  { intros b1 k1 b2 k2.
    destruct (second_write b1 b2 k1 k2 t1 t2 s rid Hwf Hlook Hrid Hpresent Hdc)
      as (txt' & Htxt' & H).
    rewrite Htxt in Htxt'. injection Htxt' as <-. exact H. }
  cbn [run fold_left handler]. unfold label_buttons_clicked.
  split; [|split].
  - rewrite Htwo, Hone. reflexivity.
  - change (after (fun s0 => skip_button_clicked (skip_button (ui s0)) t1 s0) s)
      with (after (label_or_skip_buttons_clicked (skip_button (ui s)) true t1) s).
    rewrite Htwo, Hone. reflexivity.
  - exists txt. split; [exact Htxt|]. split; [rewrite Hone; reflexivity|].
    set (s1 := after (label_or_skip_buttons_clicked
                        {| description := l1; disabled := false |} false t1) s).
    change (after (fun s0 => skip_button_clicked (skip_button (ui s0)) t2 s0) s1)
      with (after (label_or_skip_buttons_clicked (skip_button (ui s1)) true t2) s1).
    subst s1. rewrite Htwo. reflexivity.
Qed.

Lemma second_write_rewrites_the_entry_witness :
  table (run [ChooseLabel "Negative" 1; ChooseLabel "Neutral" 2] demo_confirm)
  = table (run [ChooseLabel "Neutral" 2] demo_confirm) /\
  table (run [Skip 1; ChooseLabel "Neutral" 2] demo_confirm)
  = table (run [ChooseLabel "Neutral" 2] demo_confirm) /\
  exists txt,
    TextAt (tortus demo_confirm) 0 = Ok txt /\
    rows (table (run [ChooseLabel "Neutral" 2] demo_confirm))
    = rows (table demo_confirm)
      ++ [(len (table demo_confirm), [VInt 10; txt; VStr (lower "Neutral"); VTime 2])] /\
    rows (table (run [ChooseLabel "Negative" 1; Skip 2] demo_confirm))
    = rows (table demo_confirm)
      ++ [(len (table demo_confirm), [VInt 10; txt; VStr (lower "Negative"); VTime 2])].
Proof.
  apply (second_write_rewrites_the_entry "Negative" "Neutral" 1 2 demo_confirm
           (VInt 10) demo_confirm_well_formed eq_refl eq_refl).
  - discriminate.
  - reflexivity.
Defined.

(** ** The path of the annotated file *)

Section PathFacts.
Import PosixPath.

Lemma rfind_range (c : ascii) (p : list ascii) :
  -1 <= rfind c p < Z.of_nat (length p).
Proof.
  induction p as [|a tl IH]; cbn [rfind length]; [lia|].
  destruct (0 <=? rfind c tl) eqn:H.
  - apply Z.leb_le in H. lia.
  - destruct (Ascii.eqb a c); lia.
Qed.

Lemma rfind_negative (c : ascii) (p : list ascii) :
  (0 <=? rfind c p) = false -> rfind c p = -1.
Proof.
  intros H. apply Z.leb_gt in H. pose proof (rfind_range c p). lia.
Qed.

Lemma rfind_app (c : ascii) (a b : list ascii) :
  rfind c (a ++ b)
  = if 0 <=? rfind c b then Z.of_nat (length a) + rfind c b else rfind c a.
Proof.
  induction a as [|h t IH].
  - cbn [app length Z.of_nat rfind].
    destruct (0 <=? rfind c b) eqn:H; [lia|]. apply rfind_negative. exact H.
  - cbn [app rfind]. rewrite IH.
    destruct (0 <=? rfind c b) eqn:H.
    + apply Z.leb_le in H.
      replace (0 <=? Z.of_nat (length t) + rfind c b) with true
        by (symmetry; apply Z.leb_le; lia).
      cbn [length]. lia.
    + reflexivity.
Qed.

Lemma rfind_absent (c : ascii) (p : list ascii) :
  ~ In c p <-> rfind c p = -1.
Proof.
  induction p as [|a tl IH]; cbn [rfind In]; [tauto|].
  destruct (0 <=? rfind c tl) eqn:H.
  - apply Z.leb_le in H. split; [|lia].
    intros Hn. exfalso. apply Hn. right.
    destruct (in_dec ascii_dec c tl) as [Hin|Hout]; [exact Hin|].
    apply IH in Hout. lia.
  - apply rfind_negative in H.
    destruct (Ascii.eqb a c) eqn:E.
    + apply Ascii.eqb_eq in E. split; [intros Hn; exfalso; apply Hn; auto | lia].
    + apply Ascii.eqb_neq in E. split; [reflexivity|].
      intros _ [Heq|Hin]; [exact (E Heq)|]. apply IH in H. exact (H Hin).
Qed.

(** At the index [rfind] returns stands the character, and it does not
    occur after. *)
Lemma rfind_split (c : ascii) (p : list ascii) :
  0 <= rfind c p ->
  exists pre post,
    p = pre ++ c :: post /\
    Z.of_nat (length pre) = rfind c p /\
    ~ In c post.
Proof.
  induction p as [|a tl IH]; cbn [rfind]; [lia|].
  destruct (0 <=? rfind c tl) eqn:H.
  - apply Z.leb_le in H. intros _.
    destruct (IH H) as (pre & post & -> & Hlen & Hpost).
    exists (a :: pre), post. cbn [app length]. repeat split; auto. lia.
  - apply rfind_negative in H. destruct (Ascii.eqb a c) eqn:E; [|lia].
    apply Ascii.eqb_eq in E. subst a. intros _.
    exists [], tl. repeat split. apply rfind_absent. exact H.
Qed.

Lemma firstn_length_app {A : Type} (a b : list A) :
  firstn (length a) (a ++ b) = a.
Proof.
  induction a as [|h t IH]; cbn [length firstn app];
    [destruct b; reflexivity | rewrite IH; reflexivity].
Qed.

Lemma skipn_length_app {A : Type} (a b : list A) :
  skipn (length a) (a ++ b) = b.
Proof. induction a as [|h t IH]; cbn [length skipn app]; auto. Qed.

Lemma py_slice_app_l {A : Type} (i j : Z) (a b : list A) :
  0 <= i -> j <= Z.of_nat (length a) ->
  py_slice i j (a ++ b) = py_slice i j a.
Proof.
  intros Hi Hj. unfold py_slice.
  destruct (Z_le_gt_dec i (Z.of_nat (length a))) as [Hle|Hgt].
  - rewrite skipn_app.
    replace (Z.to_nat i - length a)%nat with 0%nat by lia.
    cbn [skipn]. rewrite firstn_app.
    rewrite length_skipn.
    replace (Z.to_nat j - Z.to_nat i - (length a - Z.to_nat i))%nat
      with 0%nat by lia.
    cbn [firstn]. apply app_nil_r.
  - replace (Z.to_nat j - Z.to_nat i)%nat with 0%nat by lia. reflexivity.
Qed.

Lemma py_slice_In {A : Type} (i j : Z) (l : list A) (k : nat) (x : A) :
  nth_error l k = Some x -> 0 <= i <= Z.of_nat k -> Z.of_nat k < j ->
  In x (py_slice i j l).
Proof.
  intros Hk Hi Hj. unfold py_slice.
  apply (nth_error_In _ (k - Z.to_nat i)).
  rewrite nth_error_firstn.
  replace (k - Z.to_nat i <? Z.to_nat j - Z.to_nat i)%nat with true
    by (symmetry; apply Nat.ltb_lt; lia).
  rewrite nth_error_skipn.
  replace (Z.to_nat i + (k - Z.to_nat i))%nat with k by lia. exact Hk.
Qed.

End PathFacts.

Section AnnotatedPath.
Import PosixPath.

Let suffix : list ascii := list_ascii_of_string "_annotated".

Lemma suffix_no_sep : rfind sep suffix = -1.
Proof. reflexivity. Qed.

Lemma suffix_no_dot : rfind extsep suffix = -1.
Proof. reflexivity. Qed.

(** The two results of [splitext]: no extension, or the split at the last
    dot, which lies after the last separator and after some character of the
    file name that is not a dot. *)
Lemma splitext_cases (p : list ascii) :
  (splitext p = (p, []) /\
   ((rfind sep p <? rfind extsep p)
    && existsb (fun c => negb (Ascii.eqb c extsep))
               (py_slice (rfind sep p + 1) (rfind extsep p) p))%bool = false)
  \/
  (exists root rest,
      p = root ++ extsep :: rest /\
      splitext p = (root, extsep :: rest) /\
      Z.of_nat (length root) = rfind extsep p /\
      ~ In extsep rest /\
      ~ In sep (extsep :: rest) /\
      rfind sep root = rfind sep p /\
      rfind sep p < rfind extsep p /\
      existsb (fun c => negb (Ascii.eqb c extsep))
              (py_slice (rfind sep p + 1) (rfind extsep p) p) = true).
Proof.
  unfold splitext.
  destruct (rfind sep p <? rfind extsep p) eqn:Hlt;
    [|left; split; reflexivity].
  destruct (existsb _ (py_slice (rfind sep p + 1) (rfind extsep p) p)) eqn:Hex;
    [|left; split; reflexivity].
  right. apply Z.ltb_lt in Hlt.
  pose proof (rfind_range sep p) as Hsep.
  destruct (rfind_split extsep p ltac:(lia)) as (root & rest & Hp & Hlen & Hrest).
  exists root, rest.
  assert (Hsl : py_slice_to (rfind extsep p) p = root
                /\ py_slice_from (rfind extsep p) p = extsep :: rest).
  { unfold py_slice_to, py_slice_from.
    replace (rfind extsep p <? 0) with false by (symmetry; apply Z.ltb_ge; lia).
    rewrite <- Hlen, Nat2Z.id.
    split; rewrite Hp; [apply firstn_length_app | apply skipn_length_app]. }
  destruct Hsl as [H1 H2]. rewrite H1, H2.
  assert (Hsepext : rfind sep (extsep :: rest) = -1).
  { destruct (0 <=? rfind sep (extsep :: rest)) eqn:H;
      [|apply rfind_negative; exact H].
    apply Z.leb_le in H. exfalso.
    pose proof (rfind_app sep root (extsep :: rest)) as Happ.
    rewrite <- Hp in Happ.
    replace (0 <=? rfind sep (extsep :: rest)) with true in Happ
      by (symmetry; apply Z.leb_le; exact H).
    lia. }
  repeat split; auto.
  - apply rfind_absent. exact Hsepext.
  - pose proof (rfind_app sep root (extsep :: rest)) as Happ.
    rewrite <- Hp, Hsepext in Happ. cbn in Happ. congruence.
Qed.

Lemma splitext_join (p : list ascii) :
  fst (splitext p) ++ snd (splitext p) = p.
Proof.
  destruct (splitext_cases p) as [[-> _] | (root & rest & Hp & -> & _)];
    cbn [fst snd]; [apply app_nil_r | congruence].
Qed.

(** [splitext] of the annotated path: the root with the suffix, and the
    extension of the data path. *)
Lemma splitext_annotated (p : list ascii) :
  splitext (get_annotated_path p)
  = (fst (splitext p) ++ suffix, snd (splitext p)).
Proof.
  unfold get_annotated_path. fold suffix.
  destruct (splitext_cases p)
    as [[Hs Hno] | (root & rest & Hp & Hs & Hlen & Hrest & Hsep & Hroot & Hlt & Hex)];
    rewrite Hs; cbn [fst snd].
  - (* no extension: the suffix adds neither a dot nor a separator *)
    rewrite app_nil_r. unfold splitext.
    rewrite !rfind_app, suffix_no_sep, suffix_no_dot. cbn [Z.leb Z.compare].
    cbv iota.
    pose proof (rfind_range sep p) as Hrs.
    pose proof (rfind_range extsep p) as Hrd.
    rewrite py_slice_app_l by lia.
    apply andb_false_iff in Hno. destruct Hno as [-> | Hno]; [reflexivity|].
    rewrite Hno. destruct (_ <? _); reflexivity.
  - (* an extension: the last dot is the same dot, ten characters later *)
    assert (Hdot : rfind extsep (extsep :: rest) = 0).
    { cbn [rfind]. apply rfind_absent in Hrest. rewrite Hrest.
      cbn [Z.leb Z.compare]. cbv iota. rewrite Ascii.eqb_refl. reflexivity. }
    assert (Hsepext : rfind sep (extsep :: rest) = -1)
      by (apply rfind_absent; exact Hsep).
    unfold splitext. rewrite app_assoc.
    rewrite !(rfind_app _ (root ++ suffix) (extsep :: rest)), Hdot, Hsepext.
    cbn [Z.leb Z.compare]. cbv iota.
    rewrite (rfind_app sep root suffix), suffix_no_sep.
    cbn [Z.leb Z.compare]. cbv iota.
    rewrite Z.add_0_r.
    pose proof (rfind_range sep root) as Hrs.
    replace (rfind sep root <? Z.of_nat (length (root ++ suffix))) with true
      by (symmetry; apply Z.ltb_lt; rewrite length_app; lia).
    assert (Hin : In "_"%char
                    (py_slice (rfind sep root + 1)
                       (Z.of_nat (length (root ++ suffix)))
                       ((root ++ suffix) ++ extsep :: rest))).
    { apply (py_slice_In _ _ _ (length root)).
      - rewrite <- app_assoc, nth_error_app2, Nat.sub_diag by lia. reflexivity.
      - lia.
      - rewrite length_app. cbn. lia. }
    replace (existsb (fun c => negb (Ascii.eqb c extsep))
               (py_slice (rfind sep root + 1)
                  (Z.of_nat (length (root ++ suffix)))
                  ((root ++ suffix) ++ extsep :: rest))) with true.
    2:{ symmetry. apply existsb_exists. exists "_"%char. split; [exact Hin|].
        reflexivity. }
    unfold py_slice_to, py_slice_from.
    replace (Z.of_nat (length (root ++ suffix)) <? 0) with false
      by (symmetry; apply Z.ltb_ge; lia).
    rewrite Nat2Z.id, firstn_length_app, skipn_length_app. reflexivity.
Qed.

End AnnotatedPath.

(** The example of the docstring of [load_annotated_data], and two edge
    cases: a dot in a directory name and a hidden file. *)
Example get_annotated_path_docstring :
  get_annotated_path (list_ascii_of_string "path/data.csv")
  = list_ascii_of_string "path/data_annotated.csv" /\
  get_annotated_path (list_ascii_of_string "run.1/data")
  = list_ascii_of_string "run.1/data_annotated" /\
  get_annotated_path (list_ascii_of_string "dir/.hidden")
  = list_ascii_of_string "dir/.hidden_annotated".
Proof. repeat split. Qed.

(** X15.  [get_annotated_path] inserts the ten characters '_annotated' and
    changes nothing else: the data path is [root ++ ext], the result is
    [root ++ '_annotated' ++ ext], where [ext] is empty or starts at a dot
    and holds no other dot and no separator.  So the result is ten
    characters longer and never the data path itself. *)
Theorem annotated_path_shape (p : list ascii) :
  exists root ext,
    p = root ++ ext /\
    PosixPath.splitext p = (root, ext) /\
    get_annotated_path p = root ++ list_ascii_of_string "_annotated" ++ ext /\
    (ext = [] \/
     exists rest, ext = "."%char :: rest /\
                  ~ In "."%char rest /\ ~ In "/"%char rest) /\
    length (get_annotated_path p) = (length p + 10)%nat /\
    get_annotated_path p <> p.
Proof.
  destruct (PosixPath.splitext p) as [root ext] eqn:Hs.
  assert (Hp : p = root ++ ext).
  { pose proof (splitext_join p) as H. rewrite Hs in H. symmetry. exact H. }
  assert (Hg : get_annotated_path p
               = root ++ list_ascii_of_string "_annotated" ++ ext).
  { unfold get_annotated_path. rewrite Hs. reflexivity. }
  assert (Hlen : length (get_annotated_path p) = (length p + 10)%nat).
  { rewrite Hg, Hp, !length_app. cbn [list_ascii_of_string length]. lia. }
  exists root, ext. repeat split; auto.
  - destruct (splitext_cases p)
      as [[Hs' _] | (root' & rest & _ & Hs' & _ & Hrest & Hsep & _)];
      rewrite Hs in Hs'; injection Hs' as -> ->; [left; reflexivity|].
    right. exists rest. repeat split; auto.
    intros Hin. apply Hsep. right. exact Hin.
  - intros Heq. rewrite Heq in Hlen. lia.
Qed.

(** X16.  The annotated path keeps the extension of the data path:
    [splitext] of the result is the root of the data path with '_annotated'
    appended, and the extension of the data path. *)
Theorem annotated_path_keeps_extension (p : list ascii) :
  PosixPath.splitext (get_annotated_path p)
  = (fst (PosixPath.splitext p) ++ list_ascii_of_string "_annotated",
     snd (PosixPath.splitext p)).
Proof. apply splitext_annotated. Qed.

Lemma get_annotated_path_inj (p q : list ascii) :
  get_annotated_path p = get_annotated_path q -> p = q.
Proof.
  intros Heq.
  pose proof (splitext_annotated p) as Hp.
  pose proof (splitext_annotated q) as Hq.
  rewrite Heq, Hq in Hp. injection Hp as Hroot Hext.
  apply app_inv_tail in Hroot.
  rewrite <- (splitext_join p), <- (splitext_join q). congruence.
Qed.

(** X17.  Different data paths have different annotated paths. *)
Theorem annotated_paths_differ (p q : list ascii) :
  p <> q -> get_annotated_path p <> get_annotated_path q.
Proof.
  intros Hne Heq. apply Hne. apply get_annotated_path_inj. exact Heq.
Qed.

Lemma annotated_paths_differ_witness :
  get_annotated_path (list_ascii_of_string "data.csv")
  <> get_annotated_path (list_ascii_of_string "data.tsv").
Proof.
  apply annotated_paths_differ. discriminate.
Defined.

(** ** More on the construction *)

Lemma init_subset (d0 : DataFrame) txt n idc ann edit gh rnd lbls dc draw
    (self : Tortus) :
  init d0 txt n idc ann edit gh rnd lbls dc draw = Ok self ->
  create_subset_df draw (attributes d0 txt n idc ann edit gh rnd lbls dc)
  = Ok (subset_df self).
Proof.
  unfold init. destruct (create_subset_df _ _) as [d|]; cbn [bindR];
    [|discriminate].
  intros H. injection H as <-. reflexivity.
Qed.

Lemma sample_rows (n : Z) (draw : list nat) (d e : DataFrame) (r : Row) :
  sample n draw d = Ok e -> In r (rows e) -> In r (rows d).
Proof.
  unfold sample. destruct (n <? 0); [discriminate|].
  destruct ((len d =? 0) && negb (n =? 0)); [discriminate|].
  destruct (2 ^ 64 <=? n); [discriminate|].
  destruct (len d <? n); [discriminate|].
  intros H. injection H as <-. cbn [rows]. rewrite in_flat_map.
  intros (i & _ & Hi). destruct (nth_error (rows d) i) eqn:Hn; [|contradiction].
  destruct Hi as [<- | []]. apply (nth_error_In _ _ Hn).
Qed.

Lemma sample_columns (n : Z) (draw : list nat) (d e : DataFrame) :
  sample n draw d = Ok e -> columns e = columns d.
Proof.
  unfold sample. destruct (n <? 0); [discriminate|].
  destruct ((len d =? 0) && negb (n =? 0)); [discriminate|].
  destruct (2 ^ 64 <=? n); [discriminate|].
  destruct (len d <? n); [discriminate|].
  intros H. injection H as <-. reflexivity.
Qed.

(** X18.  In every mode, random order included and whatever the count and
    the generator's draw: when construction succeeds, the working subset has
    the columns of the source table and each of its rows is an eligible
    source row, that is, with a prior table that is not empty, a row whose
    text is in the prior table's text column in edit mode and a row whose
    text is not in it outside edit mode. *)
Theorem working_subset_rows_are_eligible
    d0 txt n idc ann edit gh rnd lbls dc draw (self : Tortus) (i j : nat) :
  let this := attributes d0 txt n idc ann edit gh rnd lbls dc in
  (empty (annotations this) = false ->
   find_label txt (columns (annotations this)) = Some i /\
   find_label txt (columns d0) = Some j) ->
  init d0 txt n idc ann edit gh rnd lbls dc draw = Ok self ->
  columns (subset_df self) = columns d0 /\
  forall r, In r (rows (subset_df self)) ->
    In r (rows d0) /\
    (empty (annotations this) = false ->
     if edit
     then In (cell j r) (map (cell i) (rows (annotations this)))
     else ~ In (cell j r) (map (cell i) (rows (annotations this)))).
Proof.
  intros this Hcols Hinit.
  pose proof (init_subset _ _ _ _ _ _ _ _ _ _ _ _ Hinit) as Hsub. fold this in Hsub.
  rewrite create_subset_df_eq, (rows_to_annotate_eligible this i j Hcols) in Hsub.
  cbn [bindR] in Hsub.
  set (e := {| columns := columns (df this); rows := eligible_rows this i j |})
    in Hsub.
  assert (H : columns (subset_df self) = columns d0 /\
              forall r, In r (rows (subset_df self)) -> In r (eligible_rows this i j)).
  { destruct (random this).
    - split; [apply (sample_columns _ _ _ _ Hsub)|].
      intros r Hr. apply (sample_rows _ _ _ _ r Hsub Hr).
    - injection Hsub as <-. split; [reflexivity|].
      intros r Hr. apply (py_slice_to_incl _ _ _ Hr). }
  destruct H as [Hc Hr]. split; [exact Hc|].
  intros r Hin. apply (eligible_rows_In this i j r). apply Hr. exact Hin.
Qed.

Lemma working_subset_rows_are_eligible_witness :
  exists self,
    init demo_df "text" 2 (Some "id") (Some demo_prior) false None true
         default_labels false [1; 0]%nat = Ok self /\
    rows (subset_df self) = [(2, [VInt 12; VStr "so-so"]); (0, [VInt 10; VStr "good"])] /\
    columns (subset_df self) = columns demo_df /\
    forall r, In r (rows (subset_df self)) ->
      In r (rows demo_df) /\
      ~ In (cell 1 r) (map (cell 1) (rows demo_prior)).
Proof.
  eexists. split; [reflexivity|]. split; [reflexivity|].
  destruct (working_subset_rows_are_eligible demo_df "text" 2 (Some "id")
              (Some demo_prior) false None true default_labels false [1; 0]%nat
              _ 1%nat 1%nat (fun _ => conj eq_refl eq_refl) eq_refl)
    as [Hc Hr].
  split; [exact Hc|].
  intros r Hin. destruct (Hr r Hin) as [H1 H2]. split; [exact H1|].
  apply H2. reflexivity.
Defined.





(** X21.  Without a prior table and with random order off (or forced off
    by edit mode), construction never fails, whatever the source table, the
    text column and the count: the working subset is the slice [df[:n]] of
    the whole source table, also in edit mode, where there is nothing to
    edit; the annotation table is empty with its four columns and the
    position is 0. *)
Theorem construction_without_prior_table
    d0 txt n idc edit gh rnd lbls dc draw :
  edit = true \/ rnd = false ->
  exists self,
    init d0 txt n idc None edit gh rnd lbls dc draw = Ok self /\
    subset_df self = slice_to n d0 /\
    annotations self
    = new_frame [match idc with Some c => c | None => "id_column" end;
                 txt; "label"; "annotated_at"] /\
    annotation_index self = 0 /\
    random self = false.
Proof.
  intros Hmode.
  assert (Hrnd : (if edit then false else rnd) = false)
    by (destruct Hmode as [-> | ->]; [reflexivity | destruct edit; reflexivity]).
  eexists. split.
  - unfold init. rewrite create_subset_df_eq.
    replace (rows_to_annotate (attributes d0 txt n idc None edit gh rnd lbls dc))
      with (Ok d0) by (unfold rows_to_annotate, attributes; destruct idc; reflexivity).
    cbn [bindR].
    change (random (attributes d0 txt n idc None edit gh rnd lbls dc))
      with (if edit then false else rnd).
    rewrite Hrnd. reflexivity.
  - cbn [set_subset_df subset_df annotations annotation_index random attributes
         num_records].
    repeat split; auto. destruct idc; reflexivity.
Qed.

Lemma construction_without_prior_table_witness :
  exists self,
    init demo_df "no such column" 2 None None true None true default_labels false [7]%nat
    = Ok self /\
    subset_df self = slice_to 2 demo_df /\
    annotations self
    = new_frame ["id_column"; "no such column"; "label"; "annotated_at"] /\
    annotation_index self = 0 /\
    random self = false.
Proof.
  apply (construction_without_prior_table demo_df "no such column" 2 None true None
           true default_labels false [7]%nat).
  left. reflexivity.
Defined.

(** ** What [annotate] needs and shows *)

Lemma find_label_Some_In (c : string) (cols : list string) (i : nat) :
  find_label c cols = Some i -> In c cols.
Proof.
  revert i. induction cols as [|c' tl IH]; intros i; cbn [find_label];
    [discriminate|].
  destruct (String.eqb c c') eqn:E.
  - apply String.eqb_eq in E. subst. intros _. left. reflexivity.
  - destruct (find_label c tl) as [k|]; [|discriminate].
    intros _. right. apply (IH k eq_refl).
Qed.

(** X22.  On tables whose column labels are pairwise distinct, [annotate]
    displays only if the id column is configured and is a column of both
    tables, at least three labels are configured, [num_records] is not
    negative, and [get_html], by default the text cell of the current
    record, returns a string for the current record.  What it then displays
    is that string between '<h4>' tags, one enabled button per configured
    label in their order, an enabled skip button, hidden confirm and redo
    buttons, and a progress bar whose value is the position, capped at
    [num_records] and floored at 0, with the caption
    'position + 1 / num_records'. *)
Theorem annotate_needs_and_shows (self : Tortus) (w : Widgets) :
  NoDup (columns (annotations self)) ->
  NoDup (columns (subset_df self)) ->
  annotate self = Ok w ->
  (exists c, id_column self = Some c /\
             In c (columns (annotations self)) /\
             In c (columns (subset_df self))) /\
  (3 <= length (labels self))%nat /\
  0 <= num_records self /\
  (exists row t,
      iloc (subset_df self) (annotation_index self) = Ok row /\
      call_get_html self row = Ok (VStr t) /\
      (get_html self = None ->
       TextAt self (annotation_index self) = Ok (VStr t)) /\
      html w = ("<h4>" ++ t ++ "</h4>")%string) /\
  label_buttons w
  = map (fun l => {| description := l; disabled := false |}) (labels self) /\
  skip_button w = {| description := "Skip"; disabled := false |} /\
  confirm_visible w = false /\
  progress_value w = bounded 0 (num_records self) (annotation_index self) /\
  progress_description w
  = Position (annotation_index self + 1) (num_records self).
Proof.
  intros _ _ H.
  destruct (annotate_inv self w H)
    as (row & t & o & Hrow & Hhook & Hlook & Hn & Hlabels & ->).
  cbn [html label_buttons skip_button confirm_visible progress_value
       progress_description].
  destruct (lookup_inv _ _ _ Hlook) as (c & i & j & r' & Hc & Hi & Hj & _).
  split; [|split; [|split; [|split; [|repeat split]]]].
  - exists c. split; [exact Hc|].
    split; [apply (find_label_Some_In _ _ _ Hi) | apply (find_label_Some_In _ _ _ Hj)].
  - exact Hlabels.
  - exact Hn.
  - exists row, t. split; [exact Hrow|]. split; [exact Hhook|].
    split; [|reflexivity].
    intros Hdefault. unfold call_get_html in Hhook. rewrite Hdefault in Hhook.
    unfold series_getitem, get_loc in Hhook.
    unfold iloc in Hrow.
    destruct (py_index (rows (subset_df self)) (annotation_index self))
      as [r|] eqn:Hr; cbn [bindR] in Hrow; [|discriminate].
    injection Hrow as <-. cbn [index values] in Hhook.
    unfold TextAt, getitem, get_loc.
    destruct (find_label (text self) (columns (subset_df self))) as [k|];
      cbn [bindR] in Hhook |- *; [|discriminate].
    rewrite (py_index_map (cell k) _ _ _ Hr). unfold cell. exact Hhook.
Qed.

Lemma annotate_needs_and_shows_witness :
  (exists c, id_column demo_tortus = Some c /\
             In c (columns (annotations demo_tortus)) /\
             In c (columns (subset_df demo_tortus))) /\
  (3 <= length (labels demo_tortus))%nat /\
  0 <= num_records demo_tortus /\
  (exists row t,
      iloc (subset_df demo_tortus) 0 = Ok row /\
      call_get_html demo_tortus row = Ok (VStr t) /\
      (get_html demo_tortus = None -> TextAt demo_tortus 0 = Ok (VStr t)) /\
      html (demo_widgets 0 "<h4>good</h4>") = ("<h4>" ++ t ++ "</h4>")%string).
Proof.
  assert (Ha : NoDup (columns (annotations demo_tortus)))
    by (cbn; distinct_labels).
  assert (Hs : NoDup (columns (subset_df demo_tortus)))
    by (cbn; distinct_labels).
  destruct (annotate_needs_and_shows demo_tortus (demo_widgets 0 "<h4>good</h4>")
              Ha Hs eq_refl) as (H1 & H2 & H3 & H4 & _).
  repeat split; assumption.
Defined.

(** ** A write taken back *)

(** The widgets [annotate] builds are all enabled, with the confirm and redo
    buttons hidden. *)
Lemma annotate_fresh (self : Tortus) (w : Widgets) :
  annotate self = Ok w ->
  set_confirm_visible false
    (set_disabled false (set_confirm_visible true (set_disabled true w)))
  = w.
Proof.
  intros H. destruct (annotate_inv self w H) as (row & t & o & _ & _ & _ & _ & _ & ->).
  unfold set_confirm_visible, set_disabled.
  cbn [html label_buttons skip_button progress_value progress_description
       confirm_visible description].
  rewrite !map_map. cbn [description]. reflexivity.
Qed.

(** X23.  With confirmation on, on a well-formed session that [annotate]
    has just rendered, at a record without entry, a label or a skip followed
    by redo gives back the very same session: the object with its table and
    position, and the widgets, enabled again with confirm and redo hidden. *)
Theorem write_then_redo_is_identity (a : Action) (s : Session) :
  well_formed (tortus s) ->
  get_annotation_row_from_subset_iloc (tortus s) (position s) = Ok None ->
  display_confirm (tortus s) = true ->
  annotate (tortus s) = Ok (ui s) ->
  is_write a = true ->
  run [a; Undo] s = s.
Proof.
  intros Hwf Hlook Hdc Hfresh Ha.
  assert (Hw : forall button skip now,
             after (handler Undo)
               (after (label_or_skip_buttons_clicked button skip now) s) = s).
  { intros button skip now.
    destruct (write_cases button skip now s None Hwf Hlook)
      as (rid & txt & _ & _ & Htab).
    cbv zeta in Htab.
    unfold after at 2.
    rewrite write_unfold, (write_result_ok button skip now s None Hwf Hlook).
    cbv zeta. rewrite Hdc. cbn [snd tortus ui].
    unfold after. rewrite redo_button_clicked_eq. cbn [snd tortus ui].
    cbn [set_annotations annotations].
    fold (after (label_or_skip_buttons_clicked button skip now) s).
    rewrite Htab. unfold head, slice_to. cbn [columns rows].
    rewrite py_slice_drop_last.
    rewrite (annotate_fresh _ _ Hfresh).
    replace {| columns := columns (table s); rows := rows (table s) |}
      with (annotations (tortus s)) by (unfold table; destruct (annotations (tortus s)); reflexivity).
    replace (set_annotations (annotations (tortus s)) _) with (tortus s).
    - destruct s; reflexivity.
    - destruct (tortus s); reflexivity. }
  destruct a as [label now|now| | |]; try discriminate; cbn [run fold_left handler].
  - apply Hw.
  - apply (Hw (skip_button (ui s)) true now).
Qed.

Lemma write_then_redo_is_identity_witness :
  run [ChooseLabel "Negative" 3; Undo] demo_confirm = demo_confirm /\
  run [Skip 4; Undo] demo_confirm = demo_confirm.
Proof.
  split.
  - apply (write_then_redo_is_identity (ChooseLabel "Negative" 3) demo_confirm
             demo_confirm_well_formed); reflexivity.
  - apply (write_then_redo_is_identity (Skip 4) demo_confirm
             demo_confirm_well_formed); reflexivity.
Defined.

(** X24.  Before the last row of the working subset, confirm moves the
    position forward by one and prev, past the first row, back by one; on
    the first row prev changes nothing in the session and returns
    normally. *)
Theorem moves_before_the_last_row (s : Session) :
  position s < len (subset_df (tortus s)) - 1 ->
  position (after (handler Confirm) s) = position s + 1 /\
  (position s <> 0 -> position (after (handler Prev) s) = position s - 1) /\
  (position s = 0 -> handler Prev s = (Ok tt, s)).
Proof.
  intros Hlt. cbn [handler]. unfold confirm_button_clicked, prev_button_clicked.
  split; [|split].
  - apply move_clicked_before_last; [exact Hlt|]. intros [H _]. discriminate.
  - intros Hne. rewrite (move_clicked_before_last (-1) s Hlt); [lia|].
    intros [_ H]. exact (Hne H).
  - intros H0. unfold move_clicked, bind, get_self, ret, position in *.
    rewrite H0. reflexivity.
Qed.

Lemma moves_before_the_last_row_witness :
  position (after (handler Confirm) demo_relabel) = 1 /\
  handler Prev demo_relabel = (Ok tt, demo_relabel) /\
  position (after (handler Prev) (after (handler Confirm) demo_relabel)) = 0.
Proof.
  destruct (moves_before_the_last_row demo_relabel eq_refl) as (H1 & _ & H3).
  destruct (moves_before_the_last_row (after (handler Confirm) demo_relabel)
              eq_refl) as (_ & H2 & _).
  split; [exact H1|]. split; [exact (H3 eq_refl)|].
  apply H2. discriminate.
Defined.

(** * The writes, under their conditions *)


Lemma demo_session_writable : writable demo_session.
Proof. writable_by_computation. Defined.

Lemma demo_relabel_writable : writable demo_relabel.
Proof. writable_by_computation. Defined.



(** The sessions of the counterexamples are what the constructor and
    [annotate] build from a prior table. *)
Example demo_old_text_start :
  init demo_df "text" 3 (Some "id") (Some demo_old_prior) false None false
       default_labels false [] = Ok (tortus demo_old_text) /\
  start (tortus demo_old_text) = Ok demo_old_text.
Proof. split; reflexivity. Qed.

Example demo_shifted_start :
  init demo_df "text" 3 (Some "id") (Some demo_shifted_prior) false None false
       default_labels false [] = Ok (tortus demo_shifted) /\
  start (tortus demo_shifted) = Ok demo_shifted.
Proof. split; reflexivity. Qed.







(** C8, amended.  [ChooseLabel] validates nothing.  In no state does it
    raise [InvalidLabelError].  On a well-formed, writable session it stores
    [label.lower()], whether or not it is one of the configured labels, in
    the row it appends when no row of the table holds [RecordIdAt(p)], and
    else in the row that replaces the first one that holds it.  What keeps
    other labels out is only that the buttons [annotate] displays are built
    from the configured labels, one each. *)
Theorem choose_label_is_not_validated
    (s : Session) (label : string) (now : Z) :
  let s' := after (handler (ChooseLabel label now)) s in
  fst (handler (ChooseLabel label now) s) <> Raise InvalidLabelError /\
  (forall w, annotate (tortus s) = Ok w ->
             map description (label_buttons w) = labels (tortus s)) /\
  (well_formed (tortus s) ->
   writable s ->
   exists rid txt,
     RecordIdAt (tortus s) (position s) = Ok rid /\
     TextAt (tortus s) (position s) = Ok txt /\
     let new := [rid; txt; VStr (lower label); VTime now] in
     match find (same_id rid) (rows (table s)) with
     | None => rows (table s') = rows (table s) ++ [(len (table s), new)]
     | Some e =>
         exists pre post,
           rows (table s) = pre ++ e :: post /\
           find (same_id rid) pre = None /\
           rows (table s') = pre ++ (fst e, new) :: post
     end).
Proof.
  intros s'. split; [|split].
  - intros H. pose proof (handler_python _ _ _ H) as Hp. discriminate.
  - apply annotate_label_buttons.
  - intros Hwf Hw.
    destruct (write_effect {| description := label; disabled := false |}
                false now s Hwf Hw) as (rid & txt & Hrid & Htxt & _ & Heff).
    exists rid, txt. split; [exact Hrid|]. split; [exact Htxt|]. cbv zeta.
    unfold written_label in Heff. cbn [description] in Heff.
    subst s'. unfold handler, label_buttons_clicked.
    destruct (find (same_id rid) (rows (table s))) as [e|].
    + destruct Heff as (_ & pre & post & Hrows & Hpre & _ & Hnew).
      exists pre, post. repeat split; assumption.
    + destruct Heff as (_ & Hnew). exact Hnew.
Qed.

Lemma choose_label_is_not_validated_witness :
  fst (handler (ChooseLabel "Maybe" 7) demo_session) <> Raise InvalidLabelError /\
  map description (label_buttons (ui demo_session)) = labels (tortus demo_session) /\
  exists rid txt,
    RecordIdAt (tortus demo_session) 0 = Ok rid /\
    TextAt (tortus demo_session) 0 = Ok txt /\
    rid = VInt 10 /\ txt = VStr "good" /\
    rows (table (after (handler (ChooseLabel "Maybe" 7)) demo_session))
    = rows (table demo_session) ++ [(0, [VInt 10; VStr "good"; VStr "maybe"; VTime 7])].
Proof.
  destruct (choose_label_is_not_validated demo_session "Maybe" 7)
    as (H1 & H2 & H3).
  split; [exact H1|]. split; [exact (H2 (ui demo_session) eq_refl)|].
  destruct (H3 demo_session_well_formed demo_session_writable)
    as (rid & txt & Hrid & Htxt & H).
  assert (Er : rid = VInt 10) by (vm_compute in Hrid; congruence).
  assert (Et : txt = VStr "good") by (vm_compute in Htxt; congruence).
  exists rid, txt. subst rid txt. cbv zeta in H.
  change (find (same_id (VInt 10)) (rows (table demo_session)))
    with (@None Row) in H.
  repeat split; assumption.
Defined.

(** C8, as stated, fails: with the default labels, a click carrying 'Maybe',
    which is none of them in any letter case, returns normally and its
    lowercased text is stored; so is 'ärger' for a click carrying
    'ÄRGER'. *)
Lemma label_outside_set_is_recorded :
  ~ In (lower "Maybe") (map lower (labels (tortus demo_session))) /\
  ~ In (lower "Maybe") ["positive"; "negative"; "neutral"] /\
  fst (handler (ChooseLabel "Maybe" 7) demo_session) = Ok tt /\
  rows (table demo_session) = [] /\
  rows (table (after (handler (ChooseLabel "Maybe" 7)) demo_session))
  = [(0, [VInt 10; VStr "good"; VStr "maybe"; VTime 7])] /\
  rows (table (after (handler (ChooseLabel "ÄRGER" 7)) demo_session))
  = [(0, [VInt 10; VStr "good"; VStr "ärger"; VTime 7])].
Proof.
  split; [|split; [|repeat split]].
  - vm_compute. intuition discriminate.
  - vm_compute. intuition discriminate.
Qed.
